(** * Full-page screenshot capture of the IE driver

    A shallow embedding of [ScreenshotCommandHandler.h] and
    [ScreenshotUtilities.cpp] (namespace [webdriver]) and the properties of
    the capture pipeline: window growth and restoration, the paint retry
    loop, the uniform-colour heuristic and the PNG/base64 conversion.

    The Win32 window manager, the MSHTML document and GDI are the
    environment of the program.  Their answers are the fields of [Env];
    the state they keep (the top-level window, the handler's [image_]
    member, the sequence of calls made) is [World]. *)

From Stdlib Require Import ZArith List Bool String Ascii Lia.
Import ListNotations.
Local Open Scope Z_scope.

(* ================================================================= *)
(** ** Machine integers *)

(** [int] and [long] are both 32 bits wide with the MSVC data model.
    Values are kept in [Z]; every addition and subtraction of the source
    goes through [wrap]. *)
Module Int32.

Definition INT_MIN : Z := -2147483648.
Definition INT_MAX : Z := 2147483647.

Definition wrap (z : Z) : Z := (z + 2147483648) mod 4294967296 - 2147483648.

Definition add (a b : Z) : Z := wrap (a + b).
Definition sub (a b : Z) : Z := wrap (a - b).

Definition in_range (z : Z) : Prop := INT_MIN <= z <= INT_MAX.

End Int32.

(* ================================================================= *)
(** ** Win32 vocabulary *)

Module Win32.

Definition HWND := Z.
Definition HRESULT := Z.

Definition S_OK : HRESULT := 0.
Definition E_FAIL : HRESULT := -2147467259.      (* 0x80004005 *)
Definition E_POINTER : HRESULT := -2147467261.   (* 0x80004003 *)

Definition SUCCEEDED (hr : HRESULT) : bool := 0 <=? hr.
Definition FAILED (hr : HRESULT) : bool := hr <? 0.

Definition SW_MAXIMIZE : Z := 3.
Definition SW_SHOWNOACTIVATE : Z := 4.

  (** The [max] and [min] macros of <windows.h>. *)
Definition max (a b : Z) : Z := if a >? b then a else b.
Definition min (a b : Z) : Z := if a <? b then a else b.

Record RECT := { left : Z; top : Z; right : Z; bottom : Z }.

End Win32.
Import Win32.

(* ================================================================= *)
(** ** Images *)

(** An [ATL::CImage] holding a DIB section.  [img_bits] is the memory seen
    through [GetBits()]: it maps a byte offset from that pointer to the
    [INT32] stored there; [img_pitch] is [GetPitch()], negative for a
    bottom-up bitmap. *)
Record CImage := {
  img_width : Z;
  img_height : Z;
  img_bpp : Z;
  img_pitch : Z;
  img_bits : Z -> Z
}.

(** The pixel in column [x] of row [y], as the scan of
    [IsImageSameColour] addresses it. *)
Definition pixel (image : CImage) (x y : Z) : Z :=
  img_bits image (y * img_pitch image + 4 * x).

(** Result of a call that may not return to its caller.  [Throw] is a
    C++ exception or, for a call through a null pointer, the access
    violation that ends the run; nothing in these sources catches
    either. *)
Inductive Outcome (A : Type) : Type :=
| Ret (a : A)
| Throw (what : string).
Arguments Ret {A} a.
Arguments Throw {A} what.

(** Inner loop of [IsImageSameColour]: [for (x = ...; x < width; x++)],
    with [n] iterations left. *)
Fixpoint scan_row (bits : Z -> Z) (first_pixel row_ptr x : Z) (n : nat) : bool :=
  match n with
  | O => true
  | S n' =>
      if negb (first_pixel =? bits (row_ptr + 4 * x)) then false
      else scan_row bits first_pixel row_ptr (x + 1) n'
  end.

(** Outer loop: [for (y = ...; y < height; y++)], with [n] rows left. *)
Fixpoint scan_rows (bits : Z -> Z) (first_pixel width row_stride row_ptr : Z)
         (n : nat) : bool :=
  match n with
  | O => true
  | S n' =>
      if scan_row bits first_pixel row_ptr 0 (Z.to_nat width)
      then scan_rows bits first_pixel width row_stride (row_ptr + row_stride) n'
      else false
  end.

Definition IsImageSameColour (image : CImage) (check_width check_height : Z)
  : Outcome bool :=
  if negb (img_bpp image =? 32) then
    Throw "Invalid image bit depth. Must be 32 BPP."
  else
    let width := min check_width (img_width image) in
    let height := min check_height (img_height image) in
    let row_stride := img_pitch image in
    let row_ptr := 0 in
    let first_pixel := img_bits image row_ptr in
    Ret (scan_rows (img_bits image) first_pixel width row_stride row_ptr
           (Z.to_nat height)).

(* ================================================================= *)
(** ** The environment *)

(** A top-level window as the window manager keeps it. *)
Record Window := {
  win_rect : RECT;
  win_zoomed : bool
}.

(** What the window manager does with one [SetWindowPos] request: it
    applies the requested size, refuses the request (the call returns
    [FALSE] and the window is left alone), or reports success after
    giving the window another size (for instance the largest size it
    tolerates). *)
Inductive SwpOutcome :=
| SwpApplied
| SwpRefused
| SwpAdjusted (cx cy : Z).

(** Calls into the environment that leave a mark, in program order.
    [CallCaptureBrowser] is the trace line written on entry of
    [CaptureBrowser]. *)
Inductive Call :=
| CallCaptureBrowser
| CallShowWindow (hwnd : HWND) (nCmdShow : Z)
| CallSetWindowPos (hwnd : HWND) (cx cy : Z)
| CallRecalc (fForce : bool)
| CallPrintWindow (hwnd : HWND)
| CallUpdateWindow (hwnd : HWND).

(** The answers of the browser, the window manager, the document and GDI
    during one run of [CaptureBrowser]. *)
Record Env := {
  (* Browser *)
  top_level_window_handle : HWND;
  content_window_handle : HWND;
  (* whether [browser->GetDocument] leaves a document in [*document2];
     it leaves none for a non-HTML document *)
  document_present : bool;
  hr_query_document3 : HRESULT;
  standards_mode : bool;
  hr_get_documentElement : HRESULT;
  hr_get_body : HRESULT;
  hr_query_element2 : HRESULT;
  (* window manager *)
  top_rect_available : bool;
  view_rect : option RECT;
  maximized_rect : RECT;
  restored_rect : RECT;
  set_window_pos : Window -> Z -> Z -> SwpOutcome;
  (* canvas element: the values read before any re-sampling, and the
     pair (clientWidth, clientHeight) read at re-sampling round [i] *)
  canvas_clientWidth : Z;
  canvas_scrollWidth : Z;
  canvas_clientHeight : Z;
  canvas_scrollHeight : Z;
  canvas_client_after : nat -> Z * Z;
  (* GDI: whether the DIB section of a new image can be created, and the
     result and the painted memory of the [i]-th [PrintWindow] *)
  dib_create : Z -> Z -> bool;
  print_window : nat -> bool * (Z -> Z)
}.

Record World := {
  top_window : Window;
  image_ : option CImage;
  calls : list Call
}.

(* ================================================================= *)
(** ** State and exceptions *)

Definition M (A : Type) : Type := World -> Outcome A * World.

Definition ret {A} (a : A) : M A := fun s => (Ret a, s).

Definition bind {A B} (m : M A) (k : A -> M B) : M B :=
  fun s =>
    match m s with
    | (Ret a, s') => k a s'
    | (Throw what, s') => (Throw what, s')
    end.

Definition raise {A} (o : Outcome A) : M A := fun s => (o, s).

Notation "x <- c1 ;; c2" := (bind c1 (fun x => c2))
  (at level 61, c1 at next level, right associativity).
Notation "' pat <- c1 ;; c2" :=
  (bind c1 (fun x => match x with pat => c2 end))
  (at level 61, pat pattern, c1 at next level, right associativity).
Notation "c1 ;;; c2" := (bind c1 (fun _ => c2))
  (at level 61, right associativity).

Definition record_call (c : Call) : M unit :=
  fun s => (Ret tt, {| top_window := top_window s;
                       image_ := image_ s;
                       calls := calls s ++ [c] |}).

Definition set_top_window (w : Window) : M unit :=
  fun s => (Ret tt, {| top_window := w; image_ := image_ s; calls := calls s |}).

Definition get_top_window : M Window := fun s => (Ret (top_window s), s).

Definition set_image_ (i : option CImage) : M unit :=
  fun s => (Ret tt, {| top_window := top_window s; image_ := i; calls := calls s |}).

Definition get_image_ : M (option CImage) := fun s => (Ret (image_ s), s).

(* ================================================================= *)
(** ** Window manager primitives *)

Definition os_GetWindowRect (e : Env) (hwnd : HWND) : M (option RECT) :=
  w <- get_top_window ;;
  ret (if hwnd =? top_level_window_handle e then
         if top_rect_available e then Some (win_rect w) else None
       else if hwnd =? content_window_handle e then view_rect e
       else None).

Definition os_IsZoomed (e : Env) (hwnd : HWND) : M bool :=
  w <- get_top_window ;;
  ret (if hwnd =? top_level_window_handle e then win_zoomed w else false).

(** [SW_MAXIMIZE] gives the window the maximized rectangle of its
    monitor; [SW_SHOWNOACTIVATE] brings a maximized window back to its
    restored placement and leaves any other window as it is. *)
Definition os_ShowWindow (e : Env) (hwnd : HWND) (nCmdShow : Z) : M unit :=
  record_call (CallShowWindow hwnd nCmdShow) ;;;
  w <- get_top_window ;;
  if hwnd =? top_level_window_handle e then
    if nCmdShow =? SW_MAXIMIZE then
      set_top_window {| win_rect := maximized_rect e; win_zoomed := true |}
    else if nCmdShow =? SW_SHOWNOACTIVATE then
      if win_zoomed w then
        set_top_window {| win_rect := restored_rect e; win_zoomed := false |}
      else ret tt
    else ret tt
  else ret tt.

(** A rectangle of the given size with the same origin ([SWP_NOMOVE]). *)
Definition resized (r : RECT) (cx cy : Z) : RECT :=
  {| left := left r; top := top r;
     right := Int32.add (left r) cx; bottom := Int32.add (top r) cy |}.

Definition os_SetWindowPos (e : Env) (hwnd : HWND) (cx cy : Z) : M bool :=
  record_call (CallSetWindowPos hwnd cx cy) ;;;
  w <- get_top_window ;;
  if hwnd =? top_level_window_handle e then
    match set_window_pos e w cx cy with
    | SwpApplied =>
        set_top_window {| win_rect := resized (win_rect w) cx cy;
                          win_zoomed := win_zoomed w |} ;;;
        ret true
    | SwpAdjusted cx' cy' =>
        set_top_window {| win_rect := resized (win_rect w) cx' cy';
                          win_zoomed := win_zoomed w |} ;;;
        ret true
    | SwpRefused => ret false
    end
  else ret false.

(* ================================================================= *)
(** ** ScreenshotUtilities.cpp *)

(** [GetWindowSize]: [Some (width, height)] stands for [true] with the
    two results written, [None] for [false] with nothing written. *)
Definition GetWindowSize (e : Env) (hwnd : HWND) : M (option (Z * Z)) :=
  r <- os_GetWindowRect e hwnd ;;
  match r with
  | None => ret None
  | Some rect =>
      let width := Int32.sub (right rect) (left rect) in
      let height := Int32.sub (bottom rect) (top rect) in
      ret (Some (width, height))
  end.

Definition SetWindowSize (e : Env) (hwnd : HWND) (width height : Z) : M bool :=
  succeed <- os_SetWindowPos e hwnd width height ;;
  succeed <- (if succeed : bool then
                r <- GetWindowSize e hwnd ;;
                let '(width2, height2) :=
                  match r with Some p => p | None => (0, 0) end in
                ret ((width2 =? width) && (height2 =? height))
              else ret false) ;;
  ret succeed.

(* ================================================================= *)
(** ** ScreenshotCommandHandler.h: the paint capture *)

(** [ATL::CImage::Create(width, height, nBPP, 0)].  A positive height
    makes a bottom-up DIB, whose pitch is negative; the new section is
    zero-filled. *)
Definition CImage_Create (e : Env) (width height nBPP : Z) : option CImage :=
  if dib_create e width height then
    let stride := ((width * nBPP + 31) / 32) * 4 in
    Some {| img_width := width;
            img_height := Z.abs height;
            img_bpp := nBPP;
            img_pitch := if height >? 0 then - stride else stride;
            img_bits := fun _ => 0 |}
  else None.

(** The [i]-th [PrintWindow] into the device context of [image]. *)
Definition os_PrintWindow (e : Env) (hwnd : HWND) (i : nat) (image : CImage)
  : M (bool * CImage) :=
  record_call (CallPrintWindow hwnd) ;;;
  let '(is_print_success, painted) := print_window e i in
  ret (is_print_success,
       {| img_width := img_width image;
          img_height := img_height image;
          img_bpp := img_bpp image;
          img_pitch := img_pitch image;
          img_bits := painted |}).

Definition os_UpdateWindow (hwnd : HWND) : M unit :=
  record_call (CallUpdateWindow hwnd).

(** The try loop of [CaptureView], [for (i = 1; i <= 3; i++)], entered at
    try [i] with [tries_left] tries to go.  [continue] is the recursive
    call, [break] returns the image. *)
Fixpoint capture_tries (e : Env) (view_handle : HWND)
         (check_width check_height : Z) (i tries_left : nat) (image : CImage)
  : M CImage :=
  match tries_left with
  | O => ret image
  | S tries_left' =>
      '(is_print_success, image) <- os_PrintWindow e view_handle i image ;;
      if negb is_print_success then
        os_UpdateWindow view_handle ;;;
        capture_tries e view_handle check_width check_height (S i) tries_left' image
      else
        is_same_color <- raise (IsImageSameColour image check_width check_height) ;;
        if is_same_color : bool then
          os_UpdateWindow view_handle ;;;
          capture_tries e view_handle check_width check_height (S i) tries_left' image
        else ret image
  end.

(** [CaptureView]; [None] is the [NULL] result. *)
Definition CaptureView (e : Env) (view_handle : HWND)
           (width height check_width check_height : Z) : M (option CImage) :=
  match CImage_Create e width height 32 with
  | None => ret None
  | Some image =>
      image <- capture_tries e view_handle check_width check_height 1 3 image ;;
      ret (Some image)
  end.

(* ================================================================= *)
(** ** ScreenshotCommandHandler.h: the document accessors *)

(** The fault of a call through the null [IHTMLDocument2] pointer. *)
Definition NULL_DOCUMENT : string := "access violation: null IHTMLDocument2".

(** [GetDocument].  The test [if (!document2)] looks at the address of
    the caller's smart pointer, which is never null, so it never
    answers [false]: when the browser has left no document in
    [*document2], the call of [QueryInterface] that follows goes through
    a null pointer. *)
Definition GetDocument (e : Env) : Outcome bool :=
  let document2_is_null := false in      (* [!document2], an address *)
  if document2_is_null then Ret false
  else if negb (document_present e) then Throw NULL_DOCUMENT
  else if FAILED (hr_query_document3 e) then Ret false
  else Ret true.

Definition GetCanvas (e : Env) : bool :=
  let isStandardMode := standards_mode e in
  let got_canvas :=
    if isStandardMode then negb (FAILED (hr_get_documentElement e))
    else negb (FAILED (hr_get_body e)) in
  if negb got_canvas then false
  else if FAILED (hr_query_element2 e) then false
  else true.

Definition doc_recalc (fForce : bool) : M unit :=
  record_call (CallRecalc fForce).

(* ================================================================= *)
(** ** ScreenshotCommandHandler.h: CaptureBrowser *)

Definition SIZE_LIMIT : Z := 65534.

(** "Increase the window width if necessary": returns [scrollbarWidth],
    [targetViewWidth], [targetWindowWidth] and [is_resized_width]. *)
Definition increase_width (e : Env) (ie_window_handle : HWND)
           (is_maximized : bool) (windowWidth windowHeight viewWidth : Z)
  : M (Z * Z * Z * bool) :=
  let targetWindowWidth := windowWidth in
  let targetWindowHeight := windowHeight in
  let clientWidth := canvas_clientWidth e in
  let scrollWidth := canvas_scrollWidth e in
  let scrollbarWidth := max 0 (Int32.sub viewWidth clientWidth) in
  let targetViewWidth := max viewWidth (Int32.add scrollWidth scrollbarWidth) in
  if targetViewWidth >? viewWidth then
    let targetViewWidth :=
      if targetViewWidth >? SIZE_LIMIT then SIZE_LIMIT else targetViewWidth in
    (if is_maximized then os_ShowWindow e ie_window_handle SW_SHOWNOACTIVATE
     else ret tt) ;;;
    let targetWindowWidth :=
      Int32.add targetWindowWidth (Int32.sub targetViewWidth viewWidth) in
    SetWindowSize e ie_window_handle targetWindowWidth targetWindowHeight ;;;
    ret (scrollbarWidth, targetViewWidth, targetWindowWidth, true)
  else
    ret (scrollbarWidth, targetViewWidth, targetWindowWidth, false).

(** "Increase the window height if necessary": returns [scrollbarHeight],
    [targetViewHeight], [targetWindowHeight] and [is_resized_height]. *)
Definition increase_height (e : Env) (ie_window_handle : HWND)
           (is_maximized is_resized_width : bool)
           (windowHeight viewHeight scrollbarWidth targetWindowWidth : Z)
  : M (Z * Z * Z * bool) :=
  let targetWindowHeight := windowHeight in
  let clientHeight := canvas_clientHeight e in
  let scrollHeight := canvas_scrollHeight e in
  let scrollbarHeight := max 0 (Int32.sub viewHeight clientHeight) in
  let targetViewHeight := max viewHeight (Int32.add scrollHeight scrollbarHeight) in
  if targetViewHeight >? viewHeight then
    let targetViewHeight :=
      if targetViewHeight >? SIZE_LIMIT then SIZE_LIMIT else targetViewHeight in
    (if is_maximized && negb is_resized_width then
       os_ShowWindow e ie_window_handle SW_SHOWNOACTIVATE
     else ret tt) ;;;
    let targetViewHeight :=
      if scrollbarWidth >? 0 then Int32.sub targetViewHeight 2
      else targetViewHeight in
    let targetWindowHeight :=
      Int32.add targetWindowHeight (Int32.sub targetViewHeight viewHeight) in
    SetWindowSize e ie_window_handle targetWindowWidth targetWindowHeight ;;;
    ret (scrollbarHeight, targetViewHeight, targetWindowHeight, true)
  else
    ret (scrollbarHeight, targetViewHeight, targetWindowHeight, false).

(** The re-sampling loop [for (i = 0; i < 2; i++)], entered at round [i]
    with [rounds_left] rounds to go. *)
Fixpoint resample_client (e : Env) (is_resized_width is_resized_height : bool)
         (clientWidth clientHeight : Z) (i rounds_left : nat)
         (targetClientWidth targetClientHeight : Z) : M (Z * Z) :=
  match rounds_left with
  | O => ret (targetClientWidth, targetClientHeight)
  | S rounds_left' =>
      let '(targetClientWidth, targetClientHeight) := canvas_client_after e i in
      let calcWidthOK :=
        negb is_resized_width || negb (targetClientWidth =? clientWidth) in
      let calcHeightOK :=
        negb is_resized_height || negb (targetClientHeight =? clientHeight) in
      if calcWidthOK && calcHeightOK then
        ret (targetClientWidth, targetClientHeight)
      else
        let fForce := Nat.ltb 0 i in
        doc_recalc fForce ;;;
        resample_client e is_resized_width is_resized_height
                        clientWidth clientHeight (S i) rounds_left'
                        targetClientWidth targetClientHeight
  end.

(** "Get the final client size." *)
Definition final_client_size (e : Env) (is_resized_width is_resized_height : bool)
           (clientWidth clientHeight : Z) : M (Z * Z) :=
  let targetClientWidth := clientWidth in
  let targetClientHeight := clientHeight in
  if is_resized_width || is_resized_height then
    resample_client e is_resized_width is_resized_height
                    clientWidth clientHeight 0 2
                    targetClientWidth targetClientHeight
  else ret (targetClientWidth, targetClientHeight).

(** "Restore the browser to the original dimensions." *)
Definition restore_window (e : Env) (ie_window_handle : HWND)
           (is_resized_width is_resized_height is_maximized : bool)
           (windowWidth windowHeight : Z) : M unit :=
  if is_resized_width || is_resized_height then
    if is_maximized then os_ShowWindow e ie_window_handle SW_MAXIMIZE
    else SetWindowSize e ie_window_handle windowWidth windowHeight ;;; ret tt
  else ret tt.

(** The local variables of [CaptureBrowser] when it returns from its last
    statement.  [fr_sampledClientWidth] and [fr_sampledClientHeight] are
    [targetClientWidth] and [targetClientHeight] before the one-pixel
    floor, [fr_targetClientWidth] and [fr_targetClientHeight] after it;
    the last four fields are the arguments given to [CaptureView]. *)
Record Frame := {
  fr_windowWidth : Z;
  fr_windowHeight : Z;
  fr_viewWidth : Z;
  fr_viewHeight : Z;
  fr_is_maximized : bool;
  fr_clientWidth : Z;
  fr_scrollWidth : Z;
  fr_scrollbarWidth : Z;
  fr_targetViewWidth : Z;
  fr_is_resized_width : bool;
  fr_clientHeight : Z;
  fr_scrollHeight : Z;
  fr_scrollbarHeight : Z;
  fr_targetViewHeight : Z;
  fr_is_resized_height : bool;
  fr_targetWindowWidth : Z;
  fr_targetWindowHeight : Z;
  fr_sampledClientWidth : Z;
  fr_sampledClientHeight : Z;
  fr_targetClientWidth : Z;
  fr_targetClientHeight : Z;
  fr_check_width : Z;
  fr_check_height : Z
}.

(** The part of [CaptureBrowser] that follows the query of the handles,
    the document, the canvas and the two window sizes. *)
Definition capture_resized (e : Env) (ie_window_handle content_window_handle : HWND)
           (windowWidth windowHeight viewWidth viewHeight : Z)
  : M (HRESULT * option Frame) :=
  is_maximized <- os_IsZoomed e ie_window_handle ;;
  '(scrollbarWidth, targetViewWidth, targetWindowWidth, is_resized_width) <-
    increase_width e ie_window_handle is_maximized
                   windowWidth windowHeight viewWidth ;;
  let clientWidth := canvas_clientWidth e in
  '(scrollbarHeight, targetViewHeight, targetWindowHeight, is_resized_height) <-
    increase_height e ie_window_handle is_maximized is_resized_width
                    windowHeight viewHeight scrollbarWidth targetWindowWidth ;;
  let clientHeight := canvas_clientHeight e in
  '(sampledClientWidth, sampledClientHeight) <-
    final_client_size e is_resized_width is_resized_height
                      clientWidth clientHeight ;;
  let '(targetClientWidth, targetClientHeight) :=
    if (sampledClientWidth <? 1) || (sampledClientHeight <? 1)
    then (targetViewWidth, targetViewHeight)
    else (sampledClientWidth, sampledClientHeight) in
  let check_width := Int32.sub clientWidth 17 in
  let check_height := Int32.sub clientHeight 17 in
  image <- CaptureView e content_window_handle
                       targetClientWidth targetClientHeight
                       check_width check_height ;;
  set_image_ image ;;;
  restore_window e ie_window_handle is_resized_width is_resized_height
                 is_maximized windowWidth windowHeight ;;;
  image <- get_image_ ;;
  ret (match image with None => E_FAIL | Some _ => S_OK end,
       Some {| fr_windowWidth := windowWidth;
               fr_windowHeight := windowHeight;
               fr_viewWidth := viewWidth;
               fr_viewHeight := viewHeight;
               fr_is_maximized := is_maximized;
               fr_clientWidth := clientWidth;
               fr_scrollWidth := canvas_scrollWidth e;
               fr_scrollbarWidth := scrollbarWidth;
               fr_targetViewWidth := targetViewWidth;
               fr_is_resized_width := is_resized_width;
               fr_clientHeight := clientHeight;
               fr_scrollHeight := canvas_scrollHeight e;
               fr_scrollbarHeight := scrollbarHeight;
               fr_targetViewHeight := targetViewHeight;
               fr_is_resized_height := is_resized_height;
               fr_targetWindowWidth := targetWindowWidth;
               fr_targetWindowHeight := targetWindowHeight;
               fr_sampledClientWidth := sampledClientWidth;
               fr_sampledClientHeight := sampledClientHeight;
               fr_targetClientWidth := targetClientWidth;
               fr_targetClientHeight := targetClientHeight;
               fr_check_width := check_width;
               fr_check_height := check_height |}).

(** [CaptureBrowser] with the frame of its locals; the frame is [None]
    on the early [return E_FAIL] exits (and there is none when the run
    stops in [GetDocument]). *)
Definition CaptureBrowser_frame (e : Env) : M (HRESULT * option Frame) :=
  record_call CallCaptureBrowser ;;;
  let ie_window_handle := top_level_window_handle e in
  let content_window_handle := content_window_handle e in
  if (ie_window_handle =? 0) || (content_window_handle =? 0) then
    ret (E_FAIL, None)
  else
    got_document <- raise (GetDocument e) ;;
    if negb got_document then ret (E_FAIL, None)
    else if negb (GetCanvas e) then ret (E_FAIL, None)
    else
      window_size <- GetWindowSize e ie_window_handle ;;
      match window_size with
      | None => ret (E_FAIL, None)
      | Some (windowWidth, windowHeight) =>
          view_size <- GetWindowSize e content_window_handle ;;
          match view_size with
          | None => ret (E_FAIL, None)
          | Some (viewWidth, viewHeight) =>
              capture_resized e ie_window_handle content_window_handle
                              windowWidth windowHeight viewWidth viewHeight
          end
      end.

Definition CaptureBrowser (e : Env) : M HRESULT :=
  r <- CaptureBrowser_frame e ;;
  ret (fst r).

(** The frame of the run of [CaptureBrowser] from [s], if it has one. *)
Definition frame_of (e : Env) (s : World) : option Frame :=
  match fst (CaptureBrowser_frame e s) with
  | Ret (_, f) => f
  | Throw _ => None
  end.

(** The world [CaptureBrowser] leaves. *)
Definition world_after (e : Env) (s : World) : World :=
  snd (CaptureBrowser e s).

(* ================================================================= *)
(** ** ScreenshotUtilities.cpp: PNG and base64 *)

(** ATL's base64 routines ([atlenc.h]) as the converter uses them: the
    standard alphabet, [=] padding and, under [ATL_BASE64_FLAG_NOCRLF],
    no line break. *)
Module Atl.

Definition ATL_BASE64_FLAG_NOPAD : Z := 1.
Definition ATL_BASE64_FLAG_NOCRLF : Z := 2.

Definition Base64EncodeGetRequiredLength (nSrcLen dwFlags : Z) : Z :=
    let nSrcLen4 := nSrcLen * 4 in
    let nRet := Int32.wrap (Z.quot nSrcLen4 3) in
    let nRet :=
      if Z.land dwFlags ATL_BASE64_FLAG_NOPAD =? 0
      then Int32.add nRet (Z.rem nSrcLen 3) else nRet in
    let nCRLFs := Int32.add (Z.quot nRet 76) 1 in
    let nOnLastLine := Z.rem nRet 76 in
    let nRet :=
      if negb (nOnLastLine =? 0) && negb (Z.rem nOnLastLine 4 =? 0)
      then Int32.add nRet (Int32.sub 4 (Z.rem nOnLastLine 4)) else nRet in
    let nCRLFs := Int32.wrap (nCRLFs * 2) in
    if Z.land dwFlags ATL_BASE64_FLAG_NOCRLF =? 0
    then Int32.add nRet nCRLFs else nRet.

Definition alphabet : string :=
    "ABCDEFGHIJKLMNOPQRSTUVWXYZabcdefghijklmnopqrstuvwxyz0123456789+/".

  (** The character of a six-bit group. *)
Definition sextet (n : Z) : ascii :=
    match String.get (Z.to_nat (Z.land n 63)) alphabet with
    | Some c => c
    | None => "="%char
    end.

Fixpoint encode (src : list Z) : string :=
    match src with
    | [] => EmptyString
    | [a] =>
        String (sextet (Z.shiftr a 2))
          (String (sextet (Z.shiftl (Z.land a 3) 4)) "==")
    | [a; b] =>
        String (sextet (Z.shiftr a 2))
          (String (sextet (Z.lor (Z.shiftl (Z.land a 3) 4) (Z.shiftr b 4)))
             (String (sextet (Z.shiftl (Z.land b 15) 2)) "="))
    | a :: b :: c :: rest =>
        String (sextet (Z.shiftr a 2))
          (String (sextet (Z.lor (Z.shiftl (Z.land a 3) 4) (Z.shiftr b 4)))
             (String (sextet (Z.lor (Z.shiftl (Z.land b 15) 2) (Z.shiftr c 6)))
                (String (sextet c) (encode rest))))
    end.

  (** [Base64Encode(pbSrcData, nSrcLen, szDest, &nDestLen, dwFlags)] with
      a buffer of [nDestLen] characters: [None] is [FALSE], [Some text]
      is [TRUE] with [text] written. *)
Definition Base64Encode (pbSrcData : list Z) (nSrcLen nDestLen dwFlags : Z)
    : option string :=
    if nDestLen <? Base64EncodeGetRequiredLength nSrcLen dwFlags then None
    else Some (encode (firstn (Z.to_nat nSrcLen) pbSrcData)).

End Atl.

(** The answers of COM and GDI+ during one conversion: [image_Save] is
    [image->Save(stream, ImageFormatPNG)] with the bytes it leaves in the
    stream. *)
Record Encoder := {
  hr_CreateStreamOnHGlobal : HRESULT;
  image_Save : CImage -> HRESULT * list Z;
  hr_Stat : HRESULT;
  hr_GetHGlobalFromStream : HRESULT;
  GlobalLock_ok : bool
}.

(** [ConvImageToPngBase64string(image, data)]: the result and the value
    of [data] afterwards. *)
Definition ConvImageToPngBase64string (enc : Encoder) (image : option CImage)
           (data : string) : HRESULT * string :=
  match image with
  | None => (E_POINTER, data)
  | Some image =>
      let hr := hr_CreateStreamOnHGlobal enc in
      if FAILED hr then (hr, data) else
      let '(hr, stream) := image_Save enc image in
      if FAILED hr then (hr, data) else
      let hr := hr_Stat enc in
      if FAILED hr then (hr, data) else
      let hr := hr_GetHGlobalFromStream enc in
      if FAILED hr then (hr, data) else
      let stream_size := Int32.wrap (Z.of_nat (List.length stream)) in
      let length :=
        Atl.Base64EncodeGetRequiredLength stream_size Atl.ATL_BASE64_FLAG_NOCRLF in
      if length <=? 0 then (E_FAIL, data) else
      if negb (GlobalLock_ok enc) then (E_FAIL, data) else
      match Atl.Base64Encode stream stream_size length Atl.ATL_BASE64_FLAG_NOCRLF with
      | None => (E_FAIL, data)
      | Some data_array => (S_OK, data_array)
      end
  end.

(* ================================================================= *)
(** ** ScreenshotCommandHandler.h: ExecuteInternal *)

(** Modelled from the spec: the answer handed to the command-dispatch
    framework, whose [Response] class is declared outside these sources;
    it is either an error with a status code and a message
    ([SetErrorResponse]) or a success carrying one text value
    ([SetSuccessResponse]). *)
Inductive Response :=
| ErrorResponse (status_code : Z) (message : string)
| SuccessResponse (value : string).

(** The command executor: the status of [GetCurrentBrowser] and, for the
    browser it yields, the environment of the [i]-th run of
    [CaptureBrowser] against it. *)
Record Executor := {
  current_browser_status : Z;
  current_browser : nat -> Env
}.

Definition ClearImage : M unit :=
  image <- get_image_ ;;
  match image with
  | Some _ => set_image_ None
  | None => ret tt
  end.

(** The loop [for (int i = 1; ; i++)] around [CaptureBrowser], entered at
    try [i] with [tries - i] tries left after this one.  [true] is the
    [break], [false] the early [return] after the empty response. *)
Fixpoint capture_attempts (browser : nat -> Env) (i tries_after : nat) : M bool :=
  hr <- CaptureBrowser (browser i) ;;
  if SUCCEEDED hr then ret true
  else
    ClearImage ;;;
    match tries_after with
    | O => ret false
    | S tries_after' => capture_attempts browser (S i) tries_after'
    end.

Section Handler.

(** The status code of success ([errorcodes.h], not part of these
    sources). *)
Variable WD_SUCCESS : Z.

Definition ExecuteInternal (executor : Executor) (enc : Encoder) : M Response :=
  let status_code := current_browser_status executor in
  let browser_wrapper := current_browser executor in
  if negb (status_code =? WD_SUCCESS) then
    ret (ErrorResponse status_code "Unable to get browser")
  else
    let tries := 2%nat in
    captured <- capture_attempts browser_wrapper 1 (tries - 1) ;;
    if negb captured then ret (SuccessResponse EmptyString)
    else
      image <- get_image_ ;;
      let '(hr, base64_screenshot) :=
        ConvImageToPngBase64string enc image EmptyString in
      if FAILED hr then
        ClearImage ;;;
        ret (SuccessResponse EmptyString)
      else
        ClearImage ;;;
        ret (SuccessResponse base64_screenshot).

End Handler.

(* ================================================================= *)
(** * Vocabulary of the properties *)

(** Every pixel of the checked region, clipped to the image, equals the
    first pixel of the buffer. *)
Definition uniform_within (image : CImage) (check_width check_height : Z) : Prop :=
  forall x y,
    0 <= x < Z.min check_width (img_width image) ->
    0 <= y < Z.min check_height (img_height image) ->
    pixel image x y = pixel image 0 0.

(** The world [s] after the calls [d], with top-level window [w]. *)
Definition with_calls (s : World) (w : Window) (d : list Call) : World :=
  {| top_window := w; image_ := image_ s; calls := calls s ++ d |}.

(** [w'] has the origin and the maximized flag of [w]. *)
Definition origin_kept (w w' : Window) : Prop :=
  left (win_rect w') = left (win_rect w) /\
  top (win_rect w') = top (win_rect w) /\
  win_zoomed w' = win_zoomed w.

(** Calls that move or show the top-level window. *)
Definition is_window_call (c : Call) : bool :=
  match c with
  | CallShowWindow _ _ | CallSetWindowPos _ _ _ => true
  | _ => false
  end.

Definition is_paint_call (c : Call) : bool :=
  match c with CallPrintWindow _ => true | _ => false end.

(** [image] after the [i]-th [PrintWindow]. *)
Definition painted (e : Env) (image : CImage) (i : nat) : CImage :=
  {| img_width := img_width image;
     img_height := img_height image;
     img_bpp := img_bpp image;
     img_pitch := img_pitch image;
     img_bits := snd (print_window e i) |}.

(** Try [i] is accepted: [PrintWindow] succeeds and the checked region of
    the painted image is not uniform. *)
Definition accepts (e : Env) (image : CImage) (check_width check_height : Z)
           (i : nat) : bool :=
  fst (print_window e i) &&
  match IsImageSameColour (painted e image i) check_width check_height with
  | Ret false => true
  | _ => false
  end.

(** The try after which the loop of [CaptureView] is left. *)
Definition last_try (e : Env) (image : CImage) (check_width check_height : Z) : nat :=
  if accepts e image check_width check_height 1 then 1
  else if accepts e image check_width check_height 2 then 2
  else 3.

Definition is_entry_call (c : Call) : bool :=
  match c with CallCaptureBrowser => true | _ => false end.

Definition windows (d : list Call) : list Call := filter is_window_call d.
Definition paints (d : list Call) : list Call := filter is_paint_call d.
Definition entries (d : list Call) : list Call := filter is_entry_call d.

(** The view extent that shows the whole document along one axis. *)
Definition natural_extent (view client scroll : Z) : Z :=
  max view (Int32.add scroll (max 0 (Int32.sub view client))).

Definition truncated (extent : Z) : Z :=
  if extent >? SIZE_LIMIT then SIZE_LIMIT else extent.

(** The outer size of a window, as [GetWindowSize] reports it. *)
Definition outer_size (w : Window) : Z * Z :=
  (Int32.sub (right (win_rect w)) (left (win_rect w)),
   Int32.sub (bottom (win_rect w)) (top (win_rect w))).

Definition resized_any (l : Frame) : bool :=
  fr_is_resized_width l || fr_is_resized_height l.

(** How the locals of [CaptureBrowser] depend on one another. *)
Record frame_ok (l : Frame) : Prop := {
  ok_scrollbarWidth :
    fr_scrollbarWidth l = max 0 (Int32.sub (fr_viewWidth l) (fr_clientWidth l));
  ok_is_resized_width :
    fr_is_resized_width l =
    (natural_extent (fr_viewWidth l) (fr_clientWidth l) (fr_scrollWidth l)
     >? fr_viewWidth l);
  ok_targetViewWidth :
    fr_targetViewWidth l =
    let extent :=
      natural_extent (fr_viewWidth l) (fr_clientWidth l) (fr_scrollWidth l) in
    if fr_is_resized_width l then truncated extent else extent;
  ok_targetWindowWidth :
    fr_targetWindowWidth l =
    if fr_is_resized_width l
    then Int32.add (fr_windowWidth l)
                   (Int32.sub (fr_targetViewWidth l) (fr_viewWidth l))
    else fr_windowWidth l;
  ok_scrollbarHeight :
    fr_scrollbarHeight l = max 0 (Int32.sub (fr_viewHeight l) (fr_clientHeight l));
  ok_is_resized_height :
    fr_is_resized_height l =
    (natural_extent (fr_viewHeight l) (fr_clientHeight l) (fr_scrollHeight l)
     >? fr_viewHeight l);
  ok_targetViewHeight :
    fr_targetViewHeight l =
    let extent :=
      natural_extent (fr_viewHeight l) (fr_clientHeight l) (fr_scrollHeight l) in
    if fr_is_resized_height l then
      if fr_scrollbarWidth l >? 0 then Int32.sub (truncated extent) 2
      else truncated extent
    else extent;
  ok_targetWindowHeight :
    fr_targetWindowHeight l =
    if fr_is_resized_height l
    then Int32.add (fr_windowHeight l)
                   (Int32.sub (fr_targetViewHeight l) (fr_viewHeight l))
    else fr_windowHeight l;
  ok_unsampled :
    resized_any l = false ->
    fr_sampledClientWidth l = fr_clientWidth l /\
    fr_sampledClientHeight l = fr_clientHeight l;
  ok_targetClient :
    (fr_targetClientWidth l, fr_targetClientHeight l) =
    if (fr_sampledClientWidth l <? 1) || (fr_sampledClientHeight l <? 1)
    then (fr_targetViewWidth l, fr_targetViewHeight l)
    else (fr_sampledClientWidth l, fr_sampledClientHeight l);
  ok_check_width : fr_check_width l = Int32.sub (fr_clientWidth l) 17;
  ok_check_height : fr_check_height l = Int32.sub (fr_clientHeight l) 17
}.

(** What a run of [CaptureBrowser] that reaches its last statement does:
    it starts with the top-level window [w0], ends with the window [w']
    and the image [img], makes the calls [d] and has the frame [l]. *)
Record run_ok (e : Env) (w0 : Window) (l : Frame) (w' : Window)
       (img : option CImage) (d : list Call) : Prop := {
  run_frame : frame_ok l;
  run_is_maximized : fr_is_maximized l = win_zoomed w0;
  run_canvas :
    fr_clientWidth l = canvas_clientWidth e /\
    fr_scrollWidth l = canvas_scrollWidth e /\
    fr_clientHeight l = canvas_clientHeight e /\
    fr_scrollHeight l = canvas_scrollHeight e;
  run_image :
    match CImage_Create e (fr_targetClientWidth l) (fr_targetClientHeight l) 32 with
    | None => img = None /\ paints d = []
    | Some image0 =>
        let k := last_try e image0 (fr_check_width l) (fr_check_height l) in
        img = Some (painted e image0 k) /\
        paints d = repeat (CallPrintWindow (content_window_handle e)) k
    end;
  run_entries : entries d = [];
  run_requests :
    (fr_is_resized_width l = true ->
     In (CallSetWindowPos (top_level_window_handle e)
                          (fr_targetWindowWidth l) (fr_windowHeight l)) d) /\
    (fr_is_resized_height l = true ->
     In (CallSetWindowPos (top_level_window_handle e)
                          (fr_targetWindowWidth l) (fr_targetWindowHeight l)) d);
  run_untouched :
    resized_any l = false -> w' = w0 /\ windows d = [];
  run_remaximized :
    resized_any l = true -> fr_is_maximized l = true ->
    w' = {| win_rect := maximized_rect e; win_zoomed := true |} /\
    exists d0, d = d0 ++ [CallShowWindow (top_level_window_handle e) SW_MAXIMIZE];
  run_resized_back :
    resized_any l = true -> fr_is_maximized l = false ->
    win_zoomed w' = false /\
    (exists d0, d = d0 ++ [CallSetWindowPos (top_level_window_handle e)
                                            (fr_windowWidth l) (fr_windowHeight l)]) /\
    ((forall w, origin_kept w0 w ->
                set_window_pos e w (fr_windowWidth l) (fr_windowHeight l) = SwpApplied) ->
     win_rect w' = resized (win_rect w0) (fr_windowWidth l) (fr_windowHeight l))
}.

Definition hresult_of (img : option CImage) : HRESULT :=
  match img with None => E_FAIL | Some _ => S_OK end.

(** Sizes for which the arithmetic of the resolver does not wrap. *)
Definition dimension (z : Z) : Prop := 0 <= z <= 1073741823.

(** The call that restores the window [w0]: re-maximize it if it was
    maximized, give it back its outer size otherwise. *)
Definition restoring_call (e : Env) (w0 : Window) : Call :=
  if win_zoomed w0 then CallShowWindow (top_level_window_handle e) SW_MAXIMIZE
  else CallSetWindowPos (top_level_window_handle e)
                        (fst (outer_size w0)) (snd (outer_size w0)).

(** The world once [ClearImage] has run. *)
Definition cleared (s : World) : World :=
  {| top_window := top_window s; image_ := None; calls := calls s |}.

(** The run reaches [GetDocument] (both handles are there) and the
    browser yields no document. *)
Definition document_missing (e : Env) : bool :=
  negb ((top_level_window_handle e =? 0) || (content_window_handle e =? 0))
  && negb (document_present e).


(* ================================================================= *)
(** ** Sample environments *)

Definition rect_at (x y cx cy : Z) : RECT :=
  {| left := x; top := y; right := x + cx; bottom := y + cy |}.

(** A cooperative environment: a standards-mode document, a window
    manager that applies every request, a [PrintWindow] that paints a
    gradient.  The view is [view] wide and high, the canvas reports
    [client] and [scroll], and [after] once the window has grown. *)
Definition sample_env (view client scroll after : Z * Z) : Env :=
  {| top_level_window_handle := 1001;
     content_window_handle := 1002;
     document_present := true;
     hr_query_document3 := S_OK;
     standards_mode := true;
     hr_get_documentElement := S_OK;
     hr_get_body := S_OK;
     hr_query_element2 := S_OK;
     top_rect_available := true;
     view_rect := Some (rect_at 108 81 (fst view) (snd view));
     maximized_rect := rect_at (-8) (-8) 1936 1056;
     restored_rect := rect_at 100 50 1000 700;
     set_window_pos := fun _ _ _ => SwpApplied;
     canvas_clientWidth := fst client;
     canvas_scrollWidth := fst scroll;
     canvas_clientHeight := snd client;
     canvas_scrollHeight := snd scroll;
     canvas_client_after := fun _ => after;
     dib_create := fun w h => (0 <? w) && (0 <? h);
     print_window := fun _ => (true, fun offset => offset) |}.

(** A window of 1000 by 700 pixels, not maximized; no image held. *)
Definition sample_world : World :=
  {| top_window := {| win_rect := rect_at 100 50 1000 700; win_zoomed := false |};
     image_ := None;
     calls := [] |}.

(** The scenario of the specification: viewport 984 by 663, client 984
    by 646, scroll 984 by 900. *)
Definition scenario_env : Env :=
  sample_env (984, 663) (984, 646) (984, 900) (984, 900).


(** A view that is already wider than the size limit and shows the whole
    document. *)
Definition wide_env : Env :=
  sample_env (70000, 663) (70000, 663) (70000, 663) (70000, 663).

(** A vertical scrollbar of 17 pixels and a document that is lower than
    the view. *)
Definition short_page_env : Env :=
  sample_env (984, 663) (967, 663) (967, 600) (967, 663).

(** A vertical scrollbar of 17 pixels and a document 13 pixels wider
    than the client area: the scroll size does not exceed the view. *)
Definition snug_env : Env :=
  sample_env (984, 663) (967, 663) (980, 663) (980, 663).

(** A vertical scrollbar of 17 pixels and a document 100000 pixels
    high. *)
Definition tall_env : Env :=
  sample_env (984, 663) (967, 663) (967, 100000) (967, 65532).


(** A view 16 pixels wide. *)
Definition narrow_env : Env :=
  sample_env (16, 400) (16, 400) (16, 400) (16, 400).

(** A view of 100 by 80 pixels on a document 300 pixels high; every
    paint gives rows 0 to 99 one colour and the rows below another. *)
Definition banded_env : Env :=
  {| top_level_window_handle := 1001;
     content_window_handle := 1002;
     document_present := true;
     hr_query_document3 := S_OK;
     standards_mode := true;
     hr_get_documentElement := S_OK;
     hr_get_body := S_OK;
     hr_query_element2 := S_OK;
     top_rect_available := true;
     view_rect := Some (rect_at 108 81 100 80);
     maximized_rect := rect_at (-8) (-8) 1936 1056;
     restored_rect := rect_at 100 50 1000 700;
     set_window_pos := fun _ _ _ => SwpApplied;
     canvas_clientWidth := 100;
     canvas_scrollWidth := 100;
     canvas_clientHeight := 80;
     canvas_scrollHeight := 300;
     canvas_client_after := fun _ => (100, 300);
     dib_create := fun w h => (0 <? w) && (0 <? h);
     print_window := fun _ => (true, fun offset => if offset <=? -40000 then 1 else 0) |}.

(** The image of 100 by 300 pixels that [banded_env] paints. *)
Definition banded_image : CImage :=
  {| img_width := 100; img_height := 300; img_bpp := 32; img_pitch := -400;
     img_bits := fun offset => if offset <=? -40000 then 1 else 0 |}.

(** An encoder that saves every image as a stream of three bytes. *)
Definition sample_encoder : Encoder :=
  {| hr_CreateStreamOnHGlobal := S_OK;
     image_Save := fun _ => (S_OK, [77; 97; 110]);
     hr_Stat := S_OK;
     hr_GetHGlobalFromStream := S_OK;
     GlobalLock_ok := true |}.

Definition sample_executor : Executor :=
  {| current_browser_status := 0;
     current_browser := fun _ => scenario_env |}.

(* ================================================================= *)
(** ** Vocabulary of the further properties *)

Definition is_recalc_call (c : Call) : bool :=
  match c with CallRecalc _ => true | _ => false end.

Definition is_update_call (c : Call) : bool :=
  match c with CallUpdateWindow _ => true | _ => false end.

Definition is_demaximize_call (c : Call) : bool :=
  match c with
  | CallShowWindow _ cmd => cmd =? SW_SHOWNOACTIVATE
  | _ => false
  end.

(** Two images of the same shape. *)
Definition same_shape (image image' : CImage) : Prop :=
  img_width image' = img_width image /\
  img_height image' = img_height image /\
  img_bpp image' = img_bpp image /\
  img_pitch image' = img_pitch image.

(** The preliminary queries of [CaptureBrowser] all succeed: both
    handles, the document, the canvas, the rectangle of the top-level
    window and the rectangle of the content window. *)
Definition queries_ok (e : Env) : bool :=
  negb ((top_level_window_handle e =? 0) || (content_window_handle e =? 0))
  && match GetDocument e with Ret true => true | _ => false end
  && GetCanvas e && top_rect_available e
  && (if content_window_handle e =? top_level_window_handle e then true
      else match view_rect e with Some _ => true | None => false end).

(** The sample window, maximized. *)
Definition maximized_world : World :=
  {| top_window := {| win_rect := rect_at (-8) (-8) 1936 1056; win_zoomed := true |};
     image_ := None;
     calls := [] |}.

(** The scenario with a window manager that lets no window be higher
    than 800 pixels: a higher request is adjusted to 800. *)
Definition clamping_env : Env :=
  {| top_level_window_handle := top_level_window_handle scenario_env;
     content_window_handle := content_window_handle scenario_env;
     document_present := document_present scenario_env;
     hr_query_document3 := hr_query_document3 scenario_env;
     standards_mode := standards_mode scenario_env;
     hr_get_documentElement := hr_get_documentElement scenario_env;
     hr_get_body := hr_get_body scenario_env;
     hr_query_element2 := hr_query_element2 scenario_env;
     top_rect_available := top_rect_available scenario_env;
     view_rect := view_rect scenario_env;
     maximized_rect := maximized_rect scenario_env;
     restored_rect := restored_rect scenario_env;
     set_window_pos :=
       fun _ cx cy => if cy >? 800 then SwpAdjusted cx 800 else SwpApplied;
     canvas_clientWidth := canvas_clientWidth scenario_env;
     canvas_scrollWidth := canvas_scrollWidth scenario_env;
     canvas_clientHeight := canvas_clientHeight scenario_env;
     canvas_scrollHeight := canvas_scrollHeight scenario_env;
     canvas_client_after := canvas_client_after scenario_env;
     dib_create := dib_create scenario_env;
     print_window := print_window scenario_env |}.

(** The calls of one try of [CaptureView]: a rejected try is followed by
    [UpdateWindow]. *)
Definition try_calls (e : Env) (h : HWND) (image0 : CImage)
           (check_width check_height : Z) (i : nat) : list Call :=
  if accepts e image0 check_width check_height i then [CallPrintWindow h]
  else [CallPrintWindow h; CallUpdateWindow h].

(** A re-sampled client size counts as updated: it differs from the size
    read before the resize on every axis that was resized. *)
Definition round_ok (l : Frame) (sample : Z * Z) : bool :=
  (negb (fr_is_resized_width l) || negb (fst sample =? fr_clientWidth l)) &&
  (negb (fr_is_resized_height l) || negb (snd sample =? fr_clientHeight l)).

(** The calls of a run of [CaptureBrowser] with frame [l], after the
    entry trace: the growth of the width, the growth of the height, the
    re-sampling, the capture and the restoration. *)
Definition growth_calls (e : Env) (l : Frame) : list Call :=
  (if fr_is_resized_width l then
     (if fr_is_maximized l
      then [CallShowWindow (top_level_window_handle e) SW_SHOWNOACTIVATE]
      else []) ++
     [CallSetWindowPos (top_level_window_handle e)
                       (fr_targetWindowWidth l) (fr_windowHeight l)]
   else []) ++
  (if fr_is_resized_height l then
     (if fr_is_maximized l && negb (fr_is_resized_width l)
      then [CallShowWindow (top_level_window_handle e) SW_SHOWNOACTIVATE]
      else []) ++
     [CallSetWindowPos (top_level_window_handle e)
                       (fr_targetWindowWidth l) (fr_targetWindowHeight l)]
   else []).

Definition resample_calls (e : Env) (l : Frame) : list Call :=
  if resized_any l then
    if round_ok l (canvas_client_after e 0) then []
    else if round_ok l (canvas_client_after e 1) then [CallRecalc false]
         else [CallRecalc false; CallRecalc true]
  else [].

Definition paint_calls (e : Env) (l : Frame) : list Call :=
  match CImage_Create e (fr_targetClientWidth l) (fr_targetClientHeight l) 32 with
  | None => []
  | Some image0 =>
      flat_map (try_calls e (content_window_handle e) image0
                          (fr_check_width l) (fr_check_height l))
               (seq 1 (last_try e image0 (fr_check_width l) (fr_check_height l)))
  end.

Definition restore_calls (e : Env) (l : Frame) : list Call :=
  if resized_any l then
    [if fr_is_maximized l
     then CallShowWindow (top_level_window_handle e) SW_MAXIMIZE
     else CallSetWindowPos (top_level_window_handle e)
                           (fr_windowWidth l) (fr_windowHeight l)]
  else [].

Definition run_trace (e : Env) (l : Frame) : list Call :=
  growth_calls e l ++ resample_calls e l ++ paint_calls e l ++ restore_calls e l.

(** A vertical scrollbar of 17 pixels and a document one pixel higher
    than the view. *)
Definition one_pixel_env : Env :=
  sample_env (984, 663) (967, 663) (967, 664) (967, 662).

(** The scenario with a document that lacks the [IHTMLDocument3]
    interface: the query fails. *)
Definition no_interface_env : Env :=
  {| top_level_window_handle := top_level_window_handle scenario_env;
     content_window_handle := content_window_handle scenario_env;
     document_present := document_present scenario_env;
     hr_query_document3 := E_FAIL;
     standards_mode := standards_mode scenario_env;
     hr_get_documentElement := hr_get_documentElement scenario_env;
     hr_get_body := hr_get_body scenario_env;
     hr_query_element2 := hr_query_element2 scenario_env;
     top_rect_available := top_rect_available scenario_env;
     view_rect := view_rect scenario_env;
     maximized_rect := maximized_rect scenario_env;
     restored_rect := restored_rect scenario_env;
     set_window_pos := set_window_pos scenario_env;
     canvas_clientWidth := canvas_clientWidth scenario_env;
     canvas_scrollWidth := canvas_scrollWidth scenario_env;
     canvas_clientHeight := canvas_clientHeight scenario_env;
     canvas_scrollHeight := canvas_scrollHeight scenario_env;
     canvas_client_after := canvas_client_after scenario_env;
     dib_create := dib_create scenario_env;
     print_window := print_window scenario_env |}.

(** The scenario with a browser that yields no document (it shows a
    non-HTML document). *)
Definition no_document_env : Env :=
  {| top_level_window_handle := top_level_window_handle scenario_env;
     content_window_handle := content_window_handle scenario_env;
     document_present := false;
     hr_query_document3 := hr_query_document3 scenario_env;
     standards_mode := standards_mode scenario_env;
     hr_get_documentElement := hr_get_documentElement scenario_env;
     hr_get_body := hr_get_body scenario_env;
     hr_query_element2 := hr_query_element2 scenario_env;
     top_rect_available := top_rect_available scenario_env;
     view_rect := view_rect scenario_env;
     maximized_rect := maximized_rect scenario_env;
     restored_rect := restored_rect scenario_env;
     set_window_pos := set_window_pos scenario_env;
     canvas_clientWidth := canvas_clientWidth scenario_env;
     canvas_scrollWidth := canvas_scrollWidth scenario_env;
     canvas_clientHeight := canvas_clientHeight scenario_env;
     canvas_scrollHeight := canvas_scrollHeight scenario_env;
     canvas_client_after := canvas_client_after scenario_env;
     dib_create := dib_create scenario_env;
     print_window := print_window scenario_env |}.

(** The scenario with a document that keeps reporting the client size
    read before the resize. *)
Definition stale_env : Env :=
  sample_env (984, 663) (984, 646) (984, 900) (984, 646).

(** The window manager cooperates in restoring the window [w0]: a
    maximized window has the maximized rectangle, and the request for the
    outer size of a window that is not maximized is applied. *)
Definition cooperative (e : Env) (w0 : Window) : Prop :=
  (win_zoomed w0 = true -> win_rect w0 = maximized_rect e) /\
  (win_zoomed w0 = false ->
   forall w, origin_kept w0 w ->
             set_window_pos e w (fst (outer_size w0)) (snd (outer_size w0))
             = SwpApplied).

(** [w'] is [w0] as far as size, origin and maximized flag go, and is
    [w0] itself if [w0] is maximized. *)
Definition same_window (w0 w' : Window) : Prop :=
  outer_size w' = outer_size w0 /\
  origin_kept w0 w' /\
  (win_zoomed w0 = true -> w' = w0).

(** An executor whose first capture fails early, the document lacking
    the [IHTMLDocument3] interface. *)
Definition flaky_executor : Executor :=
  {| current_browser_status := 0;
     current_browser := fun i => if Nat.eqb i 1 then no_interface_env else scenario_env |}.

(** An executor whose first capture fails early and whose browser
    yields no document at the second. *)
Definition fading_executor : Executor :=
  {| current_browser_status := 0;
     current_browser := fun i => if Nat.eqb i 1 then no_interface_env else no_document_env |}.

(** An executor whose browser yields no document. *)
Definition blind_executor : Executor :=
  {| current_browser_status := 0;
     current_browser := fun _ => no_document_env |}.

(** A byte. *)
Definition is_byte (z : Z) : Prop := 0 <= z < 256.

(** The position of [c] in [s], counted from [i]. *)
Fixpoint index_of (c : ascii) (s : string) (i : Z) : Z :=
  match s with
  | EmptyString => 0
  | String c' s' => if Ascii.eqb c c' then i else index_of c s' (i + 1)
  end.

(** The six-bit group a character of the base64 alphabet stands for. *)
Definition unsextet (c : ascii) : Z := index_of c Atl.alphabet 0.

(** The reading of a padded base64 text without line breaks: four
    characters give three bytes, a final group with one or two [=] gives
    two bytes or one. *)
Fixpoint decode (text : string) : list Z :=
  match text with
  | String c1 (String c2 (String c3 (String c4 rest))) =>
      let b1 := unsextet c1 * 4 + unsextet c2 / 16 in
      let b2 := (unsextet c2 mod 16) * 16 + unsextet c3 / 4 in
      let b3 := (unsextet c3 mod 4) * 64 + unsextet c4 in
      if Ascii.eqb c3 "=" then [b1]
      else if Ascii.eqb c4 "=" then [b1; b2]
      else b1 :: b2 :: b3 :: decode rest
  | _ => []
  end.

(** The character of the six-bit group [k], for [0 <= k < 64]. *)
Definition alphabet_char (k : Z) : ascii :=
  match String.get (Z.to_nat k) Atl.alphabet with
  | Some c => c
  | None => "="%char
  end.

(** The steps of the conversion other than the encoding succeed for the
    image [img]. *)
Definition steps_ok (enc : Encoder) (img : CImage) : bool :=
  negb (FAILED (hr_CreateStreamOnHGlobal enc))
  && negb (FAILED (fst (image_Save enc img)))
  && negb (FAILED (hr_Stat enc))
  && negb (FAILED (hr_GetHGlobalFromStream enc))
  && GlobalLock_ok enc.

(** An encoder whose [GlobalLock] fails. *)
Definition locked_encoder : Encoder :=
  {| hr_CreateStreamOnHGlobal := S_OK;
     image_Save := fun _ => (S_OK, [77; 97; 110]);
     hr_Stat := S_OK;
     hr_GetHGlobalFromStream := S_OK;
     GlobalLock_ok := false |}.

(* ================================================================= *)
(** * Properties *)

(** ** Arithmetic of [Int32] *)

Module Int32Facts.
Import Int32.

Lemma wrap_in_range (z : Z) : in_range (wrap z).
  Proof.
    unfold in_range, wrap, INT_MIN, INT_MAX.
    pose proof (Z.mod_pos_bound (z + 2147483648) 4294967296). lia.
  Qed.

Lemma wrap_small (z : Z) : in_range z -> wrap z = z.
  Proof.
    unfold in_range, wrap, INT_MIN, INT_MAX. intros H.
    rewrite Z.mod_small; lia.
  Qed.

Lemma wrap_wrap (z : Z) : wrap (wrap z) = wrap z.
  Proof. apply wrap_small, wrap_in_range. Qed.

Lemma sub_add_cancel (a b : Z) : sub (add a b) a = wrap b.
  Proof.
    unfold sub, add, wrap.
    replace ((a + b + 2147483648) mod 4294967296 - 2147483648 - a + 2147483648)
      with ((a + b + 2147483648) mod 4294967296 - a) by lia.
    rewrite Zminus_mod_idemp_l.
    replace (a + b + 2147483648 - a) with (b + 2147483648) by lia.
    reflexivity.
  Qed.

Lemma add_small (a b : Z) : in_range (a + b) -> add a b = a + b.
  Proof. apply wrap_small. Qed.

Lemma sub_small (a b : Z) : in_range (a - b) -> sub a b = a - b.
  Proof. apply wrap_small. Qed.

End Int32Facts.

Lemma max_spec (a b : Z) : max a b = Z.max a b.
Proof. unfold max. destruct (Z.gtb_spec a b); lia. Qed.

Lemma min_spec (a b : Z) : min a b = Z.min a b.
Proof. unfold min. destruct (Z.ltb_spec a b); lia. Qed.

(** ** The uniform-colour scan *)

Section Scan.
Variable bits : Z -> Z.
Variable first_pixel : Z.

Lemma scan_row_true (row_ptr : Z) (n : nat) (x : Z) :
    scan_row bits first_pixel row_ptr x n = true <->
    (forall k, 0 <= k < Z.of_nat n -> bits (row_ptr + 4 * (x + k)) = first_pixel).
  Proof.
    revert x. induction n as [|n IH]; intros x.
    - simpl. split; [intros _ k Hk; lia | reflexivity].
    - cbn [scan_row].
      destruct (Z.eqb_spec first_pixel (bits (row_ptr + 4 * x))) as [E|E]; cbn [negb].
      + rewrite IH. split.
        * intros H k Hk.
          destruct (Z.eq_dec k 0) as [->|Hk0].
          -- rewrite Z.add_0_r. auto.
          -- replace (x + k) with (x + 1 + (k - 1)) by lia. apply H. lia.
        * intros H k Hk.
          replace (x + 1 + k) with (x + (k + 1)) by lia. apply H. lia.
      + split; [discriminate|].
        intros H. exfalso. apply E. symmetry.
        specialize (H 0). rewrite Z.add_0_r in H. apply H. lia.
  Qed.

Lemma scan_rows_true (width row_stride : Z) (n : nat) (row_ptr : Z) :
    scan_rows bits first_pixel width row_stride row_ptr n = true <->
    (forall j k, 0 <= j < Z.of_nat n -> 0 <= k < width ->
                 bits (row_ptr + j * row_stride + 4 * k) = first_pixel).
  Proof.
    revert row_ptr. induction n as [|n IH]; intros row_ptr.
    - simpl. split; [intros _ j k Hj; lia | reflexivity].
    - cbn [scan_rows].
      destruct (scan_row bits first_pixel row_ptr 0 (Z.to_nat width)) eqn:Erow.
      + rewrite scan_row_true in Erow. rewrite IH. split.
        * intros H j k Hj Hk.
          destruct (Z.eq_dec j 0) as [->|Hj0].
          -- rewrite Z.mul_0_l, Z.add_0_r.
             specialize (Erow k). rewrite Z.add_0_l in Erow. apply Erow. lia.
          -- replace (row_ptr + j * row_stride)
               with (row_ptr + row_stride + (j - 1) * row_stride) by lia.
             apply H; lia.
        * intros H j k Hj Hk.
          replace (row_ptr + row_stride + j * row_stride)
            with (row_ptr + (j + 1) * row_stride) by lia.
          apply H; lia.
      + split; [discriminate|].
        intros H.
        assert (scan_row bits first_pixel row_ptr 0 (Z.to_nat width) = true)
          as Habs; [|congruence].
        apply scan_row_true. intros k Hk.
        specialize (H 0 k). rewrite Z.mul_0_l, Z.add_0_r, Z.add_0_l in *.
        apply H; lia.
  Qed.
End Scan.

Lemma IsImageSameColour_32 (image : CImage) (cw ch : Z) :
  img_bpp image = 32 ->
  exists b, IsImageSameColour image cw ch = Ret b /\
            (b = true <-> uniform_within image cw ch).
Proof.
  intros Hbpp. unfold IsImageSameColour. rewrite Hbpp. cbn [Z.eqb Pos.eqb negb].
  eexists. split; [reflexivity|].
  rewrite scan_rows_true, !min_spec. unfold uniform_within, pixel.
  split.
  - intros H x y Hx Hy.
    replace (0 * img_pitch image + 4 * 0) with 0 by lia.
    specialize (H y x). rewrite Z.add_0_l in H. apply H; lia.
  - intros H j k Hj Hk.
    specialize (H k j).
    replace (0 * img_pitch image + 4 * 0) with 0 in H by lia.
    rewrite Z.add_0_l. apply H; lia.
Qed.

(** ** Effects of the primitives *)

Lemma with_calls_nil (s : World) : with_calls s (top_window s) [] = s.
Proof. destruct s. unfold with_calls. cbn. now rewrite app_nil_r. Qed.

Lemma with_calls_with_calls (s : World) (w w' : Window) (d d' : list Call) :
  with_calls (with_calls s w d) w' d' = with_calls s w' (d ++ d').
Proof. unfold with_calls. cbn. now rewrite app_assoc. Qed.

Lemma origin_kept_refl (w : Window) : origin_kept w w.
Proof. repeat split. Qed.

Lemma origin_kept_trans (w1 w2 w3 : Window) :
  origin_kept w1 w2 -> origin_kept w2 w3 -> origin_kept w1 w3.
Proof. unfold origin_kept. intuition congruence. Qed.

Ltac run_prim :=
  cbv [bind ret raise record_call set_top_window get_top_window
       set_image_ get_image_ with_calls] in *; cbn [top_window image_ calls] in *.

Lemma os_ShowWindow_run (e : Env) (hwnd : HWND) (cmd : Z) (s : World) :
  exists w',
    os_ShowWindow e hwnd cmd s = (Ret tt, with_calls s w' [CallShowWindow hwnd cmd]) /\
    (hwnd = top_level_window_handle e -> cmd = SW_MAXIMIZE ->
     w' = {| win_rect := maximized_rect e; win_zoomed := true |}) /\
    (win_zoomed (top_window s) = false -> cmd = SW_SHOWNOACTIVATE ->
     w' = top_window s).
Proof.
  unfold os_ShowWindow. run_prim.
  destruct (hwnd =? top_level_window_handle e) eqn:Eh.
  - destruct (cmd =? SW_MAXIMIZE) eqn:Em.
    + eexists. split; [reflexivity|]. split; [reflexivity|].
      intros _ ->. discriminate.
    + destruct (cmd =? SW_SHOWNOACTIVATE) eqn:En.
      * destruct (win_zoomed (top_window s)) eqn:Ez.
        -- eexists. split; [reflexivity|]. split.
           ++ intros _ ->. discriminate.
           ++ discriminate.
        -- eexists. split; [reflexivity|]. split.
           ++ intros _ ->. discriminate.
           ++ reflexivity.
      * eexists. split; [reflexivity|]. split.
        -- intros _ ->. discriminate.
        -- intros _ ->. discriminate.
  - eexists. split; [reflexivity|]. split.
    + intros ->. rewrite Z.eqb_refl in Eh. discriminate.
    + intros Hz ->. reflexivity.
Qed.

Lemma os_SetWindowPos_run (e : Env) (hwnd : HWND) (cx cy : Z) (s : World) :
  exists b w',
    os_SetWindowPos e hwnd cx cy s
    = (Ret b, with_calls s w' [CallSetWindowPos hwnd cx cy]) /\
    origin_kept (top_window s) w' /\
    (hwnd = top_level_window_handle e ->
     set_window_pos e (top_window s) cx cy = SwpApplied ->
     win_rect w' = resized (win_rect (top_window s)) cx cy).
Proof.
  unfold os_SetWindowPos. run_prim.
  destruct (hwnd =? top_level_window_handle e) eqn:Eh.
  - destruct (set_window_pos e (top_window s) cx cy) eqn:Ep.
    + do 2 eexists. split; [reflexivity|]. split; [repeat split|]. reflexivity.
    + do 2 eexists. split; [reflexivity|]. split; [repeat split|]. discriminate.
    + do 2 eexists. split; [reflexivity|]. split; [repeat split|]. discriminate.
  - do 2 eexists. split; [reflexivity|]. split; [repeat split|].
    intros ->. rewrite Z.eqb_refl in Eh. discriminate.
Qed.

Lemma GetWindowSize_run (e : Env) (hwnd : HWND) (s : World) :
  exists r, GetWindowSize e hwnd s = (Ret r, s).
Proof.
  unfold GetWindowSize, os_GetWindowRect. run_prim.
  destruct (if hwnd =? top_level_window_handle e then _ else _);
    eexists; reflexivity.
Qed.

Lemma SetWindowSize_run (e : Env) (hwnd : HWND) (cx cy : Z) (s : World) :
  exists b w',
    SetWindowSize e hwnd cx cy s
    = (Ret b, with_calls s w' [CallSetWindowPos hwnd cx cy]) /\
    origin_kept (top_window s) w' /\
    (hwnd = top_level_window_handle e ->
     set_window_pos e (top_window s) cx cy = SwpApplied ->
     win_rect w' = resized (win_rect (top_window s)) cx cy).
Proof.
  destruct (os_SetWindowPos_run e hwnd cx cy s) as (b & w' & Hrun & Hk & Ha).
  unfold SetWindowSize. unfold bind at 1 2. rewrite Hrun.
  destruct b.
  - destruct (GetWindowSize_run e hwnd (with_calls s w' [CallSetWindowPos hwnd cx cy]))
      as (r & Hr).
    unfold bind at 1. rewrite Hr.
    destruct (match r with Some p => p | None => (0, 0) end) as [width2 height2].
    unfold ret. do 2 eexists. split; [reflexivity|]. split; assumption.
  - unfold ret. do 2 eexists. split; [reflexivity|]. split; assumption.
Qed.

(** ** The paint capture *)

Lemma CImage_Create_Some (e : Env) (w h bpp : Z) (image : CImage) :
  CImage_Create e w h bpp = Some image ->
  dib_create e w h = true /\
  img_width image = w /\ img_height image = Z.abs h /\ img_bpp image = bpp.
Proof.
  unfold CImage_Create. destruct (dib_create e w h); [|discriminate].
  intros [= <-]. cbn. auto.
Qed.

Lemma CImage_Create_None (e : Env) (w h bpp : Z) :
  CImage_Create e w h bpp = None <-> dib_create e w h = false.
Proof.
  unfold CImage_Create. destruct (dib_create e w h); split; congruence.
Qed.

Lemma capture_tries_step (e : Env) (h : HWND) (cw ch : Z) (i n : nat)
      (image : CImage) (s : World) :
  img_bpp image = 32 ->
  capture_tries e h cw ch i (S n) image s =
  if accepts e image cw ch i then
    (Ret (painted e image i), with_calls s (top_window s) [CallPrintWindow h])
  else
    capture_tries e h cw ch (S i) n (painted e image i)
      (with_calls s (top_window s) [CallPrintWindow h; CallUpdateWindow h]).
Proof.
  intros Hbpp. cbn [capture_tries].
  unfold accepts, os_PrintWindow, os_UpdateWindow, painted.
  destruct (print_window e i) as [ok bits] eqn:Ep. cbn [fst snd].
  destruct ok.
  - match goal with
    | |- context [IsImageSameColour ?im cw ch] =>
        destruct (IsImageSameColour_32 im cw ch Hbpp) as (b & Hb & _)
    end.
    run_prim. rewrite Hb. destruct b; simpl.
    + rewrite <- app_assoc. reflexivity.
    + reflexivity.
  - run_prim. simpl. rewrite <- app_assoc. reflexivity.
Qed.

Lemma CaptureView_run (e : Env) (h : HWND) (w ht cw ch : Z) :
  match CImage_Create e w ht 32 with
  | None => forall s, CaptureView e h w ht cw ch s = (Ret None, s)
  | Some image0 =>
      exists d,
        (forall s, CaptureView e h w ht cw ch s
                   = (Ret (Some (painted e image0 (last_try e image0 cw ch))),
                      with_calls s (top_window s) d)) /\
        windows d = [] /\ entries d = [] /\
        paints d = repeat (CallPrintWindow h) (last_try e image0 cw ch)
  end.
Proof.
  destruct (CImage_Create e w ht 32) as [image0|] eqn:Ec.
  - destruct (CImage_Create_Some _ _ _ _ _ Ec) as (_ & _ & _ & Hbpp).
    assert (Hp : forall i, img_bpp (painted e image0 i) = 32) by (intros; exact Hbpp).
    assert (Hpp : forall i j, painted e (painted e image0 i) j = painted e image0 j)
      by reflexivity.
    assert (Hacc : forall i j, accepts e (painted e image0 i) cw ch j
                               = accepts e image0 cw ch j) by reflexivity.
    unfold last_try.
    destruct (accepts e image0 cw ch 1) eqn:E1;
      [|destruct (accepts e image0 cw ch 2) eqn:E2;
        [|destruct (accepts e image0 cw ch 3) eqn:E3]].
    + exists [CallPrintWindow h]. split; [|repeat split; reflexivity].
      intros s. unfold CaptureView. rewrite Ec. unfold bind at 1.
      rewrite capture_tries_step, E1 by assumption.
      reflexivity.
    + exists [CallPrintWindow h; CallUpdateWindow h; CallPrintWindow h].
      split; [|repeat split; reflexivity].
      intros s. unfold CaptureView. rewrite Ec. unfold bind at 1.
      rewrite capture_tries_step, E1 by assumption.
      rewrite capture_tries_step, Hacc, E2, Hpp by apply Hp.
      unfold ret. rewrite with_calls_with_calls. reflexivity.
    + exists [CallPrintWindow h; CallUpdateWindow h;
              CallPrintWindow h; CallUpdateWindow h; CallPrintWindow h].
      split; [|repeat split; reflexivity].
      intros s. unfold CaptureView. rewrite Ec. unfold bind at 1.
      rewrite capture_tries_step, E1 by assumption.
      rewrite capture_tries_step, Hacc, E2, Hpp by apply Hp.
      rewrite capture_tries_step, Hacc, E3, Hpp by apply Hp.
      unfold ret. rewrite !with_calls_with_calls. reflexivity.
    + exists [CallPrintWindow h; CallUpdateWindow h;
              CallPrintWindow h; CallUpdateWindow h;
              CallPrintWindow h; CallUpdateWindow h].
      split; [|repeat split; reflexivity].
      intros s. unfold CaptureView. rewrite Ec. unfold bind at 1.
      rewrite capture_tries_step, E1 by assumption.
      rewrite capture_tries_step, Hacc, E2, Hpp by apply Hp.
      rewrite capture_tries_step, Hacc, E3, Hpp by apply Hp.
      cbn [capture_tries]. unfold ret. rewrite !with_calls_with_calls. reflexivity.
  - intros s. unfold CaptureView. rewrite Ec. reflexivity.
Qed.

(** ** The growth of the window *)

Lemma windows_app (d d' : list Call) : windows (d ++ d') = windows d ++ windows d'.
Proof. apply filter_app. Qed.

Lemma paints_app (d d' : list Call) : paints (d ++ d') = paints d ++ paints d'.
Proof. apply filter_app. Qed.

Lemma entries_app (d d' : list Call) : entries (d ++ d') = entries d ++ entries d'.
Proof. apply filter_app. Qed.

Lemma windows_all_filter (f : Call -> bool) (d : list Call) :
  (forall c, is_window_call c = true -> f c = false) ->
  windows d = d -> filter f d = [].
Proof.
  intros Hf. unfold windows. induction d as [|c d IH]; [reflexivity|].
  cbn [filter]. destruct (is_window_call c) eqn:Ec.
  - intros H. injection H as H. rewrite (Hf c Ec). auto.
  - intros H. exfalso.
    assert (Hl : (List.length (filter is_window_call d) <= List.length d)%nat)
      by apply filter_length_le.
    apply (f_equal (@List.length Call)) in H. cbn [List.length] in H. lia.
Qed.

Lemma windows_all_no_paints (d : list Call) : windows d = d -> paints d = [].
Proof. apply windows_all_filter. intros []; cbn; congruence. Qed.

Lemma windows_all_no_entries (d : list Call) : windows d = d -> entries d = [].
Proof. apply windows_all_filter. intros []; cbn; congruence. Qed.

Lemma increase_width_run (e : Env) (hwnd : HWND) (m : bool) (ww wh vw : Z)
      (s : World) :
  let extent := natural_extent vw (canvas_clientWidth e) (canvas_scrollWidth e) in
  let rw := extent >? vw in
  let tvw := if rw then truncated extent else extent in
  let tww := if rw then Int32.add ww (Int32.sub tvw vw) else ww in
  exists w' d,
    increase_width e hwnd m ww wh vw s
    = (Ret (max 0 (Int32.sub vw (canvas_clientWidth e)), tvw, tww, rw),
       with_calls s w' d) /\
    (rw = false -> w' = top_window s /\ d = []) /\
    (m = false -> origin_kept (top_window s) w') /\
    windows d = d /\
    (rw = true -> In (CallSetWindowPos hwnd tww wh) d).
Proof.
  intros extent rw tvw tww. subst tww tvw. unfold increase_width.
  fold (natural_extent vw (canvas_clientWidth e) (canvas_scrollWidth e)).
  fold extent. fold rw. destruct rw eqn:Erw.
  - fold (truncated extent).
    destruct m.
    + destruct (os_ShowWindow_run e hwnd SW_SHOWNOACTIVATE s) as (w1 & H1 & _).
      unfold bind at 1. rewrite H1.
      match goal with
      | |- context [SetWindowSize e hwnd ?a ?b] =>
          destruct (SetWindowSize_run e hwnd a b
                      (with_calls s w1 [CallShowWindow hwnd SW_SHOWNOACTIVATE]))
            as (b2 & w2 & H2 & _ & _)
      end.
      unfold bind at 1. rewrite H2. unfold ret.
      rewrite with_calls_with_calls.
      do 2 eexists. split; [reflexivity|].
      split; [discriminate|]. split; [discriminate|].
      split; [reflexivity|]. intros _. cbn. auto.
    + unfold bind at 1. unfold ret at 1.
      match goal with
      | |- context [SetWindowSize e hwnd ?a ?b] =>
          destruct (SetWindowSize_run e hwnd a b s) as (b2 & w2 & H2 & Hk & _)
      end.
      unfold bind at 1. rewrite H2. unfold ret.
      do 2 eexists. split; [reflexivity|].
      split; [discriminate|]. split; [intros _; exact Hk|].
      split; [reflexivity|]. intros _. cbn. auto.
  - unfold ret. exists (top_window s), []. rewrite with_calls_nil.
    split; [reflexivity|]. split; [auto|].
    split; [intros; apply origin_kept_refl|].
    split; [reflexivity | discriminate].
Qed.

Lemma increase_height_run (e : Env) (hwnd : HWND) (m rw : bool)
      (wh vh sbw tww : Z) (s : World) :
  let extent := natural_extent vh (canvas_clientHeight e) (canvas_scrollHeight e) in
  let rh := extent >? vh in
  let tvh :=
    if rh then
      if sbw >? 0 then Int32.sub (truncated extent) 2 else truncated extent
    else extent in
  let twh := if rh then Int32.add wh (Int32.sub tvh vh) else wh in
  exists w' d,
    increase_height e hwnd m rw wh vh sbw tww s
    = (Ret (max 0 (Int32.sub vh (canvas_clientHeight e)), tvh, twh, rh),
       with_calls s w' d) /\
    (rh = false -> w' = top_window s /\ d = []) /\
    (m = false -> origin_kept (top_window s) w') /\
    windows d = d /\
    (rh = true -> In (CallSetWindowPos hwnd tww twh) d).
Proof.
  intros extent rh tvh twh. subst twh tvh. unfold increase_height.
  fold (natural_extent vh (canvas_clientHeight e) (canvas_scrollHeight e)).
  fold extent. fold rh. destruct rh eqn:Erh.
  - fold (truncated extent).
    destruct (m && negb rw) eqn:Em.
    + destruct (os_ShowWindow_run e hwnd SW_SHOWNOACTIVATE s) as (w1 & H1 & _).
      unfold bind at 1. rewrite H1.
      match goal with
      | |- context [SetWindowSize e hwnd ?a ?b] =>
          destruct (SetWindowSize_run e hwnd a b
                      (with_calls s w1 [CallShowWindow hwnd SW_SHOWNOACTIVATE]))
            as (b2 & w2 & H2 & _ & _)
      end.
      unfold bind at 1. rewrite H2. unfold ret.
      rewrite with_calls_with_calls.
      do 2 eexists. split; [reflexivity|].
      split; [discriminate|]. split; [intros ->; discriminate|].
      split; [reflexivity|]. intros _. cbn. auto.
    + unfold bind at 1. unfold ret at 1.
      match goal with
      | |- context [SetWindowSize e hwnd ?a ?b] =>
          destruct (SetWindowSize_run e hwnd a b s) as (b2 & w2 & H2 & Hk & _)
      end.
      unfold bind at 1. rewrite H2. unfold ret.
      do 2 eexists. split; [reflexivity|].
      split; [discriminate|]. split; [intros _; exact Hk|].
      split; [reflexivity|]. intros _. cbn. auto.
  - unfold ret. exists (top_window s), []. rewrite with_calls_nil.
    split; [reflexivity|]. split; [auto|].
    split; [intros; apply origin_kept_refl|].
    split; [reflexivity | discriminate].
Qed.

Lemma final_client_size_run (e : Env) (rw rh : bool) (cw ch : Z) :
  exists v d,
    (forall s, final_client_size e rw rh cw ch s
               = (Ret v, with_calls s (top_window s) d)) /\
    windows d = [] /\ paints d = [] /\ entries d = [] /\
    (rw || rh = false -> v = (cw, ch)).
Proof.
  unfold final_client_size. destruct (rw || rh) eqn:Er.
  - cbn [resample_client].
    destruct (canvas_client_after e 0) as [a0 b0].
    destruct ((negb rw || negb (a0 =? cw)) && (negb rh || negb (b0 =? ch))).
    + exists (a0, b0), []. split; [|repeat split; discriminate].
      intros s. unfold ret. now rewrite with_calls_nil.
    + destruct (canvas_client_after e 1) as [a1 b1].
      destruct ((negb rw || negb (a1 =? cw)) && (negb rh || negb (b1 =? ch))).
      * exists (a1, b1), [CallRecalc (Nat.ltb 0 0)].
        split; [|repeat split; discriminate].
        intros s. reflexivity.
      * exists (a1, b1), [CallRecalc (Nat.ltb 0 0); CallRecalc (Nat.ltb 0 1)].
        split; [|repeat split; discriminate].
        intros s. unfold doc_recalc. run_prim. now rewrite <- app_assoc.
  - exists (cw, ch), []. split; [|repeat split].
    intros s. unfold ret. now rewrite with_calls_nil.
Qed.

Lemma restore_window_run (e : Env) (hwnd : HWND) (rw rh m : bool) (ww wh : Z)
      (s : World) :
  exists w' d,
    restore_window e hwnd rw rh m ww wh s = (Ret tt, with_calls s w' d) /\
    paints d = [] /\ entries d = [] /\
    (rw || rh = false -> w' = top_window s /\ d = []) /\
    (rw || rh = true -> m = true ->
     d = [CallShowWindow hwnd SW_MAXIMIZE] /\
     (hwnd = top_level_window_handle e ->
      w' = {| win_rect := maximized_rect e; win_zoomed := true |})) /\
    (rw || rh = true -> m = false ->
     d = [CallSetWindowPos hwnd ww wh] /\
     origin_kept (top_window s) w' /\
     (hwnd = top_level_window_handle e ->
      set_window_pos e (top_window s) ww wh = SwpApplied ->
      win_rect w' = resized (win_rect (top_window s)) ww wh)).
Proof.
  unfold restore_window. destruct (rw || rh) eqn:Er.
  - destruct m.
    + destruct (os_ShowWindow_run e hwnd SW_MAXIMIZE s) as (w1 & H1 & Hm & _).
      rewrite H1. do 2 eexists. split; [reflexivity|].
      split; [reflexivity|]. split; [reflexivity|]. split; [discriminate|].
      split; [|discriminate]. intros _ _. split; [reflexivity|].
      intros Hh. now apply Hm.
    + destruct (SetWindowSize_run e hwnd ww wh s) as (b & w1 & H1 & Hk & Ha).
      unfold bind at 1. rewrite H1. unfold ret.
      do 2 eexists. split; [reflexivity|].
      split; [reflexivity|]. split; [reflexivity|]. split; [discriminate|].
      split; [discriminate|]. intros _ _. auto.
  - unfold ret. exists (top_window s), []. rewrite with_calls_nil.
    split; [reflexivity|]. split; [reflexivity|]. split; [reflexivity|].
    split; [auto|]. split; discriminate.
Qed.

(** ** One run of [CaptureBrowser] *)

Lemma bind_run {A B} (m : M A) (k : A -> M B) (s s' : World) (a : A) :
  m s = (Ret a, s') -> bind m k s = k a s'.
Proof. intros H. unfold bind. now rewrite H. Qed.

Lemma bind_throw {A B} (m : M A) (k : A -> M B) (s s' : World) (what : string) :
  m s = (Throw what, s') -> bind m k s = (Throw what, s').
Proof. intros H. unfold bind. now rewrite H. Qed.

Lemma resized_same_origin (r r' : RECT) (cx cy : Z) :
  left r' = left r -> top r' = top r -> resized r' cx cy = resized r cx cy.
Proof. unfold resized. intros -> ->. reflexivity. Qed.

Lemma capture_resized_run (e : Env) (ww wh vw vh : Z) (s : World) :
  exists l w' img d,
    capture_resized e (top_level_window_handle e) (content_window_handle e)
                    ww wh vw vh s
    = (Ret (hresult_of img, Some l),
       {| top_window := w'; image_ := img; calls := calls s ++ d |}) /\
    fr_windowWidth l = ww /\ fr_windowHeight l = wh /\
    fr_viewWidth l = vw /\ fr_viewHeight l = vh /\
    run_ok e (top_window s) l w' img d.
Proof.
  unfold capture_resized.
  assert (Hz : os_IsZoomed e (top_level_window_handle e) s
               = (Ret (win_zoomed (top_window s)), s)).
  { unfold os_IsZoomed. run_prim. now rewrite Z.eqb_refl. }
  rewrite (bind_run _ _ _ _ _ Hz).
  set (m := win_zoomed (top_window s)).
  destruct (increase_width_run e (top_level_window_handle e) m ww wh vw s)
    as (w1 & d1 & H1 & Hn1 & Hk1 & Hw1 & Hr1).
  rewrite (bind_run _ _ _ _ _ H1). cbv beta iota.
  set (sbw := max 0 (Int32.sub vw (canvas_clientWidth e))) in *.
  set (extw := natural_extent vw (canvas_clientWidth e) (canvas_scrollWidth e)) in *.
  set (rw := extw >? vw) in *.
  set (tvw := if rw then truncated extw else extw) in *.
  set (tww := if rw then Int32.add ww (Int32.sub tvw vw) else ww) in *.
  destruct (increase_height_run e (top_level_window_handle e) m rw wh vh sbw tww
                                (with_calls s w1 d1))
    as (w2 & d2 & H2 & Hn2 & Hk2 & Hw2 & Hr2).
  rewrite (bind_run _ _ _ _ _ H2). cbv beta iota.
  set (sbh := max 0 (Int32.sub vh (canvas_clientHeight e))) in *.
  set (exth := natural_extent vh (canvas_clientHeight e) (canvas_scrollHeight e)) in *.
  set (rh := exth >? vh) in *.
  set (tvh := if rh then if sbw >? 0 then Int32.sub (truncated exth) 2
                         else truncated exth else exth) in *.
  set (twh := if rh then Int32.add wh (Int32.sub tvh vh) else wh) in *.
  rewrite with_calls_with_calls in *.
  destruct (final_client_size_run e rw rh (canvas_clientWidth e) (canvas_clientHeight e))
    as ([scw sch] & d3 & H3 & Hw3 & Hp3 & He3 & Hv3).
  rewrite (bind_run _ _ _ _ _ (H3 _)). cbv beta iota.
  rewrite with_calls_with_calls. cbn [top_window with_calls].
  destruct (if (scw <? 1) || (sch <? 1) then (tvw, tvh) else (scw, sch))
    as [tcw tch] eqn:Ef.
  set (ckw := Int32.sub (canvas_clientWidth e) 17).
  set (ckh := Int32.sub (canvas_clientHeight e) 17).
  pose proof (CaptureView_run e (content_window_handle e) tcw tch ckw ckh) as Hcv.
  set (s3 := {| top_window := w2; image_ := image_ s;
                calls := calls s ++ (d1 ++ d2) ++ d3 |}).
  assert (Hcap : exists img d4,
             CaptureView e (content_window_handle e) tcw tch ckw ckh s3
             = (Ret img, with_calls s3 w2 d4) /\
             windows d4 = [] /\ entries d4 = [] /\
             match CImage_Create e tcw tch 32 with
             | None => img = None /\ paints d4 = []
             | Some image0 =>
                 img = Some (painted e image0 (last_try e image0 ckw ckh)) /\
                 paints d4 = repeat (CallPrintWindow (content_window_handle e))
                                    (last_try e image0 ckw ckh)
             end).
  { destruct (CImage_Create e tcw tch 32) as [image0|].
    - destruct Hcv as (d4 & Hrun & Hw4 & He4 & Hp4).
      exists (Some (painted e image0 (last_try e image0 ckw ckh))), d4.
      rewrite Hrun. auto.
    - exists None, []. rewrite Hcv.
      replace (with_calls s3 w2 []) with s3
        by (unfold with_calls, s3; cbn; now rewrite app_nil_r).
      auto. }
  destruct Hcap as (img & d4 & H4 & Hw4 & He4 & Himg).
  rewrite (bind_run _ _ _ _ _ H4).
  set (s4 := {| top_window := w2; image_ := img;
                calls := calls s ++ ((d1 ++ d2) ++ d3) ++ d4 |}).
  assert (Hset : set_image_ img (with_calls s3 w2 d4) = (Ret tt, s4)).
  { unfold set_image_, with_calls, s3, s4. cbn. now rewrite <- app_assoc. }
  rewrite (bind_run _ _ _ _ _ Hset).
  destruct (restore_window_run e (top_level_window_handle e) rw rh m ww wh s4)
    as (w5 & d5 & H5 & Hp5 & He5 & Hn5 & Hm5 & Hb5).
  rewrite (bind_run _ _ _ _ _ H5).
  unfold get_image_ at 1. unfold bind at 1. unfold ret.
  cbn [with_calls image_ top_window calls s4].
  eexists _, w5, img, ((((d1 ++ d2) ++ d3) ++ d4) ++ d5).
  split.
  { unfold hresult_of, with_calls, s4. cbn [calls image_ top_window].
    rewrite <- !app_assoc. reflexivity. }
  cbn [fr_windowWidth fr_windowHeight fr_viewWidth fr_viewHeight].
  do 4 (split; [reflexivity|]).
  cbn [top_window with_calls s4] in *.
  assert (Hpaints : paints ((((d1 ++ d2) ++ d3) ++ d4) ++ d5) = paints d4).
  { rewrite !paints_app, (windows_all_no_paints d1 Hw1),
      (windows_all_no_paints d2 Hw2), Hp3, Hp5.
    cbn [app]. now rewrite app_nil_r. }
  constructor; unfold resized_any;
    cbn [fr_windowWidth fr_windowHeight fr_viewWidth fr_viewHeight
         fr_is_maximized fr_clientWidth fr_scrollWidth fr_scrollbarWidth
         fr_targetViewWidth fr_is_resized_width fr_clientHeight fr_scrollHeight
         fr_scrollbarHeight fr_targetViewHeight fr_is_resized_height
         fr_targetWindowWidth fr_targetWindowHeight fr_sampledClientWidth
         fr_sampledClientHeight fr_targetClientWidth fr_targetClientHeight
         fr_check_width fr_check_height].
  - constructor; unfold resized_any;
      cbn [fr_windowWidth fr_windowHeight fr_viewWidth fr_viewHeight
           fr_is_maximized fr_clientWidth fr_scrollWidth fr_scrollbarWidth
           fr_targetViewWidth fr_is_resized_width fr_clientHeight fr_scrollHeight
           fr_scrollbarHeight fr_targetViewHeight fr_is_resized_height
           fr_targetWindowWidth fr_targetWindowHeight fr_sampledClientWidth
           fr_sampledClientHeight fr_targetClientWidth fr_targetClientHeight
           fr_check_width fr_check_height]; try reflexivity.
    + intros Hr. specialize (Hv3 Hr). injection Hv3 as -> ->. auto.
    + symmetry. exact Ef.
  - reflexivity.
  - auto.
  - rewrite Hpaints. exact Himg.
  - rewrite !entries_app, (windows_all_no_entries d1 Hw1),
      (windows_all_no_entries d2 Hw2), He3, He4, He5. reflexivity.
  - split.
    + intros Hr. rewrite <- !app_assoc. apply in_or_app. left. now apply Hr1.
    + intros Hr. rewrite <- !app_assoc. apply in_or_app. right.
      apply in_or_app. left. now apply Hr2.
  - intros Hr. apply orb_false_elim in Hr. destruct Hr as [Hrw Hrh].
    destruct (Hn1 Hrw) as [-> ->]. destruct (Hn2 Hrh) as [-> ->].
    destruct Hn5 as [-> ->]; [now rewrite Hrw, Hrh|].
    split; [reflexivity|].
    cbn [app]. rewrite app_nil_r, windows_app, Hw3, Hw4. reflexivity.
  - intros Hr Hm. destruct (Hm5 Hr Hm) as [-> Hw5].
    split; [now apply Hw5|]. eexists. reflexivity.
  - intros Hr Hm. destruct (Hb5 Hr Hm) as (-> & Hk5 & Ha5).
    specialize (Hk1 Hm). specialize (Hk2 Hm).
    assert (Hk : origin_kept (top_window s) w2)
      by (eapply origin_kept_trans; eassumption).
    split.
    { destruct Hk5 as (_ & _ & ->). destruct Hk as (_ & _ & ->). exact Hm. }
    split; [eexists; reflexivity|].
    intros Happ. rewrite Ha5; [|reflexivity|now apply Happ].
    destruct Hk as (Hl & Ht & _). now apply resized_same_origin.
Qed.

(** A run that reaches [GetDocument] with a browser that yields no
    document stops there, having touched nothing. *)
Lemma CaptureBrowser_frame_fault (e : Env) (s : World) :
  document_missing e = true ->
  CaptureBrowser_frame e s
  = (Throw NULL_DOCUMENT, with_calls s (top_window s) [CallCaptureBrowser]).
Proof.
  unfold document_missing, CaptureBrowser_frame. intros Hm.
  apply andb_true_iff in Hm. destruct Hm as [Hh Hd].
  apply negb_true_iff in Hh.
  set (s0 := with_calls s (top_window s) [CallCaptureBrowser]).
  assert (H0 : record_call CallCaptureBrowser s = (Ret tt, s0)) by reflexivity.
  rewrite (bind_run _ _ _ _ _ H0), Hh.
  unfold bind, raise, GetDocument. rewrite Hd. reflexivity.
Qed.

(** The whole of [CaptureBrowser] otherwise: either one of the early
    [return E_FAIL] exits, which touch nothing, or a run with a frame. *)
Lemma CaptureBrowser_frame_run (e : Env) (s : World) :
  document_missing e = false ->
  CaptureBrowser_frame e s
  = (Ret (E_FAIL, None), with_calls s (top_window s) [CallCaptureBrowser]) \/
  exists l w' img d,
    CaptureBrowser_frame e s
    = (Ret (hresult_of img, Some l),
       {| top_window := w'; image_ := img;
          calls := calls s ++ CallCaptureBrowser :: d |}) /\
    (fr_windowWidth l, fr_windowHeight l) = outer_size (top_window s) /\
    run_ok e (top_window s) l w' img d.
Proof.
  unfold document_missing, CaptureBrowser_frame. intros Hm.
  set (s0 := with_calls s (top_window s) [CallCaptureBrowser]).
  assert (H0 : record_call CallCaptureBrowser s = (Ret tt, s0)) by reflexivity.
  rewrite (bind_run _ _ _ _ _ H0).
  destruct ((top_level_window_handle e =? 0) || (content_window_handle e =? 0));
    [left; reflexivity|].
  cbn [negb andb] in Hm. apply negb_false_iff in Hm.
  assert (Hd : raise (GetDocument e) s0
               = (Ret (negb (FAILED (hr_query_document3 e))), s0)).
  { unfold raise, GetDocument. rewrite Hm. cbn [negb].
    destruct (FAILED (hr_query_document3 e)); reflexivity. }
  rewrite (bind_run _ _ _ _ _ Hd).
  destruct (FAILED (hr_query_document3 e)); cbn [negb]; [left; reflexivity|].
  destruct (negb (GetCanvas e)); [left; reflexivity|].
  assert (Hw : GetWindowSize e (top_level_window_handle e) s0
               = (Ret (if top_rect_available e
                       then Some (outer_size (top_window s)) else None), s0)).
  { unfold GetWindowSize, os_GetWindowRect. run_prim. rewrite Z.eqb_refl.
    destruct (top_rect_available e); reflexivity. }
  rewrite (bind_run _ _ _ _ _ Hw).
  destruct (top_rect_available e); [|left; reflexivity].
  destruct (outer_size (top_window s)) as [ww wh] eqn:Eo.
  destruct (GetWindowSize_run e (content_window_handle e) s0) as (r & Hv).
  rewrite (bind_run _ _ _ _ _ Hv).
  destruct r as [[vw vh]|]; [|left; reflexivity].
  right.
  destruct (capture_resized_run e ww wh vw vh s0)
    as (l & w' & img & d & Hrun & Hww & Hwh & _ & _ & Hok).
  exists l, w', img, d. rewrite Hrun. split; [|split].
  - unfold s0, with_calls. cbn [calls]. rewrite <- app_assoc. reflexivity.
  - now rewrite Hww, Hwh.
  - exact Hok.
Qed.

(** The run that stops in [GetDocument]. *)
Lemma CaptureBrowser_fault (e : Env) (s : World) :
  document_missing e = true ->
  CaptureBrowser e s
  = (Throw NULL_DOCUMENT, with_calls s (top_window s) [CallCaptureBrowser]) /\
  frame_of e s = None.
Proof.
  intros Hm. unfold frame_of, CaptureBrowser, bind.
  rewrite (CaptureBrowser_frame_fault e s Hm). split; reflexivity.
Qed.


(** A run without a frame touches nothing. *)
Lemma frameless_untouched (e : Env) (s : World) :
  frame_of e s = None ->
  world_after e s = with_calls s (top_window s) [CallCaptureBrowser].
Proof.
  intros Hf. destruct (document_missing e) eqn:Hm.
  - unfold world_after. now rewrite (proj1 (CaptureBrowser_fault e s Hm)).
  - unfold frame_of, world_after, CaptureBrowser in *.
    destruct (CaptureBrowser_frame_run e s Hm) as [H | (l & w' & img & d & H & _)].
    + rewrite (bind_run _ _ _ _ _ H). reflexivity.
    + rewrite H in Hf. discriminate.
Qed.

(** A run with a frame had a document. *)
Lemma frame_has_document (e : Env) (s : World) (l : Frame) :
  frame_of e s = Some l -> document_missing e = false.
Proof.
  intros Hf. destruct (document_missing e) eqn:Hm; [|reflexivity].
  rewrite (proj2 (CaptureBrowser_fault e s Hm)) in Hf. discriminate.
Qed.

(** The facts of a run that has a frame, from [frame_of]. *)
Lemma frame_of_run (e : Env) (s : World) (l : Frame) :
  frame_of e s = Some l ->
  exists d,
    fst (CaptureBrowser e s) = Ret (hresult_of (image_ (world_after e s))) /\
    calls (world_after e s) = calls s ++ CallCaptureBrowser :: d /\
    (fr_windowWidth l, fr_windowHeight l) = outer_size (top_window s) /\
    run_ok e (top_window s) l (top_window (world_after e s))
           (image_ (world_after e s)) d.
Proof.
  intros Hf. pose proof (frame_has_document e s l Hf) as Hm. revert Hf.
  unfold frame_of, world_after, CaptureBrowser.
  destruct (CaptureBrowser_frame_run e s Hm)
    as [H | (l' & w' & img & d & H & Ho & Hok)].
  - rewrite H. discriminate.
  - rewrite (bind_run _ _ _ _ _ H), H. cbn. intros [= ->].
    exists d. auto.
Qed.

(* ================================================================= *)
(** * The specified properties *)

Lemma last_try_bounds (e : Env) (image0 : CImage) (cw ch : Z) :
  let k := last_try e image0 cw ch in
  (1 <= k <= 3)%nat /\
  (forall i, (1 <= i < k)%nat -> accepts e image0 cw ch i = false) /\
  ((k < 3)%nat -> accepts e image0 cw ch k = true).
Proof.
  unfold last_try.
  destruct (accepts e image0 cw ch 1) eqn:E1;
    [|destruct (accepts e image0 cw ch 2) eqn:E2].
  - split; [lia|]. split; [intros i Hi; lia | auto].
  - split; [lia|]. split; [|auto].
    intros i Hi. assert (i = 1%nat) as -> by lia. exact E1.
  - split; [lia|]. split; [|lia].
    intros i Hi. assert (i = 1%nat \/ i = 2%nat) as [-> | ->] by lia; assumption.
Qed.

(** Try [i] is accepted exactly when [PrintWindow] succeeds and some
    pixel of the checked region of the painted image differs from the
    first pixel. *)
Lemma accepts_spec (e : Env) (image : CImage) (cw ch : Z) (i : nat) :
  img_bpp image = 32 ->
  accepts e image cw ch i = true <->
  fst (print_window e i) = true /\ ~ uniform_within (painted e image i) cw ch.
Proof.
  intros Hbpp. unfold accepts.
  destruct (IsImageSameColour_32 (painted e image i) cw ch Hbpp) as (b & -> & Hu).
  destruct (fst (print_window e i)); cbn [andb].
  - destruct b.
    + split; [discriminate|]. intros [_ Hn]. exfalso. apply Hn, Hu. reflexivity.
    + split; [|reflexivity]. intros _. split; [reflexivity|].
      intros H. apply Hu in H. discriminate.
  - split; [discriminate|]. intros [H _]. discriminate.
Qed.

(** C3.  [CaptureView] returns [NULL] exactly when the 32-bit bitmap
    cannot be created.  Otherwise it calls [PrintWindow] [k] times with
    [1 <= k <= 3] and returns the buffer as the [k]-th call left it,
    where [k] is the first try at which [PrintWindow] succeeds and the
    checked region is not uniform, and 3 if there is no such try; the
    buffer of the third try is returned whatever it holds.  A try is
    accepted exactly when its [PrintWindow] succeeds and some pixel of
    the checked region, clipped to the image, differs from the first
    pixel of the buffer. *)
Theorem C3_paint_capture (e : Env) (view_handle : HWND)
        (width height check_width check_height : Z) (s : World) :
  (fst (CaptureView e view_handle width height check_width check_height s)
   = Ret None <-> CImage_Create e width height 32 = None) /\
  (forall image0,
      CImage_Create e width height 32 = Some image0 ->
      let k := last_try e image0 check_width check_height in
      (exists d,
          CaptureView e view_handle width height check_width check_height s
          = (Ret (Some (painted e image0 k)), with_calls s (top_window s) d) /\
          paints d = repeat (CallPrintWindow view_handle) k) /\
      (1 <= k <= 3)%nat /\
      (forall i, (1 <= i < k)%nat ->
                 accepts e image0 check_width check_height i = false) /\
      ((k < 3)%nat -> accepts e image0 check_width check_height k = true) /\
      (forall i,
          accepts e image0 check_width check_height i = true <->
          fst (print_window e i) = true /\
          ~ uniform_within (painted e image0 i) check_width check_height)).
Proof.
  pose proof (CaptureView_run e view_handle width height check_width check_height)
    as Hrun.
  destruct (CImage_Create e width height 32) as [image0|] eqn:Ec.
  - destruct Hrun as (d & Hrun & _ & _ & Hp). split.
    + rewrite Hrun. cbn. split; discriminate.
    + intros image1 [= <-]. cbn zeta.
      split; [exists d; split; [apply Hrun | exact Hp]|].
      destruct (last_try_bounds e image0 check_width check_height)
        as (Hk & Hrej & Hacc).
      do 3 (split; [assumption|]).
      intros i. apply accepts_spec.
      now destruct (CImage_Create_Some _ _ _ _ _ Ec) as (_ & _ & _ & Hbpp).
  - split.
    + rewrite Hrun. cbn. split; reflexivity.
    + discriminate.
Qed.

Lemma C3_paint_capture_witness :
  (exists image0,
      CImage_Create banded_env 100 300 32 = Some image0 /\
      last_try banded_env image0 83 63 = 3%nat /\
      fst (CaptureView banded_env 1002 100 300 83 63 sample_world)
      = Ret (Some (painted banded_env image0 3))) /\
  (exists image1,
      CImage_Create scenario_env 984 900 32 = Some image1 /\
      last_try scenario_env image1 967 629 = 1%nat /\
      fst (print_window scenario_env 1) = true /\
      ~ uniform_within (painted scenario_env image1 1) 967 629).
Proof.
  split.
  - eexists. split; [reflexivity|]. split; [vm_compute; reflexivity|].
    destruct (proj2 (C3_paint_capture banded_env 1002 100 300 83 63 sample_world)
                    _ eq_refl) as ((d & Hrun & _) & _).
    rewrite Hrun. reflexivity.
  - eexists. split; [reflexivity|]. split; [vm_compute; reflexivity|].
    destruct (proj2 (C3_paint_capture scenario_env 1002 984 900 967 629 sample_world)
                    _ eq_refl) as (_ & _ & _ & _ & Hacc).
    apply (Hacc 1%nat). vm_compute. reflexivity.
Defined.

(** The image a run with frame [l] leaves has the size of the capture
    target, and the run succeeds exactly when that image can be
    created. *)
Lemma captured_image_size (e : Env) (s : World) (l : Frame) :
  frame_of e s = Some l ->
  (fst (CaptureBrowser e s)
   = Ret (if dib_create e (fr_targetClientWidth l) (fr_targetClientHeight l)
          then S_OK else E_FAIL)) /\
  (forall image, image_ (world_after e s) = Some image ->
                 img_width image = fr_targetClientWidth l /\
                 img_height image = Z.abs (fr_targetClientHeight l) /\
                 img_bpp image = 32).
Proof.
  intros Hf. destruct (frame_of_run e s l Hf) as (d & Hres & _ & _ & Hok).
  pose proof (run_image _ _ _ _ _ _ Hok) as Himg.
  destruct (CImage_Create e (fr_targetClientWidth l) (fr_targetClientHeight l) 32)
    as [image0|] eqn:Ec.
  - destruct (CImage_Create_Some _ _ _ _ _ Ec) as (Hc & Hw & Hh & Hb).
    cbn zeta in Himg. destruct Himg as [Himg _].
    rewrite Hres, Himg, Hc. split; [reflexivity|].
    intros image [= <-]. cbn. auto.
  - apply CImage_Create_None in Ec. destruct Himg as [Himg _].
    rewrite Hres, Himg, Ec. split; [reflexivity | discriminate].
Qed.



(** C10.  On an image of 32 bits per pixel, a check width or a check
    height of zero or less makes [IsImageSameColour] return true whatever
    the pixels are.  So when the client width or the client height read
    before the resize is at most 17, no try of [CaptureView] is accepted:
    a run whose image can be created calls [PrintWindow] three times and
    keeps the buffer of the third call. *)
Theorem C10_empty_check_region :
  (forall image check_width check_height,
      img_bpp image = 32 ->
      check_width <= 0 \/ check_height <= 0 ->
      IsImageSameColour image check_width check_height = Ret true) /\
  (forall e s l,
      frame_of e s = Some l ->
      (Int32.INT_MIN + 17 <= fr_clientWidth l <= 17 \/
       Int32.INT_MIN + 17 <= fr_clientHeight l <= 17) ->
      forall image0,
        CImage_Create e (fr_targetClientWidth l) (fr_targetClientHeight l) 32
        = Some image0 ->
        (forall i, IsImageSameColour (painted e image0 i)
                                     (fr_check_width l) (fr_check_height l)
                   = Ret true) /\
        (forall i, accepts e image0 (fr_check_width l) (fr_check_height l) i = false) /\
        image_ (world_after e s) = Some (painted e image0 3) /\
        paints (calls (world_after e s))
        = paints (calls s) ++ repeat (CallPrintWindow (content_window_handle e)) 3).
Proof.
  assert (Hempty : forall image cw ch,
             img_bpp image = 32 -> cw <= 0 \/ ch <= 0 ->
             IsImageSameColour image cw ch = Ret true).
  { intros image cw ch Hbpp Hle.
    destruct (IsImageSameColour_32 image cw ch Hbpp) as (b & Hb & Hiff).
    rewrite Hb. f_equal. apply Hiff. intros x y Hx Hy. lia. }
  split; [exact Hempty|].
  intros e s l Hf Hsmall image0 Hc.
  destruct (frame_of_run e s l Hf) as (d & _ & Hcalls & _ & Hok).
  pose proof (run_frame _ _ _ _ _ _ Hok) as Hfr.
  assert (Hck : fr_check_width l <= 0 \/ fr_check_height l <= 0).
  { rewrite (ok_check_width _ Hfr), (ok_check_height _ Hfr).
    unfold Int32.INT_MIN in Hsmall.
    destruct Hsmall as [H|H]; [left|right];
      rewrite Int32Facts.sub_small;
      unfold Int32.in_range, Int32.INT_MIN, Int32.INT_MAX; lia. }
  destruct (CImage_Create_Some _ _ _ _ _ Hc) as (_ & _ & _ & Hbpp).
  assert (Hacc : forall i,
             accepts e image0 (fr_check_width l) (fr_check_height l) i = false).
  { intros i. unfold accepts.
    rewrite (Hempty (painted e image0 i) _ _ Hbpp Hck).
    apply andb_false_r. }
  pose proof (run_image _ _ _ _ _ _ Hok) as Himg.
  rewrite Hc in Himg. cbn zeta in Himg. unfold last_try in Himg.
  rewrite !Hacc in Himg. destruct Himg as [Himg Hp].
  split; [intros i; exact (Hempty (painted e image0 i) _ _ Hbpp Hck)|].
  split; [exact Hacc|]. split; [exact Himg|].
  rewrite Hcalls. rewrite paints_app. cbn [paints filter is_paint_call].
  fold (paints d). now rewrite Hp.
Qed.

Lemma C10_empty_check_region_witness :
  IsImageSameColour banded_image (-1) 283 = Ret true /\
  exists l image0,
    frame_of narrow_env sample_world = Some l /\
    fr_clientWidth l = 16 /\
    image_ (world_after narrow_env sample_world) = Some (painted narrow_env image0 3).
Proof.
  split.
  - apply (proj1 C10_empty_check_region); [reflexivity | left; lia].
  - do 2 eexists. split; [vm_compute; reflexivity|]. split; [reflexivity|].
    refine (proj1 (proj2 (proj2 (proj2 C10_empty_check_region narrow_env sample_world
                                       _ eq_refl _ _ eq_refl)))).
    left. vm_compute. split; discriminate.
Defined.




(** ** The target view size *)

Lemma natural_extent_plain (view client scroll : Z) :
  dimension view -> dimension client -> dimension scroll ->
  natural_extent view client scroll = Z.max view (scroll + Z.max 0 (view - client)).
Proof.
  unfold dimension, natural_extent. intros Hv Hc Hs.
  rewrite !max_spec.
  rewrite (Int32Facts.sub_small view client)
    by (unfold Int32.in_range, Int32.INT_MIN, Int32.INT_MAX; lia).
  rewrite Int32Facts.add_small
    by (unfold Int32.in_range, Int32.INT_MIN, Int32.INT_MAX; lia).
  reflexivity.
Qed.

Lemma truncated_spec (extent : Z) : truncated extent = Z.min extent SIZE_LIMIT.
Proof.
  unfold truncated, SIZE_LIMIT. destruct (Z.gtb_spec extent 65534); lia.
Qed.

Lemma natural_extent_ge (view client scroll : Z) :
  view <= natural_extent view client scroll.
Proof. unfold natural_extent. rewrite max_spec. lia. Qed.

(** C4, as stated, fails.  The view of [wide_env] is 70000 pixels wide
    and shows the whole document: no growth is needed, the ceiling is not
    applied and the target view width is 70000. *)
Lemma C4_counterexample :
  exists l,
    frame_of wide_env sample_world = Some l /\
    fr_targetViewWidth l = 70000 /\
    ~ fr_targetViewWidth l <= 65534.
Proof.
  eexists. split; [vm_compute; reflexivity|]. split; [reflexivity|].
  cbn. lia.
Qed.

(** C4, amended.  A target view dimension is at most the larger of the
    current view dimension and 65534 (for the height, given a view
    height that is not negative); so it is at most 65534 whenever the
    view is.  The ceiling is applied when the window must grow: a natural
    extent above the view and above 65534 is truncated to 65534, and
    two more pixels are taken off the height when there is a vertical
    scrollbar.  A truncated capture is not rejected: the result of
    [CaptureBrowser] depends on the creation of the image only.  Without
    growth the target is the current view dimension, whatever its
    size. *)
Theorem C4_ceiling (e : Env) (s : World) (l : Frame) :
  frame_of e s = Some l ->
  let extent_w :=
    natural_extent (fr_viewWidth l) (fr_clientWidth l) (fr_scrollWidth l) in
  let extent_h :=
    natural_extent (fr_viewHeight l) (fr_clientHeight l) (fr_scrollHeight l) in
  fr_targetViewWidth l <= Z.max (fr_viewWidth l) SIZE_LIMIT /\
  (0 <= fr_viewHeight l ->
   fr_targetViewHeight l <= Z.max (fr_viewHeight l) SIZE_LIMIT) /\
  (extent_w > fr_viewWidth l -> extent_w > SIZE_LIMIT ->
   fr_is_resized_width l = true /\ fr_targetViewWidth l = SIZE_LIMIT) /\
  (extent_h > fr_viewHeight l -> extent_h > SIZE_LIMIT ->
   fr_is_resized_height l = true /\
   fr_targetViewHeight l
   = if fr_scrollbarWidth l >? 0 then SIZE_LIMIT - 2 else SIZE_LIMIT) /\
  (fr_is_resized_width l = false -> fr_targetViewWidth l = fr_viewWidth l) /\
  (fr_is_resized_height l = false -> fr_targetViewHeight l = fr_viewHeight l) /\
  fst (CaptureBrowser e s)
  = Ret (if dib_create e (fr_targetClientWidth l) (fr_targetClientHeight l)
         then S_OK else E_FAIL).
Proof.
  intros Hf extent_w extent_h.
  destruct (frame_of_run e s l Hf) as (d & _ & _ & _ & Hok).
  pose proof (run_frame _ _ _ _ _ _ Hok) as Hfr.
  pose proof (ok_is_resized_width _ Hfr) as Hrw.
  pose proof (ok_targetViewWidth _ Hfr) as Htw.
  pose proof (ok_is_resized_height _ Hfr) as Hrh.
  pose proof (ok_targetViewHeight _ Hfr) as Hth.
  cbn zeta in Htw, Hth. fold extent_w in Hrw, Htw. fold extent_h in Hrh, Hth.
  pose proof (natural_extent_ge (fr_viewWidth l) (fr_clientWidth l) (fr_scrollWidth l))
    as Hgw. fold extent_w in Hgw.
  pose proof (natural_extent_ge (fr_viewHeight l) (fr_clientHeight l) (fr_scrollHeight l))
    as Hgh. fold extent_h in Hgh.
  rewrite !truncated_spec in *. unfold SIZE_LIMIT in *.
  assert (Hsub : 0 <= fr_viewHeight l -> extent_h > fr_viewHeight l ->
                 Int32.sub (Z.min extent_h 65534) 2 = Z.min extent_h 65534 - 2).
  { intros H0 Hgt. apply Int32Facts.sub_small.
    unfold Int32.in_range, Int32.INT_MIN, Int32.INT_MAX. lia. }
  repeat split.
  - rewrite Htw. destruct (fr_is_resized_width l); [lia|].
    symmetry in Hrw. rewrite Z.gtb_ltb, Z.ltb_ge in Hrw. lia.
  - intros H0. rewrite Hth. destruct (fr_is_resized_height l).
    + symmetry in Hrh. rewrite Z.gtb_ltb, Z.ltb_lt in Hrh.
      destruct (fr_scrollbarWidth l >? 0); [rewrite Hsub|]; lia.
    + symmetry in Hrh. rewrite Z.gtb_ltb, Z.ltb_ge in Hrh. lia.
  - rewrite Hrw. rewrite Z.gtb_ltb, Z.ltb_lt. lia.
  - assert (Hr : fr_is_resized_width l = true)
      by (rewrite Hrw, Z.gtb_ltb, Z.ltb_lt; lia).
    rewrite Htw, Hr. lia.
  - rewrite Hrh. rewrite Z.gtb_ltb, Z.ltb_lt. lia.
  - assert (Hr : fr_is_resized_height l = true)
      by (rewrite Hrh, Z.gtb_ltb, Z.ltb_lt; lia).
    rewrite Hth, Hr. replace (Z.min extent_h 65534) with 65534 by lia.
    reflexivity.
  - intros Hr. rewrite Htw, Hr. rewrite Hr in Hrw.
    symmetry in Hrw. rewrite Z.gtb_ltb, Z.ltb_ge in Hrw. lia.
  - intros Hr. rewrite Hth, Hr. rewrite Hr in Hrh.
    symmetry in Hrh. rewrite Z.gtb_ltb, Z.ltb_ge in Hrh. lia.
  - apply (captured_image_size e s l Hf).
Qed.

Lemma C4_ceiling_witness :
  exists l,
    frame_of tall_env sample_world = Some l /\
    fr_targetViewWidth l <= 65534 /\
    fr_targetViewHeight l = 65532 /\
    fst (CaptureBrowser tall_env sample_world) = Ret S_OK.
Proof.
  eexists. split; [vm_compute; reflexivity|].
  destruct (C4_ceiling tall_env sample_world _ eq_refl)
    as (Hw & _ & _ & Hh & _ & _ & Hres).
  split; [exact Hw|]. split.
  - apply Hh; vm_compute; reflexivity.
  - exact Hres.
Defined.

(** C5, as stated, fails.  In [short_page_env] the vertical scrollbar is
    17 pixels wide and the document is lower than the view: the height
    does not grow and nothing is taken off it. *)
Lemma C5_counterexample :
  exists l,
    frame_of short_page_env sample_world = Some l /\
    fr_scrollbarWidth l = 17 /\
    fr_targetViewHeight l = 663 /\
    Z.min (Z.max (fr_viewHeight l) (fr_scrollHeight l + fr_scrollbarHeight l))
          SIZE_LIMIT - 2 = 661.
Proof.
  eexists. split; [vm_compute; reflexivity|]. repeat split.
Qed.

(** C5, amended.  Two pixels are taken off the target view height when
    a vertical scrollbar is present and the height has to grow, that is
    when the natural height max(viewHeight, scrollHeight +
    scrollbarHeight) exceeds the view height: the target is then the
    natural height, truncated to the ceiling, minus 2.  With growth and
    no vertical scrollbar the target is the truncated natural height;
    without growth it is the view height. *)
Theorem C5_scrollbar_compensation (e : Env) (s : World) (l : Frame) :
  frame_of e s = Some l ->
  dimension (fr_viewHeight l) ->
  dimension (fr_clientHeight l) ->
  dimension (fr_scrollHeight l) ->
  let scrollbarHeight := Z.max 0 (fr_viewHeight l - fr_clientHeight l) in
  let natural := Z.max (fr_viewHeight l) (fr_scrollHeight l + scrollbarHeight) in
  fr_scrollbarHeight l = scrollbarHeight /\
  (natural > fr_viewHeight l ->
   fr_is_resized_height l = true /\
   (fr_scrollbarWidth l > 0 ->
    fr_targetViewHeight l = Z.min natural SIZE_LIMIT - 2) /\
   (fr_scrollbarWidth l <= 0 ->
    fr_targetViewHeight l = Z.min natural SIZE_LIMIT)) /\
  (natural <= fr_viewHeight l ->
   fr_is_resized_height l = false /\ fr_targetViewHeight l = fr_viewHeight l).
Proof.
  intros Hf Hv Hc Hs scrollbarHeight natural.
  destruct (frame_of_run e s l Hf) as (d & _ & _ & _ & Hok).
  pose proof (run_frame _ _ _ _ _ _ Hok) as Hfr.
  pose proof (ok_is_resized_height _ Hfr) as Hrh.
  pose proof (ok_targetViewHeight _ Hfr) as Hth.
  pose proof (ok_scrollbarHeight _ Hfr) as Hsb.
  cbn zeta in Hth.
  rewrite (natural_extent_plain _ _ _ Hv Hc Hs) in Hrh, Hth.
  fold scrollbarHeight in Hrh, Hth. fold natural in Hrh, Hth.
  rewrite !truncated_spec in Hth.
  unfold dimension in *.
  split.
  { rewrite Hsb, max_spec, Int32Facts.sub_small; [reflexivity|].
    unfold Int32.in_range, Int32.INT_MIN, Int32.INT_MAX. lia. }
  split.
  - intros Hgt.
    assert (Hr : fr_is_resized_height l = true)
      by (rewrite Hrh, Z.gtb_ltb, Z.ltb_lt; lia).
    rewrite Hr in Hth. split; [exact Hr|]. split.
    + intros Hsw.
      assert (Hb : (fr_scrollbarWidth l >? 0) = true)
        by (rewrite Z.gtb_ltb, Z.ltb_lt; lia).
      rewrite Hb in Hth. rewrite Hth. apply Int32Facts.sub_small.
      unfold Int32.in_range, Int32.INT_MIN, Int32.INT_MAX, SIZE_LIMIT. lia.
    + intros Hsw.
      assert (Hb : (fr_scrollbarWidth l >? 0) = false)
        by (rewrite Z.gtb_ltb, Z.ltb_ge; lia).
      rewrite Hb in Hth. exact Hth.
  - intros Hle.
    assert (Hr : fr_is_resized_height l = false)
      by (rewrite Hrh, Z.gtb_ltb, Z.ltb_ge; lia).
    rewrite Hr in Hth. split; [exact Hr|]. lia.
Qed.

Lemma C5_scrollbar_compensation_witness :
  exists l,
    frame_of tall_env sample_world = Some l /\
    fr_scrollbarWidth l = 17 /\
    fr_targetViewHeight l = Z.min (Z.max 663 (100000 + 0)) 65534 - 2.
Proof.
  eexists. split; [vm_compute; reflexivity|]. split; [reflexivity|].
  destruct (C5_scrollbar_compensation tall_env sample_world _ eq_refl)
    as (_ & Hgrow & _).
  - vm_compute. split; discriminate.
  - vm_compute. split; discriminate.
  - vm_compute. split; discriminate.
  - destruct Hgrow as (_ & Hsub & _).
    + vm_compute. reflexivity.
    + apply Hsub. vm_compute. reflexivity.
Defined.

(** C6, as stated, fails.  In [snug_env] the scroll size, 980 by 663,
    does not exceed the view, 984 by 663, on either axis; but the scroll
    width plus the 17 pixels of the vertical scrollbar does, and the
    window is made 13 pixels wider. *)
Lemma C6_counterexample :
  exists l,
    frame_of snug_env sample_world = Some l /\
    fr_scrollWidth l <= fr_viewWidth l /\
    fr_scrollHeight l <= fr_viewHeight l /\
    fr_is_resized_width l = true /\
    In (CallSetWindowPos 1001 1013 700) (calls (world_after snug_env sample_world)).
Proof.
  eexists. split; [vm_compute; reflexivity|].
  split; [cbn; lia|]. split; [cbn; lia|]. split; [reflexivity|].
  vm_compute. auto.
Qed.

(** C6, amended.  When on both axes the scroll size plus the scrollbar
    size max(0, view - client) does not exceed the view size, no axis is
    resized: the run makes no [SetWindowPos] and no [ShowWindow] call,
    leaves the top-level window as it is, and the target view and window
    sizes are the current ones, with nothing taken off the height. *)
Theorem C6_no_resize (e : Env) (s : World) (l : Frame) :
  frame_of e s = Some l ->
  dimension (fr_viewWidth l) -> dimension (fr_clientWidth l) ->
  dimension (fr_scrollWidth l) ->
  dimension (fr_viewHeight l) -> dimension (fr_clientHeight l) ->
  dimension (fr_scrollHeight l) ->
  fr_scrollWidth l + Z.max 0 (fr_viewWidth l - fr_clientWidth l)
  <= fr_viewWidth l ->
  fr_scrollHeight l + Z.max 0 (fr_viewHeight l - fr_clientHeight l)
  <= fr_viewHeight l ->
  fr_is_resized_width l = false /\
  fr_is_resized_height l = false /\
  windows (calls (world_after e s)) = windows (calls s) /\
  top_window (world_after e s) = top_window s /\
  fr_targetViewWidth l = fr_viewWidth l /\
  fr_targetViewHeight l = fr_viewHeight l /\
  fr_targetWindowWidth l = fr_windowWidth l /\
  fr_targetWindowHeight l = fr_windowHeight l.
Proof.
  intros Hf Hvw Hcw Hsw Hvh Hch Hsh Hw Hh.
  destruct (frame_of_run e s l Hf) as (d & _ & Hcalls & _ & Hok).
  pose proof (run_frame _ _ _ _ _ _ Hok) as Hfr.
  pose proof (ok_is_resized_width _ Hfr) as Hrw.
  pose proof (ok_targetViewWidth _ Hfr) as Htw.
  pose proof (ok_is_resized_height _ Hfr) as Hrh.
  pose proof (ok_targetViewHeight _ Hfr) as Hth.
  cbn zeta in Htw, Hth.
  rewrite (natural_extent_plain _ _ _ Hvw Hcw Hsw) in Hrw, Htw.
  rewrite (natural_extent_plain _ _ _ Hvh Hch Hsh) in Hrh, Hth.
  assert (Hr1 : fr_is_resized_width l = false)
    by (rewrite Hrw, Z.gtb_ltb, Z.ltb_ge; lia).
  assert (Hr2 : fr_is_resized_height l = false)
    by (rewrite Hrh, Z.gtb_ltb, Z.ltb_ge; lia).
  rewrite Hr1 in Htw. rewrite Hr2 in Hth.
  destruct (run_untouched _ _ _ _ _ _ Hok) as [Hwin Hd].
  { unfold resized_any. now rewrite Hr1, Hr2. }
  split; [exact Hr1|]. split; [exact Hr2|]. split.
  { rewrite Hcalls, windows_app. cbn [windows filter is_window_call].
    fold (windows d). rewrite Hd. apply app_nil_r. }
  split; [exact Hwin|]. split; [lia|]. split; [lia|].
  rewrite (ok_targetWindowWidth _ Hfr), (ok_targetWindowHeight _ Hfr), Hr1, Hr2.
  auto.
Qed.

Lemma C6_no_resize_witness :
  exists l,
    frame_of short_page_env sample_world = Some l /\
    fr_is_resized_width l = false /\
    fr_is_resized_height l = false /\
    top_window (world_after short_page_env sample_world) = top_window sample_world.
Proof.
  eexists. split; [vm_compute; reflexivity|].
  destruct (C6_no_resize short_page_env sample_world _ eq_refl)
    as (H1 & H2 & _ & H3 & _);
    try (vm_compute; split; discriminate);
    try (vm_compute; discriminate).
  auto.
Defined.

(** ** Restoration of the window *)

Lemma outer_size_resized (r : RECT) (cx cy : Z) (z : bool) :
  outer_size {| win_rect := resized r cx cy; win_zoomed := z |}
  = (Int32.wrap cx, Int32.wrap cy).
Proof.
  unfold outer_size, resized. cbn. now rewrite !Int32Facts.sub_add_cancel.
Qed.

(** A run with a frame ends with the window it started with, if a
    maximized window has the maximized rectangle and the window manager
    applies the request for the original size. *)
Lemma restoration (e : Env) (s : World) (l : Frame) :
  frame_of e s = Some l ->
  (win_zoomed (top_window s) = true ->
   win_rect (top_window s) = maximized_rect e) ->
  (win_zoomed (top_window s) = false ->
   forall w, origin_kept (top_window s) w ->
             set_window_pos e w (fr_windowWidth l) (fr_windowHeight l) = SwpApplied) ->
  outer_size (top_window (world_after e s)) = outer_size (top_window s) /\
  win_zoomed (top_window (world_after e s)) = win_zoomed (top_window s).
Proof.
  intros Hf Hmax Happ.
  destruct (frame_of_run e s l Hf) as (d & _ & _ & Hsize & Hok).
  pose proof (run_is_maximized _ _ _ _ _ _ Hok) as Hm.
  destruct (resized_any l) eqn:Er.
  - destruct (win_zoomed (top_window s)) eqn:Ez.
    + destruct (run_remaximized _ _ _ _ _ _ Hok Er Hm) as [-> _].
      unfold outer_size. cbn. now rewrite (Hmax eq_refl).
    + destruct (run_resized_back _ _ _ _ _ _ Hok Er Hm) as (Hz & _ & Hrect).
      specialize (Hrect (Happ eq_refl)). split; [|exact Hz].
      destruct (top_window (world_after e s)) as [r' z']. cbn in Hrect, Hz.
      subst r' z'. rewrite outer_size_resized, <- Hsize.
      injection Hsize as Hw Hh. unfold Int32.sub in Hw, Hh.
      rewrite Hw, Hh, !Int32Facts.wrap_wrap. reflexivity.
  - destruct (run_untouched _ _ _ _ _ _ Hok Er) as [-> _]. auto.
Qed.





Ltac eval_rhs H :=
  match type of H with
  | ?a = ?b => let v := eval vm_compute in b in change (a = v) in H
  end.

(** C7, as stated, fails.  With a viewport of 984 by 663 and a client
    area of 984 by 646 the scrollbar width is max(0, 984 - 984) = 0:
    there is no vertical scrollbar to keep, nothing is taken off, and the
    target view height is 917, not 915. *)
Lemma C7_counterexample :
  exists l,
    frame_of scenario_env sample_world = Some l /\
    (fr_windowWidth l, fr_windowHeight l) = (1000, 700) /\
    (fr_viewWidth l, fr_viewHeight l) = (984, 663) /\
    (fr_clientWidth l, fr_clientHeight l) = (984, 646) /\
    (fr_scrollWidth l, fr_scrollHeight l) = (984, 900) /\
    fr_scrollbarWidth l = 0 /\
    fr_targetViewHeight l = 917 /\
    fr_targetViewHeight l <> 915.
Proof.
  eexists. split; [vm_compute; reflexivity|].
  repeat split. cbn. discriminate.
Qed.

(** C7, amended.  For a window of 1000 by 700, a viewport of 984 by
    663, a client area of 984 by 646 and a scroll size of 984 by 900:
    the scrollbar height is 17, the scrollbar width is 0, the target
    view height is max(663, 900 + 17) = 917 with nothing taken off, the
    width is left alone, the window is asked to become 1000 by 954, and
    it is 1000 by 700 again after the run if the window manager applies
    the restoring request. *)
Theorem C7_scenario (e : Env) (s : World) (l : Frame) :
  frame_of e s = Some l ->
  (fr_windowWidth l, fr_windowHeight l) = (1000, 700) ->
  (fr_viewWidth l, fr_viewHeight l) = (984, 663) ->
  (fr_clientWidth l, fr_clientHeight l) = (984, 646) ->
  (fr_scrollWidth l, fr_scrollHeight l) = (984, 900) ->
  fr_scrollbarWidth l = 0 /\
  fr_scrollbarHeight l = 17 /\
  fr_targetViewHeight l = 917 /\
  fr_is_resized_width l = false /\
  fr_targetViewWidth l = 984 /\
  fr_is_resized_height l = true /\
  (fr_targetWindowWidth l, fr_targetWindowHeight l) = (1000, 954) /\
  In (CallSetWindowPos (top_level_window_handle e) 1000 954)
     (calls (world_after e s)) /\
  ((win_zoomed (top_window s) = true ->
    win_rect (top_window s) = maximized_rect e) ->
   (win_zoomed (top_window s) = false ->
    forall w, origin_kept (top_window s) w ->
              set_window_pos e w 1000 700 = SwpApplied) ->
   outer_size (top_window (world_after e s)) = (1000, 700) /\
   win_zoomed (top_window (world_after e s)) = win_zoomed (top_window s)).
Proof.
  intros Hf [= Hww Hwh] [= Hvw Hvh] [= Hcw Hch] [= Hsw Hsh].
  destruct (frame_of_run e s l Hf) as (d & _ & Hcalls & Hsize & Hok).
  destruct (run_frame _ _ _ _ _ _ Hok)
    as [Hsbw Hrw Htvw Htww Hsbh Hrh Htvh Htwh _ _ _ _].
  rewrite Hvw, Hcw in Hsbw. rewrite Hvw, Hcw, Hsw in Hrw, Htvw.
  rewrite Hvh, Hch in Hsbh. rewrite Hvh, Hch, Hsh in Hrh, Htvh.
  eval_rhs Hsbw. eval_rhs Hrw. eval_rhs Hsbh. eval_rhs Hrh.
  rewrite Hrw in Htvw, Htww. rewrite Hrh, Hsbw in Htvh. rewrite Hrh in Htwh.
  eval_rhs Htvw. eval_rhs Htvh.
  rewrite Htvh, Hvh, Hwh in Htwh. eval_rhs Htwh.
  rewrite Hww in Htww.
  repeat match goal with |- _ /\ _ => split end; try assumption.
  - now rewrite Htww, Htwh.
  - destruct (run_requests _ _ _ _ _ _ Hok) as [_ Hreq].
    specialize (Hreq Hrh). rewrite Htww, Htwh in Hreq.
    rewrite Hcalls. apply in_or_app. right. now right.
  - intros Hmax Happ.
    replace (1000, 700) with (outer_size (top_window s))
      by (now rewrite <- Hsize, Hww, Hwh).
    apply (restoration e s l Hf Hmax). rewrite Hww, Hwh. exact Happ.
Qed.

Lemma C7_scenario_witness :
  exists l,
    frame_of scenario_env sample_world = Some l /\
    fr_targetViewHeight l = 917 /\
    outer_size (top_window (world_after scenario_env sample_world)) = (1000, 700).
Proof.
  eexists. split; [vm_compute; reflexivity|].
  destruct (C7_scenario scenario_env sample_world _ eq_refl
                        eq_refl eq_refl eq_refl eq_refl)
    as (_ & _ & Hh & _ & _ & _ & _ & _ & Hrestore).
  split; [exact Hh|].
  apply Hrestore; [discriminate | reflexivity].
Defined.

(** ** The command handler *)

Lemma ClearImage_run (s : World) : ClearImage s = (Ret tt, cleared s).
Proof.
  unfold ClearImage, cleared. run_prim.
  destruct s as [w [i|] c]; reflexivity.
Qed.

Lemma CaptureBrowser_run (e : Env) (s : World) :
  document_missing e = false ->
  exists hr,
    CaptureBrowser e s = (Ret hr, world_after e s) /\
    (hr = S_OK \/ hr = E_FAIL) /\
    entries (calls (world_after e s)) = entries (calls s) ++ [CallCaptureBrowser].
Proof.
  intros Hm. unfold world_after, CaptureBrowser.
  destruct (CaptureBrowser_frame_run e s Hm)
    as [H | (l & w' & img & d & H & _ & Hok)];
    rewrite (bind_run _ _ _ _ _ H); cbn [fst snd ret].
  - exists E_FAIL. split; [reflexivity|]. split; [auto|].
    cbn. now rewrite entries_app.
  - exists (hresult_of img). split; [reflexivity|]. split.
    + destruct img; cbn; auto.
    + cbn [calls]. rewrite entries_app. cbn [entries filter is_entry_call].
      fold (entries d). now rewrite (run_entries _ _ _ _ _ _ Hok).
Qed.

(** Every run of [CaptureBrowser] writes its entry trace once. *)
Lemma entries_after_run (e : Env) (s : World) :
  entries (calls (world_after e s)) = entries (calls s) ++ [CallCaptureBrowser].
Proof.
  destruct (document_missing e) eqn:Hm.
  - unfold world_after. rewrite (proj1 (CaptureBrowser_fault e s Hm)).
    cbn. now rewrite entries_app.
  - now destruct (CaptureBrowser_run e s Hm) as (_ & _ & _ & H).
Qed.


(** The command stops where a run of [CaptureBrowser] stops: nothing in
    [ExecuteInternal] catches the fault, and no response is set. *)
Lemma ExecuteInternal_fault (WD_SUCCESS : Z) (executor : Executor)
      (enc : Encoder) (s : World) :
  let browser := current_browser executor in
  let s1 := world_after (browser 1%nat) s in
  let s2 := world_after (browser 2%nat) (cleared s1) in
  current_browser_status executor = WD_SUCCESS ->
  (document_missing (browser 1%nat) = true ->
   ExecuteInternal WD_SUCCESS executor enc s = (Throw NULL_DOCUMENT, s1) /\
   s1 = with_calls s (top_window s) [CallCaptureBrowser]) /\
  (document_missing (browser 1%nat) = false ->
   document_missing (browser 2%nat) = true ->
   fst (CaptureBrowser (browser 1%nat) s) = Ret E_FAIL ->
   ExecuteInternal WD_SUCCESS executor enc s = (Throw NULL_DOCUMENT, s2)).
Proof.
  intros browser s1 s2 Hst. unfold ExecuteInternal. fold browser.
  rewrite Hst, Z.eqb_refl. cbn [negb Nat.sub capture_attempts]. split.
  - intros Hm. destruct (CaptureBrowser_fault (browser 1%nat) s Hm) as [H _].
    subst s1. unfold world_after. rewrite H. cbn [snd].
    rewrite (bind_throw _ _ _ _ _ (bind_throw _ _ _ _ _ H)). split; reflexivity.
  - intros Hm1 Hm2 Hr.
    destruct (CaptureBrowser_run (browser 1%nat) s Hm1) as (hr1 & H1 & _).
    fold s1 in H1. rewrite H1 in Hr. cbn [fst] in Hr. injection Hr as ->.
    destruct (CaptureBrowser_fault (browser 2%nat) (cleared s1) Hm2) as [H2 _].
    assert (Hs2 : s2 = with_calls (cleared s1) (top_window (cleared s1))
                                  [CallCaptureBrowser]).
    { subst s2. unfold world_after. now rewrite H2. }
    rewrite <- Hs2 in H2.
    apply bind_throw. rewrite (bind_run _ _ _ _ _ H1).
    cbn [SUCCEEDED E_FAIL Z.leb Z.compare].
    rewrite (bind_run _ _ _ _ _ (ClearImage_run _)).
    apply bind_throw. exact H2.
Qed.



(** C2.  The command does not degrade to an empty response when the
    browser yields no document.  The guard of [GetDocument] tests the
    address of the caller's pointer and never fires, the run of
    [CaptureBrowser] stops at the call through the null pointer, and
    [ExecuteInternal], which catches nothing, stops with it: no response
    is set, neither the empty success nor an error.  The same happens
    when the first run fails and the document is gone at the second. *)
Theorem C2_null_document_fault :
  current_browser_status blind_executor = 0 /\
  GetDocument no_document_env = Throw NULL_DOCUMENT /\
  ExecuteInternal 0 blind_executor sample_encoder sample_world
  = (Throw NULL_DOCUMENT,
     with_calls sample_world (top_window sample_world) [CallCaptureBrowser]) /\
  (forall response,
      fst (ExecuteInternal 0 blind_executor sample_encoder sample_world)
      <> Ret response) /\
  ExecuteInternal 0 fading_executor sample_encoder sample_world
  = (Throw NULL_DOCUMENT,
     with_calls sample_world (top_window sample_world)
                [CallCaptureBrowser; CallCaptureBrowser]).
Proof.
  split; [reflexivity|]. split; [reflexivity|].
  assert (H : ExecuteInternal 0 blind_executor sample_encoder sample_world
              = (Throw NULL_DOCUMENT,
                 with_calls sample_world (top_window sample_world)
                            [CallCaptureBrowser])).
  { destruct (proj1 (ExecuteInternal_fault 0 blind_executor sample_encoder
                                           sample_world eq_refl) eq_refl)
      as [H Hs].
    rewrite H. now rewrite Hs. }
  split; [exact H|]. split.
  - intros response. rewrite H. discriminate.
  - rewrite (proj2 (ExecuteInternal_fault 0 fading_executor sample_encoder
                                          sample_world eq_refl)
                   eq_refl eq_refl);
      [|vm_compute; reflexivity].
    vm_compute. reflexivity.
Qed.



(* ================================================================= *)
(** * Further properties *)

(** ** The window size helpers *)

(** X1.  [SetWindowSize] makes exactly one [SetWindowPos] call and
    verifies it by reading the size back.  It answers true only if the
    size read back is the requested one (or, when the rectangle cannot be
    read, only for a request of 0 by 0, since the two results then stay
    0); a refused request answers false and leaves the window alone; a
    request the window manager adjusts to another size answers false
    although the window has changed; an applied request whose sizes fit
    an [int] answers true when the rectangle can be read. *)
Theorem X1_SetWindowSize_verifies (e : Env) (width height : Z) (s : World) :
  let hwnd := top_level_window_handle e in
  let r := SetWindowSize e hwnd width height s in
  calls (snd r) = calls s ++ [CallSetWindowPos hwnd width height] /\
  image_ (snd r) = image_ s /\
  (fst r = Ret true ->
   (top_rect_available e = true /\
    outer_size (top_window (snd r)) = (width, height)) \/
   (top_rect_available e = false /\ width = 0 /\ height = 0)) /\
  (set_window_pos e (top_window s) width height = SwpRefused ->
   fst r = Ret false /\ top_window (snd r) = top_window s) /\
  (forall cx cy,
      set_window_pos e (top_window s) width height = SwpAdjusted cx cy ->
      top_rect_available e = true ->
      (Int32.wrap cx, Int32.wrap cy) <> (width, height) ->
      fst r = Ret false /\
      outer_size (top_window (snd r)) = (Int32.wrap cx, Int32.wrap cy)) /\
  (set_window_pos e (top_window s) width height = SwpApplied ->
   top_rect_available e = true ->
   Int32.in_range width -> Int32.in_range height ->
   fst r = Ret true /\ outer_size (top_window (snd r)) = (width, height)).
Proof.
  intros hwnd r. subst r hwnd.
  unfold SetWindowSize, os_SetWindowPos, GetWindowSize, os_GetWindowRect.
  run_prim. rewrite Z.eqb_refl.
  destruct (set_window_pos e (top_window s) width height) as [| |cx cy] eqn:Ep;
    cbn [top_window image_ calls fst snd win_rect].
  - (* applied *)
    destruct (top_rect_available e) eqn:Ea; cbn [fst snd top_window calls image_].
    + pose proof (Int32Facts.sub_add_cancel (left (win_rect (top_window s))) width) as Hw.
      pose proof (Int32Facts.sub_add_cancel (top (win_rect (top_window s))) height) as Hh.
      cbn [resized right left bottom top]. rewrite Hw, Hh.
      split; [reflexivity|]. split; [reflexivity|].
      unfold outer_size. cbn [win_rect resized right left bottom top].
      rewrite Hw, Hh.
      split; [|split; [discriminate|split; [discriminate|]]].
      * intros [= Hb]. left. split; [reflexivity|].
        apply andb_true_iff in Hb. rewrite !Z.eqb_eq in Hb.
        destruct Hb as [-> ->]. reflexivity.
      * intros _ _ Hrw Hrh.
        rewrite (Int32Facts.wrap_small _ Hrw), (Int32Facts.wrap_small _ Hrh).
        rewrite !Z.eqb_refl. auto.
    + split; [reflexivity|]. split; [reflexivity|].
      split; [|split; [discriminate|split; discriminate]].
      intros [= Hb]. right. split; [reflexivity|].
      destruct width, height; cbn in Hb; try discriminate. auto.
  - (* refused *)
    split; [reflexivity|]. split; [reflexivity|].
    split; [discriminate|]. split; [auto|]. split; discriminate.
  - (* adjusted *)
    destruct (top_rect_available e) eqn:Ea; cbn [fst snd top_window calls image_].
    + pose proof (Int32Facts.sub_add_cancel (left (win_rect (top_window s))) cx) as Hw.
      pose proof (Int32Facts.sub_add_cancel (top (win_rect (top_window s))) cy) as Hh.
      cbn [resized right left bottom top]. rewrite Hw, Hh.
      split; [reflexivity|]. split; [reflexivity|].
      unfold outer_size. cbn [win_rect resized right left bottom top].
      rewrite Hw, Hh.
      split; [|split; [discriminate|split; [|discriminate]]].
      * intros [= Hb]. left. split; [reflexivity|].
        apply andb_true_iff in Hb. rewrite !Z.eqb_eq in Hb.
        destruct Hb as [-> ->]. reflexivity.
      * intros cx' cy' [= <- <-] _ Hne. split; [|reflexivity].
        f_equal. apply andb_false_iff.
        destruct (Z.eqb_spec (Int32.wrap cx) width) as [Hx|Hx]; [|auto].
        destruct (Z.eqb_spec (Int32.wrap cy) height) as [Hy|Hy]; [|auto].
        exfalso. apply Hne. congruence.
    + split; [reflexivity|]. split; [reflexivity|].
      split; [|split; [discriminate|split; discriminate]].
      intros [= Hb]. right. split; [reflexivity|].
      destruct width, height; cbn in Hb; try discriminate. auto.
Qed.

Lemma X1_SetWindowSize_verifies_witness :
  fst (SetWindowSize clamping_env 1001 1000 954 sample_world) = Ret false /\
  outer_size (top_window (snd (SetWindowSize clamping_env 1001 1000 954 sample_world)))
  = (1000, 800) /\
  fst (SetWindowSize clamping_env 1001 1000 780 sample_world) = Ret true.
Proof.
  destruct (X1_SetWindowSize_verifies clamping_env 1000 954 sample_world)
    as (_ & _ & _ & _ & Hadj & _).
  destruct (Hadj 1000 800) as [Hf Hs];
    [reflexivity | reflexivity | vm_compute; discriminate |].
  destruct (X1_SetWindowSize_verifies clamping_env 1000 780 sample_world)
    as (_ & _ & _ & _ & _ & Happ).
  destruct Happ as [Ht _];
    [reflexivity | reflexivity | vm_compute; split; discriminate
     | vm_compute; split; discriminate |].
  split; [exact Hf|]. split; [exact Hs | exact Ht].
Defined.

(** ** The uniform-colour check *)

(** X2.  On images of 32 bits per pixel the verdict of
    [IsImageSameColour] depends on the pixels of the checked region only:
    two images of the same shape that agree on the region, clipped to the
    image, get the same verdict; a uniform verdict is kept when the
    region shrinks; and check sizes beyond the image are the same as the
    size of the image. *)
Theorem X2_uniform_check_local :
  (forall image image' cw ch,
      img_bpp image = 32 -> same_shape image image' ->
      (forall x y,
          0 <= x < Z.min cw (img_width image) ->
          0 <= y < Z.min ch (img_height image) ->
          pixel image' x y = pixel image x y) ->
      IsImageSameColour image' cw ch = IsImageSameColour image cw ch) /\
  (forall image cw ch cw' ch',
      img_bpp image = 32 -> cw' <= cw -> ch' <= ch ->
      IsImageSameColour image cw ch = Ret true ->
      IsImageSameColour image cw' ch' = Ret true) /\
  (forall image cw ch,
      img_width image <= cw -> img_height image <= ch ->
      IsImageSameColour image cw ch
      = IsImageSameColour image (img_width image) (img_height image)).
Proof.
  split; [|split].
  - intros image image' cw ch Hbpp (Hw & Hh & Hb & Hp) Hagree.
    assert (Hbpp' : img_bpp image' = 32) by congruence.
    destruct (IsImageSameColour_32 image cw ch Hbpp) as (b & -> & Hiff).
    destruct (IsImageSameColour_32 image' cw ch Hbpp') as (b' & -> & Hiff').
    f_equal.
    assert (Hequiv : uniform_within image' cw ch <-> uniform_within image cw ch).
    { unfold uniform_within. rewrite Hw, Hh. split; intros H x y Hx Hy.
      - rewrite <- (Hagree x y Hx Hy), <- (Hagree 0 0) by lia. now apply H.
      - rewrite (Hagree x y Hx Hy), (Hagree 0 0) by lia. now apply H. }
    destruct b, b'; try reflexivity.
    + apply Hiff'. apply Hequiv. now apply Hiff.
    + symmetry. apply Hiff. apply Hequiv. now apply Hiff'.
  - intros image cw ch cw' ch' Hbpp Hcw Hch Hu.
    destruct (IsImageSameColour_32 image cw ch Hbpp) as (b & Hb & Hiff).
    destruct (IsImageSameColour_32 image cw' ch' Hbpp) as (b' & -> & Hiff').
    rewrite Hb in Hu. injection Hu as ->. f_equal. apply Hiff'.
    intros x y Hx Hy. apply (proj1 Hiff eq_refl); lia.
  - intros image cw ch Hw Hh. unfold IsImageSameColour.
    destruct (negb (img_bpp image =? 32)); [reflexivity|].
    rewrite !min_spec.
    replace (Z.min cw (img_width image)) with (img_width image) by lia.
    replace (Z.min ch (img_height image)) with (img_height image) by lia.
    now rewrite !Z.min_id.
Qed.

Lemma X2_uniform_check_local_witness :
  IsImageSameColour banded_image 50 40 = Ret true /\
  IsImageSameColour banded_image 5000 7000 = IsImageSameColour banded_image 100 300.
Proof.
  destruct X2_uniform_check_local as (_ & Hmono & Hclip). split.
  - apply (Hmono banded_image 83 63); [reflexivity | lia | lia |].
    vm_compute. reflexivity.
  - apply Hclip; cbn; lia.
Defined.

(** ** The paint capture, call by call *)

Lemma CaptureView_exact (e : Env) (h : HWND) (w ht cw ch : Z) (s : World) :
  CaptureView e h w ht cw ch s
  = match CImage_Create e w ht 32 with
    | None => (Ret None, s)
    | Some image0 =>
        (Ret (Some (painted e image0 (last_try e image0 cw ch))),
         with_calls s (top_window s)
           (flat_map (try_calls e h image0 cw ch)
                     (seq 1 (last_try e image0 cw ch))))
    end.
Proof.
  unfold CaptureView.
  destruct (CImage_Create e w ht 32) as [image0|] eqn:Ec; [|reflexivity].
  destruct (CImage_Create_Some _ _ _ _ _ Ec) as (_ & _ & _ & Hbpp).
  assert (Hp : forall i, img_bpp (painted e image0 i) = 32) by (intros; exact Hbpp).
  assert (Hpp : forall i j, painted e (painted e image0 i) j = painted e image0 j)
    by reflexivity.
  assert (Hacc : forall i j, accepts e (painted e image0 i) cw ch j
                             = accepts e image0 cw ch j) by reflexivity.
  unfold last_try, bind at 1.
  rewrite capture_tries_step by assumption.
  destruct (accepts e image0 cw ch 1) eqn:E1.
  { cbn [seq flat_map]. unfold try_calls. rewrite E1. reflexivity. }
  rewrite capture_tries_step, Hacc, Hpp by apply Hp.
  destruct (accepts e image0 cw ch 2) eqn:E2.
  { cbn [seq flat_map]. unfold try_calls. rewrite E1, E2.
    unfold ret. rewrite with_calls_with_calls. reflexivity. }
  rewrite capture_tries_step, Hacc, Hpp by apply Hp.
  cbn [seq flat_map]. unfold try_calls. rewrite E1, E2.
  destruct (accepts e image0 cw ch 3) eqn:E3.
  - unfold ret. rewrite !with_calls_with_calls. reflexivity.
  - cbn [capture_tries]. unfold ret. rewrite !with_calls_with_calls. reflexivity.
Qed.

(** X3.  [CaptureView] touches neither the top-level window nor the
    handler's [image_]; when the bitmap cannot be created it makes no
    call at all.  Otherwise its calls are, for each try up to the last
    one, [PrintWindow], followed by [UpdateWindow] when the try is
    rejected: a repaint is forced after every rejected try, the third
    included, and never after an accepted one. *)
Theorem X3_CaptureView_calls (e : Env) (view_handle : HWND)
        (width height check_width check_height : Z) (s : World) :
  let s' := snd (CaptureView e view_handle width height check_width check_height s) in
  top_window s' = top_window s /\
  image_ s' = image_ s /\
  (CImage_Create e width height 32 = None -> s' = s) /\
  (forall image0,
      CImage_Create e width height 32 = Some image0 ->
      let k := last_try e image0 check_width check_height in
      calls s' = calls s ++
                 flat_map (try_calls e view_handle image0 check_width check_height)
                          (seq 1 k) /\
      List.length (filter is_update_call (skipn (List.length (calls s)) (calls s')))
      = if accepts e image0 check_width check_height k then (k - 1)%nat else 3%nat).
Proof.
  intros s'. subst s'. rewrite CaptureView_exact.
  destruct (CImage_Create e width height 32) as [image0|] eqn:Ec.
  - cbn [snd with_calls top_window image_ calls].
    split; [reflexivity|]. split; [reflexivity|]. split; [discriminate|].
    intros image1 [= <-]. cbn zeta. split; [reflexivity|].
    rewrite skipn_app, skipn_all, Nat.sub_diag. cbn [app skipn].
    pose proof (last_try_bounds e image0 check_width check_height) as Hb.
    cbn zeta in Hb. destruct Hb as (_ & Hrej & Hacc).
    unfold last_try in *.
    destruct (accepts e image0 check_width check_height 1) eqn:E1.
    { cbn [seq flat_map]. unfold try_calls. rewrite E1. reflexivity. }
    destruct (accepts e image0 check_width check_height 2) eqn:E2.
    { cbn [seq flat_map]. unfold try_calls. rewrite E1, E2. reflexivity. }
    cbn [seq flat_map]. unfold try_calls. rewrite E1, E2.
    destruct (accepts e image0 check_width check_height 3); reflexivity.
  - cbn [snd]. split; [reflexivity|]. split; [reflexivity|].
    split; [reflexivity | discriminate].
Qed.

Lemma X3_CaptureView_calls_witness :
  calls (snd (CaptureView banded_env 1002 100 300 83 63 sample_world))
  = [CallPrintWindow 1002; CallUpdateWindow 1002;
     CallPrintWindow 1002; CallUpdateWindow 1002;
     CallPrintWindow 1002; CallUpdateWindow 1002].
Proof.
  destruct (X3_CaptureView_calls banded_env 1002 100 300 83 63 sample_world)
    as (_ & _ & _ & H).
  destruct (H _ eq_refl) as [Hc _]. rewrite Hc. vm_compute. reflexivity.
Defined.

(** ** One run of [CaptureBrowser], call by call *)

Lemma increase_width_calls (e : Env) (m : bool) (ww wh vw : Z) (s : World) :
  let hwnd := top_level_window_handle e in
  let extent := natural_extent vw (canvas_clientWidth e) (canvas_scrollWidth e) in
  let rw := extent >? vw in
  let tvw := if rw then truncated extent else extent in
  let tww := if rw then Int32.add ww (Int32.sub tvw vw) else ww in
  calls (snd (increase_width e hwnd m ww wh vw s))
  = calls s ++
    (if rw then
       (if m then [CallShowWindow hwnd SW_SHOWNOACTIVATE] else []) ++
       [CallSetWindowPos hwnd tww wh]
     else []).
Proof.
  intros hwnd extent rw tvw tww. subst tww tvw. unfold increase_width.
  fold (natural_extent vw (canvas_clientWidth e) (canvas_scrollWidth e)).
  fold extent. fold rw. destruct rw eqn:Erw.
  - fold (truncated extent). destruct m.
    + destruct (os_ShowWindow_run e hwnd SW_SHOWNOACTIVATE s) as (w1 & H1 & _).
      rewrite (bind_run _ _ _ _ _ H1).
      match goal with
      | |- context [SetWindowSize e hwnd ?a ?b] =>
          destruct (SetWindowSize_run e hwnd a b
                      (with_calls s w1 [CallShowWindow hwnd SW_SHOWNOACTIVATE]))
            as (b2 & w2 & H2 & _ & _)
      end.
      rewrite (bind_run _ _ _ _ _ H2). cbn. now rewrite <- app_assoc.
    + unfold bind at 1. unfold ret at 1.
      match goal with
      | |- context [SetWindowSize e hwnd ?a ?b] =>
          destruct (SetWindowSize_run e hwnd a b s) as (b2 & w2 & H2 & _ & _)
      end.
      rewrite (bind_run _ _ _ _ _ H2). reflexivity.
  - cbn. now rewrite app_nil_r.
Qed.

Lemma increase_height_calls (e : Env) (m rw : bool) (wh vh sbw tww : Z)
      (s : World) :
  let hwnd := top_level_window_handle e in
  let extent := natural_extent vh (canvas_clientHeight e) (canvas_scrollHeight e) in
  let rh := extent >? vh in
  let tvh :=
    if rh then
      if sbw >? 0 then Int32.sub (truncated extent) 2 else truncated extent
    else extent in
  let twh := if rh then Int32.add wh (Int32.sub tvh vh) else wh in
  calls (snd (increase_height e hwnd m rw wh vh sbw tww s))
  = calls s ++
    (if rh then
       (if m && negb rw then [CallShowWindow hwnd SW_SHOWNOACTIVATE] else []) ++
       [CallSetWindowPos hwnd tww twh]
     else []).
Proof.
  intros hwnd extent rh tvh twh. subst twh tvh. unfold increase_height.
  fold (natural_extent vh (canvas_clientHeight e) (canvas_scrollHeight e)).
  fold extent. fold rh. destruct rh eqn:Erh.
  - fold (truncated extent). destruct (m && negb rw).
    + destruct (os_ShowWindow_run e hwnd SW_SHOWNOACTIVATE s) as (w1 & H1 & _).
      rewrite (bind_run _ _ _ _ _ H1).
      match goal with
      | |- context [SetWindowSize e hwnd ?a ?b] =>
          destruct (SetWindowSize_run e hwnd a b
                      (with_calls s w1 [CallShowWindow hwnd SW_SHOWNOACTIVATE]))
            as (b2 & w2 & H2 & _ & _)
      end.
      rewrite (bind_run _ _ _ _ _ H2). cbn. now rewrite <- app_assoc.
    + unfold bind at 1. unfold ret at 1.
      match goal with
      | |- context [SetWindowSize e hwnd ?a ?b] =>
          destruct (SetWindowSize_run e hwnd a b s) as (b2 & w2 & H2 & _ & _)
      end.
      rewrite (bind_run _ _ _ _ _ H2). reflexivity.
  - cbn. now rewrite app_nil_r.
Qed.

Lemma final_client_size_exact (e : Env) (rw rh : bool) (cw ch : Z) (s : World) :
  let ok := fun p : Z * Z =>
              (negb rw || negb (fst p =? cw)) && (negb rh || negb (snd p =? ch)) in
  final_client_size e rw rh cw ch s
  = if rw || rh then
      if ok (canvas_client_after e 0) then (Ret (canvas_client_after e 0), s)
      else if ok (canvas_client_after e 1) then
             (Ret (canvas_client_after e 1),
              with_calls s (top_window s) [CallRecalc false])
           else
             (Ret (canvas_client_after e 1),
              with_calls s (top_window s) [CallRecalc false; CallRecalc true])
    else (Ret (cw, ch), s).
Proof.
  intros ok. subst ok. unfold final_client_size.
  destruct (rw || rh); [|reflexivity].
  cbn [resample_client].
  destruct (canvas_client_after e 0) as [a0 b0]. cbn [fst snd].
  destruct ((negb rw || negb (a0 =? cw)) && (negb rh || negb (b0 =? ch)));
    [reflexivity|].
  destruct (canvas_client_after e 1) as [a1 b1]. cbn [fst snd].
  destruct ((negb rw || negb (a1 =? cw)) && (negb rh || negb (b1 =? ch))).
  - reflexivity.
  - unfold doc_recalc. run_prim. cbn. now rewrite <- app_assoc.
Qed.

(** The part of a run that follows the preliminary queries, with its
    calls. *)
Lemma capture_resized_trace (e : Env) (ww wh vw vh : Z) (s : World) :
  exists l w' img,
    capture_resized e (top_level_window_handle e) (content_window_handle e)
                    ww wh vw vh s
    = (Ret (hresult_of img, Some l),
       {| top_window := w'; image_ := img; calls := calls s ++ run_trace e l |}) /\
    fr_is_maximized l = win_zoomed (top_window s) /\
    (fr_sampledClientWidth l, fr_sampledClientHeight l)
    = if resized_any l then
        if round_ok l (canvas_client_after e 0) then canvas_client_after e 0
        else canvas_client_after e 1
      else (fr_clientWidth l, fr_clientHeight l).
Proof.
  unfold capture_resized.
  assert (Hz : os_IsZoomed e (top_level_window_handle e) s
               = (Ret (win_zoomed (top_window s)), s)).
  { unfold os_IsZoomed. run_prim. now rewrite Z.eqb_refl. }
  rewrite (bind_run _ _ _ _ _ Hz).
  set (m := win_zoomed (top_window s)).
  destruct (increase_width_run e (top_level_window_handle e) m ww wh vw s)
    as (w1 & d1 & H1 & _).
  pose proof (increase_width_calls e m ww wh vw s) as Hc1.
  cbn zeta in Hc1. rewrite H1 in Hc1. cbn [snd with_calls calls] in Hc1.
  apply app_inv_head in Hc1. subst d1.
  rewrite (bind_run _ _ _ _ _ H1). cbv beta iota.
  set (sbw := max 0 (Int32.sub vw (canvas_clientWidth e))) in *.
  set (extw := natural_extent vw (canvas_clientWidth e) (canvas_scrollWidth e)) in *.
  set (rw := extw >? vw) in *.
  set (tvw := if rw then truncated extw else extw) in *.
  set (tww := if rw then Int32.add ww (Int32.sub tvw vw) else ww) in *.
  match type of H1 with
  | _ = (_, with_calls s w1 ?d) => set (d1 := d) in *
  end.
  destruct (increase_height_run e (top_level_window_handle e) m rw wh vh sbw tww
                                (with_calls s w1 d1))
    as (w2 & d2 & H2 & _).
  pose proof (increase_height_calls e m rw wh vh sbw tww (with_calls s w1 d1)) as Hc2.
  cbn zeta in Hc2. rewrite H2 in Hc2. cbn [snd with_calls calls] in Hc2.
  apply app_inv_head in Hc2. subst d2.
  rewrite (bind_run _ _ _ _ _ H2). cbv beta iota.
  set (sbh := max 0 (Int32.sub vh (canvas_clientHeight e))) in *.
  set (exth := natural_extent vh (canvas_clientHeight e) (canvas_scrollHeight e)) in *.
  set (rh := exth >? vh) in *.
  set (tvh := if rh then if sbw >? 0 then Int32.sub (truncated exth) 2
                         else truncated exth else exth) in *.
  set (twh := if rh then Int32.add wh (Int32.sub tvh vh) else wh) in *.
  match type of H2 with
  | _ = (_, with_calls _ w2 ?d) => set (d2 := d) in *
  end.
  rewrite with_calls_with_calls in *.
  pose proof (final_client_size_exact e rw rh (canvas_clientWidth e)
                (canvas_clientHeight e) (with_calls s w2 (d1 ++ d2))) as H3.
  cbn zeta in H3.
  set (ok := fun p : Z * Z =>
               (negb rw || negb (fst p =? canvas_clientWidth e)) &&
               (negb rh || negb (snd p =? canvas_clientHeight e))) in *.
  set (d3 := if rw || rh then
               if ok (canvas_client_after e 0) then []
               else if ok (canvas_client_after e 1) then [CallRecalc false]
                    else [CallRecalc false; CallRecalc true]
             else []).
  set (sampled := if rw || rh then
                    if ok (canvas_client_after e 0) then canvas_client_after e 0
                    else canvas_client_after e 1
                  else (canvas_clientWidth e, canvas_clientHeight e)).
  assert (H3' : final_client_size e rw rh (canvas_clientWidth e)
                  (canvas_clientHeight e) (with_calls s w2 (d1 ++ d2))
                = (Ret sampled, with_calls s w2 ((d1 ++ d2) ++ d3))).
  { rewrite H3. subst sampled d3.
    destruct (rw || rh);
      [destruct (ok (canvas_client_after e 0));
       [|destruct (ok (canvas_client_after e 1))]|];
      rewrite ?with_calls_with_calls; cbn [top_window with_calls];
      rewrite ?app_nil_r; reflexivity. }
  clear H3. destruct sampled as [scw sch] eqn:Es.
  rewrite (bind_run _ _ _ _ _ H3'). cbv beta iota.
  destruct (if (scw <? 1) || (sch <? 1) then (tvw, tvh) else (scw, sch))
    as [tcw tch] eqn:Ef.
  set (ckw := Int32.sub (canvas_clientWidth e) 17).
  set (ckh := Int32.sub (canvas_clientHeight e) 17).
  set (s3 := with_calls s w2 ((d1 ++ d2) ++ d3)).
  pose proof (CaptureView_exact e (content_window_handle e) tcw tch ckw ckh s3) as H4.
  set (img := match CImage_Create e tcw tch 32 with
              | None => None
              | Some image0 => Some (painted e image0 (last_try e image0 ckw ckh))
              end).
  set (d4 := match CImage_Create e tcw tch 32 with
             | None => []
             | Some image0 =>
                 flat_map (try_calls e (content_window_handle e) image0 ckw ckh)
                          (seq 1 (last_try e image0 ckw ckh))
             end).
  assert (H4' : CaptureView e (content_window_handle e) tcw tch ckw ckh s3
                = (Ret img, with_calls s w2 (((d1 ++ d2) ++ d3) ++ d4))).
  { rewrite H4. subst img d4 s3.
    destruct (CImage_Create e tcw tch 32).
    - rewrite with_calls_with_calls. reflexivity.
    - unfold with_calls. cbn. now rewrite !app_nil_r. }
  clear H4. rewrite (bind_run _ _ _ _ _ H4').
  set (s4 := {| top_window := w2; image_ := img;
                calls := calls s ++ ((d1 ++ d2) ++ d3) ++ d4 |}).
  assert (Hset : set_image_ img (with_calls s w2 (((d1 ++ d2) ++ d3) ++ d4))
                 = (Ret tt, s4)) by reflexivity.
  rewrite (bind_run _ _ _ _ _ Hset).
  destruct (restore_window_run e (top_level_window_handle e) rw rh m ww wh s4)
    as (w5 & d5 & H5 & _ & _ & Hn5 & Hm5 & Hb5).
  rewrite (bind_run _ _ _ _ _ H5).
  unfold get_image_ at 1. unfold bind at 1. unfold ret.
  cbn [with_calls image_ top_window calls s4].
  assert (Hd5 : d5 = if rw || rh then
                       [if m then CallShowWindow (top_level_window_handle e) SW_MAXIMIZE
                        else CallSetWindowPos (top_level_window_handle e) ww wh]
                     else []).
  { destruct (rw || rh) eqn:Er.
    - destruct m eqn:Em'.
      + now destruct (Hm5 eq_refl eq_refl).
      + now destruct (Hb5 eq_refl eq_refl).
    - now destruct (Hn5 eq_refl). }
  eexists _, w5, img. split; [|split].
  - apply f_equal2; [reflexivity|].
    unfold run_trace, growth_calls, resample_calls, paint_calls,
      restore_calls, resized_any, round_ok.
    cbn [fr_windowWidth fr_windowHeight fr_viewWidth fr_viewHeight
         fr_is_maximized fr_clientWidth fr_scrollWidth fr_scrollbarWidth
         fr_targetViewWidth fr_is_resized_width fr_clientHeight fr_scrollHeight
         fr_scrollbarHeight fr_targetViewHeight fr_is_resized_height
         fr_targetWindowWidth fr_targetWindowHeight fr_sampledClientWidth
         fr_sampledClientHeight fr_targetClientWidth fr_targetClientHeight
         fr_check_width fr_check_height].
    rewrite Hd5. unfold with_calls, s4. cbn [calls image_ top_window].
    subst d1 d2 d3 d4 ok. cbv beta.
    rewrite <- !app_assoc. reflexivity.
  - reflexivity.
  - unfold resized_any, round_ok.
    cbn [fr_clientWidth fr_clientHeight fr_is_resized_width fr_is_resized_height
         fr_sampledClientWidth fr_sampledClientHeight].
    symmetry. exact Es.
Qed.

Lemma CaptureBrowser_frame_trace (e : Env) (s : World) :
  document_missing e = false ->
  (queries_ok e = false /\
   CaptureBrowser_frame e s
   = (Ret (E_FAIL, None), with_calls s (top_window s) [CallCaptureBrowser])) \/
  (queries_ok e = true /\
   exists l w' img,
     CaptureBrowser_frame e s
     = (Ret (hresult_of img, Some l),
        {| top_window := w'; image_ := img;
           calls := calls s ++ CallCaptureBrowser :: run_trace e l |}) /\
     fr_is_maximized l = win_zoomed (top_window s) /\
     (fr_sampledClientWidth l, fr_sampledClientHeight l)
     = if resized_any l then
         if round_ok l (canvas_client_after e 0) then canvas_client_after e 0
         else canvas_client_after e 1
       else (fr_clientWidth l, fr_clientHeight l)).
Proof.
  unfold document_missing, CaptureBrowser_frame, queries_ok. intros Hm.
  set (s0 := with_calls s (top_window s) [CallCaptureBrowser]).
  assert (H0 : record_call CallCaptureBrowser s = (Ret tt, s0)) by reflexivity.
  rewrite (bind_run _ _ _ _ _ H0).
  destruct ((top_level_window_handle e =? 0) || (content_window_handle e =? 0));
    [left; split; reflexivity|].
  cbn [negb andb] in Hm. apply negb_false_iff in Hm.
  assert (Hd : GetDocument e = Ret (negb (FAILED (hr_query_document3 e)))).
  { unfold GetDocument. rewrite Hm. cbn [negb].
    destruct (FAILED (hr_query_document3 e)); reflexivity. }
  assert (Hr : raise (GetDocument e) s0
               = (Ret (negb (FAILED (hr_query_document3 e))), s0))
    by (unfold raise; now rewrite Hd).
  rewrite (bind_run _ _ _ _ _ Hr), Hd.
  destruct (FAILED (hr_query_document3 e)); cbn [negb andb];
    [left; split; reflexivity|].
  destruct (GetCanvas e); [|left; split; reflexivity].
  cbn [negb andb].
  assert (Hw : GetWindowSize e (top_level_window_handle e) s0
               = (Ret (if top_rect_available e
                       then Some (outer_size (top_window s)) else None), s0)).
  { unfold GetWindowSize, os_GetWindowRect. run_prim. rewrite Z.eqb_refl.
    destruct (top_rect_available e); reflexivity. }
  rewrite (bind_run _ _ _ _ _ Hw).
  destruct (top_rect_available e) eqn:Ea; [|left; split; reflexivity].
  destruct (outer_size (top_window s)) as [ww wh] eqn:Eo.
  cbn [andb].
  assert (Hv : exists r,
             GetWindowSize e (content_window_handle e) s0 = (Ret r, s0) /\
             ((if content_window_handle e =? top_level_window_handle e then true
               else match view_rect e with Some _ => true | None => false end)
              = match r with Some _ => true | None => false end)).
  { unfold GetWindowSize, os_GetWindowRect. run_prim. rewrite Ea.
    destruct (content_window_handle e =? top_level_window_handle e).
    - eexists. split; reflexivity.
    - rewrite Z.eqb_refl. destruct (view_rect e); eexists; split; reflexivity. }
  destruct Hv as (r & Hv & ->).
  rewrite (bind_run _ _ _ _ _ Hv).
  destruct r as [[vw vh]|]; [|left; split; reflexivity].
  right. split; [reflexivity|].
  destruct (capture_resized_trace e ww wh vw vh s0)
    as (l & w' & img & Hrun & Hz & Hs).
  exists l, w', img. rewrite Hrun. split; [|split; assumption].
  unfold s0, with_calls. cbn [calls]. rewrite <- app_assoc. reflexivity.
Qed.



(** The calls of a run with a frame. *)

Lemma frame_of_trace (e : Env) (s : World) (l : Frame) :
  frame_of e s = Some l ->
  calls (world_after e s) = calls s ++ CallCaptureBrowser :: run_trace e l /\
  fr_is_maximized l = win_zoomed (top_window s) /\
  (fr_sampledClientWidth l, fr_sampledClientHeight l)
  = if resized_any l then
      if round_ok l (canvas_client_after e 0) then canvas_client_after e 0
      else canvas_client_after e 1
    else (fr_clientWidth l, fr_clientHeight l).
Proof.
  intros Hf. pose proof (frame_has_document e s l Hf) as Hd. revert Hf.
  unfold frame_of, world_after, CaptureBrowser.
  destruct (CaptureBrowser_frame_trace e s Hd)
    as [[_ H] | (_ & l' & w' & img & H & Hm & Hs)].
  - rewrite H. discriminate.
  - rewrite (bind_run _ _ _ _ _ H), H. cbn. intros [= ->]. auto.
Qed.

(** X5.  The calls of a run of [CaptureBrowser] that passes the
    preliminary queries are, in this order: the entry trace; for the
    width, if it grows, the demaximizing of a maximized window and the
    request for the wider window; for the height, if it grows, the
    demaximizing (only if the width did not grow) and the request for the
    higher window; the recalculations of the re-sampling; the tries of
    the capture; and, if an axis grew, the restoring call. *)
Theorem X5_call_sequence (e : Env) (s : World) (l : Frame) :
  frame_of e s = Some l ->
  calls (world_after e s)
  = calls s ++ [CallCaptureBrowser] ++ growth_calls e l ++ resample_calls e l
          ++ paint_calls e l ++ restore_calls e l.
Proof.
  intros Hf. destruct (frame_of_trace e s l Hf) as [Hc _].
  rewrite Hc. reflexivity.
Qed.

Lemma X5_call_sequence_witness :
  calls (world_after stale_env maximized_world)
  = [CallCaptureBrowser;
     CallShowWindow 1001 SW_SHOWNOACTIVATE; CallSetWindowPos 1001 1936 1310;
     CallRecalc false; CallRecalc true;
     CallPrintWindow 1002;
     CallShowWindow 1001 SW_MAXIMIZE].
Proof.
  rewrite (X5_call_sequence stale_env maximized_world _ eq_refl).
  vm_compute. reflexivity.
Defined.

Lemma filter_none {A} (f : A -> bool) (d : list A) :
  (forall c, In c d -> f c = false) -> filter f d = [].
Proof.
  induction d as [|c d IH]; [reflexivity|]. intros H. cbn [filter].
  rewrite (H c (or_introl eq_refl)). apply IH. intros c' Hc. apply H. now right.
Qed.

Lemma paint_calls_kind (e : Env) (l : Frame) (c : Call) :
  In c (paint_calls e l) ->
  c = CallPrintWindow (content_window_handle e) \/
  c = CallUpdateWindow (content_window_handle e).
Proof.
  unfold paint_calls.
  destruct (CImage_Create e _ _ 32) as [image0|]; [|intros []].
  rewrite in_flat_map. intros (i & _ & Hc). unfold try_calls in Hc.
  destruct (accepts e image0 _ _ i); cbn in Hc; intuition auto.
Qed.

Lemma resample_calls_kind (e : Env) (l : Frame) (c : Call) :
  In c (resample_calls e l) -> exists b, c = CallRecalc b.
Proof.
  unfold resample_calls.
  destruct (resized_any l); [|intros []].
  destruct (round_ok l (canvas_client_after e 0)); [intros []|].
  destruct (round_ok l (canvas_client_after e 1)); cbn; intros H;
    intuition eauto.
Qed.

(** X6.  Demaximizing is lazy.  [ShowWindow(SW_SHOWNOACTIVATE)] is
    called once if the window is maximized on entry and an axis grows,
    and not at all otherwise; it then comes before every [SetWindowPos].
    The calls to the window manager are, in order: that demaximizing,
    the request for the wider window, the request for the higher window
    and the restoring call, each present only if it applies. *)
Theorem X6_lazy_demaximize (e : Env) (s : World) (l : Frame) (d : list Call) :
  frame_of e s = Some l ->
  calls (world_after e s) = calls s ++ d ->
  let top := top_level_window_handle e in
  let zoomed := win_zoomed (top_window s) in
  filter is_demaximize_call d
  = (if zoomed && resized_any l then [CallShowWindow top SW_SHOWNOACTIVATE] else []) /\
  windows d
  = (if zoomed && resized_any l then [CallShowWindow top SW_SHOWNOACTIVATE] else [])
    ++ (if fr_is_resized_width l
        then [CallSetWindowPos top (fr_targetWindowWidth l) (fr_windowHeight l)]
        else [])
    ++ (if fr_is_resized_height l
        then [CallSetWindowPos top (fr_targetWindowWidth l) (fr_targetWindowHeight l)]
        else [])
    ++ (if resized_any l then [restoring_call e (top_window s)] else []).
Proof.
  intros Hf Hd top zoomed.
  destruct (frame_of_trace e s l Hf) as (Hc & Hm & _).
  destruct (frame_of_run e s l Hf) as (_ & _ & _ & Hsize & _).
  rewrite Hc in Hd. apply app_inv_head in Hd. subst d.
  assert (Hrestore : restore_calls e l
                     = if resized_any l then [restoring_call e (top_window s)] else []).
  { unfold restore_calls, restoring_call. rewrite <- Hsize, Hm. reflexivity. }
  unfold run_trace, windows.
  cbn [filter is_demaximize_call is_window_call].
  rewrite !filter_app.
  rewrite (filter_none is_demaximize_call (resample_calls e l)),
          (filter_none is_demaximize_call (paint_calls e l)),
          (filter_none is_window_call (resample_calls e l)),
          (filter_none is_window_call (paint_calls e l)).
  2, 4: intros c Hin; destruct (paint_calls_kind e l c Hin) as [-> | ->]; reflexivity.
  2, 3: intros c Hin; destruct (resample_calls_kind e l c Hin) as [b ->]; reflexivity.
  rewrite Hrestore. unfold growth_calls, restoring_call, resized_any.
  fold top. fold zoomed. rewrite Hm. fold zoomed.
  destruct zoomed, (fr_is_resized_width l), (fr_is_resized_height l);
    cbn; split; reflexivity.
Qed.

Lemma X6_lazy_demaximize_witness :
  filter is_demaximize_call (calls (world_after stale_env maximized_world))
  = [CallShowWindow 1001 SW_SHOWNOACTIVATE].
Proof.
  apply (X6_lazy_demaximize stale_env maximized_world _
           (calls (world_after stale_env maximized_world)) eq_refl eq_refl).
Defined.

(** X7.  The re-sampling of the client size.  When no axis was resized
    the client size read before is kept and the document is not
    recalculated.  Otherwise the first sample is taken if it differs from
    the size read before on every resized axis; if not, the document is
    recalculated unforced and the second sample is taken, whatever it
    is, with a forced recalculation after it when it does not differ
    either.  So at most two recalculations are made, the unforced one
    first. *)
Theorem X7_resampling (e : Env) (s : World) (l : Frame) (d : list Call) :
  frame_of e s = Some l ->
  calls (world_after e s) = calls s ++ d ->
  (resized_any l = false ->
   (fr_sampledClientWidth l, fr_sampledClientHeight l)
   = (fr_clientWidth l, fr_clientHeight l) /\
   filter is_recalc_call d = []) /\
  (resized_any l = true ->
   round_ok l (canvas_client_after e 0) = true ->
   (fr_sampledClientWidth l, fr_sampledClientHeight l) = canvas_client_after e 0 /\
   filter is_recalc_call d = []) /\
  (resized_any l = true ->
   round_ok l (canvas_client_after e 0) = false ->
   (fr_sampledClientWidth l, fr_sampledClientHeight l) = canvas_client_after e 1 /\
   filter is_recalc_call d
   = if round_ok l (canvas_client_after e 1) then [CallRecalc false]
     else [CallRecalc false; CallRecalc true]).
Proof.
  intros Hf Hd.
  destruct (frame_of_trace e s l Hf) as (Hc & _ & Hs).
  rewrite Hc in Hd. apply app_inv_head in Hd. subst d.
  assert (Hrec : filter is_recalc_call (CallCaptureBrowser :: run_trace e l)
                 = resample_calls e l).
  { unfold run_trace. cbn [filter is_recalc_call]. rewrite !filter_app.
    rewrite (filter_none is_recalc_call (paint_calls e l)).
    2: intros c Hin; destruct (paint_calls_kind e l c Hin) as [-> | ->]; reflexivity.
    assert (filter is_recalc_call (growth_calls e l) = []) as ->.
    { unfold growth_calls.
      destruct (fr_is_resized_width l), (fr_is_resized_height l),
        (fr_is_maximized l); reflexivity. }
    assert (filter is_recalc_call (restore_calls e l) = []) as ->.
    { unfold restore_calls.
      destruct (resized_any l), (fr_is_maximized l); reflexivity. }
    cbn [app]. rewrite app_nil_r. apply forallb_filter_id.
    apply forallb_forall. intros c Hin.
    destruct (resample_calls_kind e l c Hin) as [b ->]. reflexivity. }
  rewrite Hrec. unfold resample_calls.
  split; [|split].
  - intros Hr. rewrite Hr in *. auto.
  - intros Hr H0. rewrite Hr, H0 in *. auto.
  - intros Hr H0. rewrite Hr, H0 in *. auto.
Qed.

Lemma X7_resampling_witness :
  exists l,
    frame_of stale_env sample_world = Some l /\
    (fr_sampledClientWidth l, fr_sampledClientHeight l) = (984, 646) /\
    filter is_recalc_call (calls (world_after stale_env sample_world))
    = [CallRecalc false; CallRecalc true].
Proof.
  eexists. split; [vm_compute; reflexivity|].
  destruct (X7_resampling stale_env sample_world _
              (calls (world_after stale_env sample_world)) eq_refl eq_refl)
    as (_ & _ & H).
  destruct H as [Hs Hr]; [reflexivity | reflexivity |].
  split; [exact Hs | exact Hr].
Defined.

(** X8.  The requested window size.  For sizes below 2^30 the window is
    asked to change by exactly the change of the view, on each axis.
    With a view width within the size limit the width never shrinks;
    with a view height below the limit the height shrinks by one pixel at
    most, and it does when the document is one pixel higher than the view
    shows and a vertical scrollbar is present, the natural growth of one
    pixel being outweighed by the two pixels taken off. *)
Theorem X8_window_growth (e : Env) (s : World) (l : Frame) :
  frame_of e s = Some l ->
  dimension (fr_windowWidth l) -> dimension (fr_windowHeight l) ->
  dimension (fr_viewWidth l) -> dimension (fr_viewHeight l) ->
  dimension (fr_clientWidth l) -> dimension (fr_clientHeight l) ->
  dimension (fr_scrollWidth l) -> dimension (fr_scrollHeight l) ->
  fr_targetWindowWidth l - fr_windowWidth l
  = fr_targetViewWidth l - fr_viewWidth l /\
  fr_targetWindowHeight l - fr_windowHeight l
  = fr_targetViewHeight l - fr_viewHeight l /\
  (fr_viewWidth l <= SIZE_LIMIT ->
   fr_windowWidth l <= fr_targetWindowWidth l) /\
  (fr_viewHeight l < SIZE_LIMIT ->
   fr_windowHeight l - 1 <= fr_targetWindowHeight l) /\
  (fr_viewHeight l < SIZE_LIMIT ->
   fr_scrollbarWidth l > 0 ->
   fr_scrollHeight l + Z.max 0 (fr_viewHeight l - fr_clientHeight l)
   = fr_viewHeight l + 1 ->
   fr_is_resized_height l = true /\
   fr_targetWindowHeight l = fr_windowHeight l - 1).
Proof.
  intros Hf Hww Hwh Hvw Hvh Hcw Hch Hsw Hsh.
  destruct (frame_of_run e s l Hf) as (d & _ & _ & _ & Hok).
  destruct (run_frame _ _ _ _ _ _ Hok)
    as [_ Hrw Htvw Htww _ Hrh Htvh Htwh _ _ _ _].
  cbn zeta in Htvw, Htvh.
  rewrite (natural_extent_plain _ _ _ Hvw Hcw Hsw) in Hrw, Htvw.
  rewrite (natural_extent_plain _ _ _ Hvh Hch Hsh) in Hrh, Htvh.
  rewrite !truncated_spec in *.
  unfold dimension, SIZE_LIMIT in *.
  set (nw := Z.max (fr_viewWidth l)
                   (fr_scrollWidth l + Z.max 0 (fr_viewWidth l - fr_clientWidth l))) in *.
  set (nh := Z.max (fr_viewHeight l)
                   (fr_scrollHeight l + Z.max 0 (fr_viewHeight l - fr_clientHeight l))) in *.
  assert (Hsub2 : fr_is_resized_height l = true ->
                  Int32.sub (Z.min nh 65534) 2 = Z.min nh 65534 - 2).
  { intros Hr. rewrite Hr in Hrh. symmetry in Hrh.
    rewrite Z.gtb_ltb, Z.ltb_lt in Hrh.
    apply Int32Facts.sub_small.
    unfold Int32.in_range, Int32.INT_MIN, Int32.INT_MAX. lia. }
  assert (Hw : fr_targetWindowWidth l
               = fr_windowWidth l + (fr_targetViewWidth l - fr_viewWidth l) /\
               (fr_is_resized_width l = true ->
                fr_targetViewWidth l = Z.min nw 65534 /\ nw > fr_viewWidth l) /\
               (fr_is_resized_width l = false ->
                fr_targetViewWidth l = fr_viewWidth l)).
  { rewrite Htww. destruct (fr_is_resized_width l).
    - symmetry in Hrw. rewrite Z.gtb_ltb, Z.ltb_lt in Hrw.
      rewrite Int32Facts.sub_small, Int32Facts.add_small;
        unfold Int32.in_range, Int32.INT_MIN, Int32.INT_MAX;
        repeat split; try discriminate; lia.
    - symmetry in Hrw. rewrite Z.gtb_ltb, Z.ltb_ge in Hrw.
      repeat split; try discriminate; lia. }
  assert (Hh : fr_targetWindowHeight l
               = fr_windowHeight l + (fr_targetViewHeight l - fr_viewHeight l) /\
               (fr_is_resized_height l = true ->
                nh > fr_viewHeight l /\
                fr_targetViewHeight l
                = if fr_scrollbarWidth l >? 0 then Z.min nh 65534 - 2
                  else Z.min nh 65534) /\
               (fr_is_resized_height l = false ->
                fr_targetViewHeight l = fr_viewHeight l /\ nh <= fr_viewHeight l)).
  { rewrite Htwh. destruct (fr_is_resized_height l).
    - rewrite (Hsub2 eq_refl) in Htvh.
      symmetry in Hrh. rewrite Z.gtb_ltb, Z.ltb_lt in Hrh.
      assert (Hb : Z.min nh 65534 - 2 <= fr_targetViewHeight l <= Z.min nh 65534)
        by (rewrite Htvh; destruct (fr_scrollbarWidth l >? 0); lia).
      rewrite Int32Facts.sub_small, Int32Facts.add_small;
        unfold Int32.in_range, Int32.INT_MIN, Int32.INT_MAX;
        repeat split; try discriminate; lia.
    - symmetry in Hrh. rewrite Z.gtb_ltb, Z.ltb_ge in Hrh.
      repeat split; try discriminate; lia. }
  destruct Hw as (Hw1 & Hw2 & Hw3). destruct Hh as (Hh1 & Hh2 & Hh3).
  split; [lia|]. split; [lia|]. split; [|split].
  - intros Hlim. destruct (fr_is_resized_width l).
    + destruct (Hw2 eq_refl). lia.
    + specialize (Hw3 eq_refl). lia.
  - intros Hlim. destruct (fr_is_resized_height l).
    + destruct (Hh2 eq_refl) as [Hgt Ht].
      destruct (fr_scrollbarWidth l >? 0); lia.
    + destruct (Hh3 eq_refl). lia.
  - intros Hlim Hsb Hone.
    assert (Hnh : nh = fr_viewHeight l + 1) by (subst nh; lia).
    destruct (fr_is_resized_height l).
    + destruct (Hh2 eq_refl) as [_ Ht]. split; [reflexivity|].
      assert (Hb : (fr_scrollbarWidth l >? 0) = true)
        by (rewrite Z.gtb_ltb, Z.ltb_lt; lia).
      rewrite Hb in Ht. lia.
    + destruct (Hh3 eq_refl). lia.
Qed.

Lemma X8_window_growth_witness :
  exists l,
    frame_of one_pixel_env sample_world = Some l /\
    fr_windowHeight l = 700 /\
    fr_targetWindowHeight l = 700 - 1.
Proof.
  eexists. split; [vm_compute; reflexivity|]. split; [reflexivity|].
  assert (Hd : forall z, 0 <= z <= 1000 -> dimension z)
    by (unfold dimension; lia).
  destruct (X8_window_growth one_pixel_env sample_world _ eq_refl)
    as (_ & _ & _ & _ & H); [apply Hd; cbn; lia ..|].
  destruct H as [_ Ht]; [vm_compute; reflexivity | vm_compute; reflexivity
                         | vm_compute; reflexivity |].
  exact Ht.
Defined.

(** ** The command handler, run by run *)

(** The world [ExecuteInternal] leaves, by the outcome of the runs of
    [CaptureBrowser]; it holds no image when a response is set. *)
Lemma ExecuteInternal_world (WD_SUCCESS : Z) (executor : Executor)
      (enc : Encoder) (s : World) :
  let browser := current_browser executor in
  let s1 := world_after (browser 1%nat) s in
  let s2 := world_after (browser 2%nat) (cleared s1) in
  current_browser_status executor = WD_SUCCESS ->
  snd (ExecuteInternal WD_SUCCESS executor enc s)
  = match fst (CaptureBrowser (browser 1%nat) s) with
    | Throw _ => s1
    | Ret hr1 =>
        if SUCCEEDED hr1 then cleared s1
        else match fst (CaptureBrowser (browser 2%nat) (cleared s1)) with
             | Throw _ => s2
             | Ret _ => cleared s2
             end
    end /\
  (forall response,
      fst (ExecuteInternal WD_SUCCESS executor enc s) = Ret response ->
      image_ (snd (ExecuteInternal WD_SUCCESS executor enc s)) = None).
Proof.
  intros browser s1 s2 Hst. unfold ExecuteInternal. fold browser.
  rewrite Hst, Z.eqb_refl. cbn [negb Nat.sub].
  assert (Htail : forall sc,
             exists response,
               (image <- get_image_ ;;
                let '(hr, base64_screenshot) :=
                  ConvImageToPngBase64string enc image EmptyString in
                if FAILED hr then ClearImage ;;; ret (SuccessResponse EmptyString)
                else ClearImage ;;; ret (SuccessResponse base64_screenshot)) sc
               = (Ret response, cleared sc)).
  { intros sc. unfold get_image_ at 1. unfold bind at 1.
    destruct (ConvImageToPngBase64string enc (image_ sc) EmptyString) as [hr data].
    destruct (FAILED hr);
      rewrite (bind_run _ _ _ _ _ (ClearImage_run sc)); eexists; reflexivity. }
  cbn [capture_attempts]. subst s2 s1. unfold world_after.
  destruct (CaptureBrowser (browser 1%nat) s) as [[hr1|what1] t1] eqn:E1;
    cbn [fst snd].
  2: { rewrite (bind_throw _ _ _ _ _ (bind_throw _ _ _ _ _ E1)).
       split; [reflexivity | discriminate]. }
  destruct (SUCCEEDED hr1) eqn:Ehr1.
  { assert (Hrun : forall k : World -> Outcome bool * World,
               (hr <- CaptureBrowser (browser 1%nat) ;;
                if SUCCEEDED hr then ret true else k) s = (Ret true, t1)).
    { intros k. rewrite (bind_run _ _ _ _ _ E1), Ehr1. reflexivity. }
    rewrite (bind_run _ _ _ _ _ (Hrun _)). cbn [negb].
    destruct (Htail t1) as (response & ->). split; reflexivity. }
  destruct (CaptureBrowser (browser 2%nat) (cleared t1)) as [[hr2|what2] t2] eqn:E2;
    cbn [fst snd].
  2: { assert (Hrun : (hr <- CaptureBrowser (browser 1%nat) ;;
                       if SUCCEEDED hr then ret true
                       else ClearImage ;;; capture_attempts browser 2 0) s
                      = (Throw what2, t2)).
       { rewrite (bind_run _ _ _ _ _ E1), Ehr1.
         rewrite (bind_run _ _ _ _ _ (ClearImage_run _)).
         cbn [capture_attempts]. apply bind_throw. exact E2. }
       rewrite (bind_throw _ _ _ _ _ Hrun). split; [reflexivity | discriminate]. }
  assert (Hrun : (hr <- CaptureBrowser (browser 1%nat) ;;
                  if SUCCEEDED hr then ret true
                  else ClearImage ;;; capture_attempts browser 2 0) s
                 = if SUCCEEDED hr2 then (Ret true, t2) else (Ret false, cleared t2)).
  { rewrite (bind_run _ _ _ _ _ E1), Ehr1.
    rewrite (bind_run _ _ _ _ _ (ClearImage_run _)).
    cbn [capture_attempts]. rewrite (bind_run _ _ _ _ _ E2).
    destruct (SUCCEEDED hr2); [reflexivity|].
    rewrite (bind_run _ _ _ _ _ (ClearImage_run _)). reflexivity. }
  destruct (SUCCEEDED hr2).
  - rewrite (bind_run _ _ _ _ _ Hrun). cbn [negb].
    destruct (Htail t2) as (response & ->). split; reflexivity.
  - rewrite (bind_run _ _ _ _ _ Hrun). cbn [negb]. split; reflexivity.
Qed.

(** X9.  The retry of [ExecuteInternal].  Without a current browser
    [CaptureBrowser] is not run.  With one it is run once when the first
    run succeeds and twice when it fails: the second run starts from the
    world the first one left, with the image cleared, and nothing is
    called after the last run.  A run that stops for want of a document
    is the last one, and nothing is called after it either.  The handler
    holds no image when the command returns. *)
Theorem X9_retry_on_failure (WD_SUCCESS : Z) (executor : Executor)
        (enc : Encoder) (s : World) :
  let browser := current_browser executor in
  let s1 := world_after (browser 1%nat) s in
  let s2 := world_after (browser 2%nat) (cleared s1) in
  let s' := snd (ExecuteInternal WD_SUCCESS executor enc s) in
  (current_browser_status executor <> WD_SUCCESS -> s' = s) /\
  (current_browser_status executor = WD_SUCCESS ->
   (forall response,
       fst (ExecuteInternal WD_SUCCESS executor enc s) = Ret response ->
       image_ s' = None) /\
   (fst (CaptureBrowser (browser 1%nat) s) = Ret S_OK ->
    calls s' = calls s1 /\
    entries (calls s') = entries (calls s) ++ [CallCaptureBrowser]) /\
   (fst (CaptureBrowser (browser 1%nat) s) = Ret E_FAIL ->
    calls s' = calls s2 /\
    entries (calls s')
    = entries (calls s) ++ [CallCaptureBrowser; CallCaptureBrowser]) /\
   (forall what,
       fst (CaptureBrowser (browser 1%nat) s) = Throw what ->
       s' = s1 /\
       entries (calls s') = entries (calls s) ++ [CallCaptureBrowser])).
Proof.
  intros browser s1 s2 s'. subst s'. split.
  - intros Hst. unfold ExecuteInternal. apply Z.eqb_neq in Hst.
    rewrite Hst. reflexivity.
  - intros Hst.
    destruct (ExecuteInternal_world WD_SUCCESS executor enc s Hst) as [Hw Himg].
    fold browser in Hw. fold s1 in Hw. fold s2 in Hw.
    pose proof (entries_after_run (browser 1%nat) s) as He1.
    pose proof (entries_after_run (browser 2%nat) (cleared s1)) as He2.
    fold s1 in He1. fold s1 s2 in He2. cbn [cleared calls] in He2.
    split; [exact Himg|]. rewrite Hw. split; [|split].
    + intros ->. cbn [SUCCEEDED S_OK Z.leb Z.compare cleared calls].
      split; [reflexivity | exact He1].
    + intros ->. cbn [SUCCEEDED E_FAIL Z.leb Z.compare].
      assert (Hc : calls (match fst (CaptureBrowser (browser 2%nat) (cleared s1)) with
                          | Ret _ => cleared s2
                          | Throw _ => s2
                          end) = calls s2)
        by (destruct (fst (CaptureBrowser (browser 2%nat) (cleared s1))); reflexivity).
      rewrite Hc. split; [reflexivity|].
      rewrite He2, He1, <- app_assoc. reflexivity.
    + intros what ->. split; [reflexivity | exact He1].
Qed.

Lemma X9_retry_on_failure_witness :
  entries (calls (snd (ExecuteInternal 0 flaky_executor sample_encoder sample_world)))
  = [CallCaptureBrowser; CallCaptureBrowser] /\
  entries (calls (snd (ExecuteInternal 0 sample_executor sample_encoder sample_world)))
  = [CallCaptureBrowser].
Proof.
  split.
  - apply (proj1 (proj2 (proj2 (proj2 (X9_retry_on_failure 0 flaky_executor
                                          sample_encoder sample_world) eq_refl)))).
    vm_compute. reflexivity.
  - apply (proj1 (proj2 (proj2 (X9_retry_on_failure 0 sample_executor sample_encoder
                                                    sample_world) eq_refl))).
    vm_compute. reflexivity.
Defined.

Lemma same_window_refl (w : Window) : same_window w w.
Proof. split; [reflexivity|]. split; [apply origin_kept_refl | reflexivity]. Qed.

Lemma cooperative_same_window (e : Env) (w0 w1 : Window) :
  cooperative e w0 -> same_window w0 w1 -> cooperative e w1.
Proof.
  intros [Hmax Happ] (Hsize & Hkeep & Hsame). split.
  - intros Hz. destruct Hkeep as (_ & _ & Hzz). rewrite Hzz in Hz.
    rewrite (Hsame Hz). auto.
  - intros Hz w Hw. rewrite Hsize. apply Happ.
    + destruct Hkeep as (_ & _ & Hzz). congruence.
    + eapply origin_kept_trans; eassumption.
Qed.

Lemma same_window_trans (w0 w1 w2 : Window) :
  same_window w0 w1 -> same_window w1 w2 -> same_window w0 w2.
Proof.
  intros (Hs1 & Hk1 & He1) (Hs2 & Hk2 & He2).
  split; [congruence|]. split; [eapply origin_kept_trans; eassumption|].
  intros Hz. specialize (He1 Hz). subst w1. auto.
Qed.

(** A run of [CaptureBrowser] in a cooperative environment ends with the
    window it started with. *)
Lemma run_keeps_window (e : Env) (s : World) :
  cooperative e (top_window s) ->
  same_window (top_window s) (top_window (world_after e s)).
Proof.
  intros [Hmax Happ].
  destruct (frame_of e s) as [l|] eqn:Hf.
  - destruct (frame_of_run e s l Hf) as (d & _ & _ & Hsize & Hok).
    pose proof (run_is_maximized _ _ _ _ _ _ Hok) as Hm.
    assert (Hw : fr_windowWidth l = fst (outer_size (top_window s)))
      by (now rewrite <- Hsize).
    assert (Hh : fr_windowHeight l = snd (outer_size (top_window s)))
      by (now rewrite <- Hsize).
    destruct (restoration e s l Hf Hmax) as [Ho Hz].
    { intros Hnz. rewrite Hw, Hh. now apply Happ. }
    split; [exact Ho|].
    destruct (resized_any l) eqn:Er.
    + destruct (win_zoomed (top_window s)) eqn:Ez.
      * destruct (run_remaximized _ _ _ _ _ _ Hok Er Hm) as [Hw' _].
        assert (Heq : top_window (world_after e s) = top_window s).
        { rewrite Hw'. destruct (top_window s) as [r z]. cbn in *.
          rewrite (Hmax eq_refl), Ez. reflexivity. }
        rewrite Heq. split; [apply origin_kept_refl | auto].
      * destruct (run_resized_back _ _ _ _ _ _ Hok Er Hm) as (Hz' & _ & Hrect).
        rewrite Hw, Hh in Hrect. specialize (Hrect (Happ eq_refl)).
        split; [|discriminate].
        unfold origin_kept. rewrite Hrect, Hz'. cbn. auto.
    + destruct (run_untouched _ _ _ _ _ _ Hok Er) as [-> _].
      split; [apply origin_kept_refl | auto].
  - rewrite (frameless_untouched e s Hf). cbn. apply same_window_refl.
Qed.

(** X10.  [ExecuteInternal] leaves the window as it found it.  If the
    environments of the two possible runs of [CaptureBrowser] cooperate
    in restoring the window, the outer size and the maximized flag of the
    top-level window after the command are those before it, whether the
    capture succeeds at the first run, at the second or not at all. *)
Theorem X10_command_keeps_window (WD_SUCCESS : Z) (executor : Executor)
        (enc : Encoder) (s : World) :
  cooperative (current_browser executor 1%nat) (top_window s) ->
  cooperative (current_browser executor 2%nat) (top_window s) ->
  let s' := snd (ExecuteInternal WD_SUCCESS executor enc s) in
  outer_size (top_window s') = outer_size (top_window s) /\
  win_zoomed (top_window s') = win_zoomed (top_window s).
Proof.
  intros Hc1 Hc2 s'. subst s'.
  assert (Hsame : same_window (top_window s)
                    (top_window (snd (ExecuteInternal WD_SUCCESS executor enc s)))).
  { destruct (Z.eq_dec (current_browser_status executor) WD_SUCCESS) as [Hst|Hst].
    - destruct (ExecuteInternal_world WD_SUCCESS executor enc s Hst) as [-> _].
      pose proof (run_keeps_window _ s Hc1) as H1.
      assert (H2 : same_window (top_window s)
                     (top_window (world_after (current_browser executor 2%nat)
                                    (cleared (world_after (current_browser executor 1%nat) s))))).
      { eapply same_window_trans; [exact H1|].
        apply (run_keeps_window (current_browser executor 2%nat)
                 (cleared (world_after (current_browser executor 1%nat) s))).
        cbn [cleared top_window].
        eapply cooperative_same_window; eassumption. }
      destruct (fst (CaptureBrowser (current_browser executor 1%nat) s))
        as [hr1|what1]; [|assumption].
      destruct (SUCCEEDED hr1); cbn [cleared top_window]; [assumption|].
      destruct (fst (CaptureBrowser (current_browser executor 2%nat) _));
        cbn [cleared top_window]; assumption.
    - unfold ExecuteInternal. apply Z.eqb_neq in Hst. rewrite Hst. cbn.
      apply same_window_refl. }
  destruct Hsame as (Ho & (_ & _ & Hz) & _). auto.
Qed.

Lemma X10_command_keeps_window_witness :
  outer_size (top_window (snd (ExecuteInternal 0 flaky_executor sample_encoder
                                               sample_world)))
  = (1000, 700).
Proof.
  apply (X10_command_keeps_window 0 flaky_executor sample_encoder sample_world).
  - split; [discriminate | reflexivity].
  - split; [discriminate | reflexivity].
Defined.

(** ** The base64 text *)

Lemma range_forallb (P : Z -> bool) (n : nat) :
  forallb P (map Z.of_nat (seq 0 n)) = true ->
  forall z, 0 <= z < Z.of_nat n -> P z = true.
Proof.
  intros H z Hz. rewrite forallb_forall in H. apply H.
  rewrite in_map_iff. exists (Z.to_nat z). split; [lia|].
  apply in_seq. lia.
Qed.

Lemma land_63_range (n : Z) : 0 <= Z.land n 63 < 64.
Proof.
  change 63 with (Z.ones 6). rewrite Z.land_ones by lia.
  apply Z.mod_pos_bound. reflexivity.
Qed.

Lemma sextet_alphabet_char (n : Z) : Atl.sextet n = alphabet_char (Z.land n 63).
Proof. reflexivity. Qed.

Lemma alphabet_char_spec (k : Z) :
  0 <= k < 64 ->
  unsextet (alphabet_char k) = k /\
  Ascii.eqb (alphabet_char k) "=" = false /\
  In (alphabet_char k) (list_ascii_of_string Atl.alphabet).
Proof.
  intros Hk.
  pose proof (range_forallb
                (fun k => (unsextet (alphabet_char k) =? k)
                          && negb (Ascii.eqb (alphabet_char k) "=")
                          && existsb (Ascii.eqb (alphabet_char k))
                                     (list_ascii_of_string Atl.alphabet))
                64 eq_refl k Hk) as H.
  cbv beta in H. apply andb_true_iff in H. destruct H as [H H3].
  apply andb_true_iff in H. destruct H as [H1 H2].
  split; [now apply Z.eqb_eq|]. split; [now apply negb_true_iff|].
  apply existsb_exists in H3. destruct H3 as (c & Hin & Hc).
  apply Ascii.eqb_eq in Hc. now subst c.
Qed.

Lemma list_ind3 {A} (P : list A -> Prop) :
  P [] -> (forall a, P [a]) -> (forall a b, P [a; b]) ->
  (forall a b c l, P l -> P (a :: b :: c :: l)) ->
  forall l, P l.
Proof.
  intros H0 H1 H2 H3 l.
  assert (H : P l /\ (forall a, P (a :: l)) /\ (forall a b, P (a :: b :: l))).
  { induction l as [|x l (IH0 & IH1 & IH2)]; [auto|].
    split; [apply IH1|]. split; [intros a; apply IH2|].
    intros a b. now apply H3. }
  apply H.
Qed.

Lemma encode_length (src : list Z) :
  Z.of_nat (String.length (Atl.encode src))
  = 4 * ((Z.of_nat (List.length src) + 2) / 3).
Proof.
  induction src as [| a | a b | a b c l IH] using list_ind3;
    try reflexivity.
  cbn [Atl.encode String.length List.length].
  rewrite !Nat2Z.inj_succ, IH.
  replace (Z.succ (Z.succ (Z.succ (Z.of_nat (List.length l)))) + 2)
    with (Z.of_nat (List.length l) + 2 + 1 * 3) by lia.
  rewrite Z.div_add by lia. lia.
Qed.

Lemma required_length_nocrlf (n : Z) :
  0 <= n <= 1073741824 ->
  Atl.Base64EncodeGetRequiredLength n Atl.ATL_BASE64_FLAG_NOCRLF
  = 4 * ((n + 2) / 3).
Proof.
  intros Hn. unfold Atl.Base64EncodeGetRequiredLength.
  change (Z.land Atl.ATL_BASE64_FLAG_NOCRLF Atl.ATL_BASE64_FLAG_NOPAD =? 0)
    with true.
  change (Z.land Atl.ATL_BASE64_FLAG_NOCRLF Atl.ATL_BASE64_FLAG_NOCRLF =? 0)
    with false.
  cbv iota zeta.
  rewrite (Z.quot_div_nonneg (n * 4) 3), (Z.rem_mod_nonneg n 3) by lia.
  assert (Hq : 0 <= n * 4 / 3 <= 1431655765)
    by (Z.to_euclidean_division_equations; lia).
  rewrite (Int32Facts.wrap_small (n * 4 / 3))
    by (unfold Int32.in_range, Int32.INT_MIN, Int32.INT_MAX; lia).
  pose proof (Z.mod_pos_bound n 3 eq_refl) as Hm.
  rewrite Int32Facts.add_small
    by (unfold Int32.in_range, Int32.INT_MIN, Int32.INT_MAX; lia).
  set (r := n * 4 / 3 + n mod 3).
  assert (Hr : 0 <= r <= 1431655768) by (unfold r; lia).
  rewrite (Z.rem_mod_nonneg r 76) by lia.
  rewrite (Z.rem_mod_nonneg (r mod 76) 4)
    by (try lia; apply Z.mod_pos_bound; lia).
  assert (Hmm : (r mod 76) mod 4 = r mod 4).
  { apply Z.mod_mod_divide. exists 19. reflexivity. }
  rewrite Hmm.
  assert (Hval : r = 4 * ((n + 2) / 3) - (if n mod 3 =? 1 then 2 else 0)).
  { unfold r. destruct (Z.eqb_spec (n mod 3) 1);
      Z.to_euclidean_division_equations; lia. }
  destruct (negb (r mod 76 =? 0) && negb (r mod 4 =? 0)) eqn:Eb.
  - apply andb_true_iff in Eb. destruct Eb as [_ Eb].
    apply negb_true_iff, Z.eqb_neq in Eb.
    pose proof (Z.mod_pos_bound r 4 eq_refl) as Hr4.
    rewrite (Int32Facts.sub_small 4 (r mod 4))
      by (unfold Int32.in_range, Int32.INT_MIN, Int32.INT_MAX; lia).
    rewrite Int32Facts.add_small
      by (unfold Int32.in_range, Int32.INT_MIN, Int32.INT_MAX; lia).
    destruct (Z.eqb_spec (n mod 3) 1);
      Z.to_euclidean_division_equations; lia.
  - apply andb_false_iff in Eb.
    assert (Hr4 : r mod 4 = 0).
    { destruct Eb as [Eb|Eb]; apply negb_false_iff, Z.eqb_eq in Eb.
      - rewrite <- Hmm, Eb. reflexivity.
      - exact Eb. }
    destruct (Z.eqb_spec (n mod 3) 1);
      Z.to_euclidean_division_equations; lia.
Qed.

(** X11.  The text [Base64Encode] writes has 4 characters for every 3
    bytes of the stream, the last group padded: 4 * ceil(n / 3)
    characters for [n] bytes.  For a stream of at most 2^30 bytes this is
    what [Base64EncodeGetRequiredLength] answers under
    [ATL_BASE64_FLAG_NOCRLF], so the buffer the converter allocates is
    filled exactly, the required length is positive exactly for a stream
    that is not empty, and the encoding cannot fail. *)
Theorem X11_base64_length :
  (forall src,
      Z.of_nat (String.length (Atl.encode src))
      = 4 * ((Z.of_nat (List.length src) + 2) / 3)) /\
  (forall n,
      0 <= n <= 1073741824 ->
      Atl.Base64EncodeGetRequiredLength n Atl.ATL_BASE64_FLAG_NOCRLF
      = 4 * ((n + 2) / 3)) /\
  (forall src,
      Z.of_nat (List.length src) <= 1073741824 ->
      let n := Z.of_nat (List.length src) in
      let required :=
        Atl.Base64EncodeGetRequiredLength n Atl.ATL_BASE64_FLAG_NOCRLF in
      Atl.Base64Encode src n required Atl.ATL_BASE64_FLAG_NOCRLF
      = Some (Atl.encode src) /\
      Z.of_nat (String.length (Atl.encode src)) = required /\
      (0 < required <-> src <> [])).
Proof.
  pose proof encode_length as Hlen.
  pose proof required_length_nocrlf as Hreq.
  split; [exact Hlen|]. split; [exact Hreq|].
  intros src Hn n required. subst required n.
  rewrite Hreq by lia. unfold Atl.Base64Encode.
  rewrite Hreq by lia. rewrite Z.ltb_irrefl, Nat2Z.id, firstn_all.
  split; [reflexivity|]. split; [apply Hlen|].
  destruct src as [|a src].
  - cbn. split; [lia | congruence].
  - split; [discriminate|]. intros _. cbn [List.length].
    rewrite Nat2Z.inj_succ. Z.to_euclidean_division_equations. lia.
Qed.

Lemma X11_base64_length_witness :
  Atl.Base64EncodeGetRequiredLength 5 Atl.ATL_BASE64_FLAG_NOCRLF = 4 * ((5 + 2) / 3) /\
  Atl.Base64Encode [77; 97; 110; 33; 10] 5 8 Atl.ATL_BASE64_FLAG_NOCRLF
  = Some (Atl.encode [77; 97; 110; 33; 10]).
Proof.
  destruct X11_base64_length as (_ & Hreq & Henc). split.
  - apply Hreq. lia.
  - apply (Henc [77; 97; 110; 33; 10]). cbn. lia.
Defined.

(** X12.  The text written holds no line break: each of its characters
    is one of the 64 characters of the base64 alphabet or the padding
    character [=], and none is a line feed or a carriage return. *)
Theorem X12_base64_alphabet (src : list Z) (c : ascii) :
  In c (list_ascii_of_string (Atl.encode src)) ->
  (In c (list_ascii_of_string Atl.alphabet) \/ c = "="%char) /\
  c <> "010"%char /\ c <> "013"%char.
Proof.
  assert (Hs : forall n, In (Atl.sextet n) (list_ascii_of_string Atl.alphabet)).
  { intros n. rewrite sextet_alphabet_char.
    apply alphabet_char_spec, land_63_range. }
  assert (Hmain : In c (list_ascii_of_string (Atl.encode src)) ->
                  In c (list_ascii_of_string Atl.alphabet) \/ c = "="%char).
  { induction src as [| a | a b | a b d l IH] using list_ind3.
    - intros [].
    - cbn [Atl.encode list_ascii_of_string In].
      intros [<- | [<- | [<- | [<- | []]]]]; auto.
    - cbn [Atl.encode list_ascii_of_string In].
      intros [<- | [<- | [<- | [<- | []]]]]; auto.
    - cbn [Atl.encode list_ascii_of_string In].
      intros [<- | [<- | [<- | [<- | Hin]]]]; auto. }
  intros Hin. specialize (Hmain Hin). split; [exact Hmain|].
  destruct Hmain as [Ha | ->]; [|split; discriminate].
  split; intros ->; vm_compute in Ha;
    repeat (destruct Ha as [Ha | Ha]; [discriminate|]); exact Ha.
Qed.

Lemma X12_base64_alphabet_witness :
  In "="%char (list_ascii_of_string (Atl.encode [77; 97])) /\
  (In "="%char (list_ascii_of_string Atl.alphabet) \/ "="%char = "="%char) /\
  "="%char <> "010"%char /\ "="%char <> "013"%char.
Proof.
  assert (H : In "="%char (list_ascii_of_string (Atl.encode [77; 97])))
    by (vm_compute; auto).
  split; [exact H|].
  exact (X12_base64_alphabet [77; 97] "="%char H).
Defined.

Lemma group_head (a b : Z) :
  is_byte a -> is_byte b ->
  let n1 := Z.land (Z.shiftr a 2) 63 in
  let n2 := Z.land (Z.lor (Z.shiftl (Z.land a 3) 4) (Z.shiftr b 4)) 63 in
  n1 * 4 + n2 / 16 = a /\ n2 mod 16 = b / 16.
Proof.
  intros Ha Hb.
  pose proof (range_forallb
                (fun a => forallb
                   (fun b =>
                      let n1 := Z.land (Z.shiftr a 2) 63 in
                      let n2 := Z.land (Z.lor (Z.shiftl (Z.land a 3) 4)
                                              (Z.shiftr b 4)) 63 in
                      (n1 * 4 + n2 / 16 =? a) && (n2 mod 16 =? b / 16))
                   (map Z.of_nat (seq 0 256)))
                256) as H.
  specialize (H ltac:(vm_compute; reflexivity) a Ha).
  pose proof (range_forallb _ 256 H b Hb) as H'. cbv beta zeta in H'.
  apply andb_true_iff in H'. rewrite !Z.eqb_eq in H'. exact H'.
Qed.

Lemma group_tail (b c : Z) :
  is_byte b -> is_byte c ->
  let n3 := Z.land (Z.lor (Z.shiftl (Z.land b 15) 2) (Z.shiftr c 6)) 63 in
  let n4 := Z.land c 63 in
  n3 / 4 = b mod 16 /\ (n3 mod 4) * 64 + n4 = c.
Proof.
  intros Hb Hc.
  pose proof (range_forallb
                (fun b => forallb
                   (fun c =>
                      let n3 := Z.land (Z.lor (Z.shiftl (Z.land b 15) 2)
                                              (Z.shiftr c 6)) 63 in
                      let n4 := Z.land c 63 in
                      (n3 / 4 =? b mod 16) && ((n3 mod 4) * 64 + n4 =? c))
                   (map Z.of_nat (seq 0 256)))
                256) as H.
  specialize (H ltac:(vm_compute; reflexivity) b Hb).
  pose proof (range_forallb _ 256 H c Hc) as H'. cbv beta zeta in H'.
  apply andb_true_iff in H'. rewrite !Z.eqb_eq in H'. exact H'.
Qed.

Lemma sextet_spec (n : Z) :
  unsextet (Atl.sextet n) = Z.land n 63 /\
  Ascii.eqb (Atl.sextet n) "=" = false.
Proof.
  rewrite sextet_alphabet_char.
  destruct (alphabet_char_spec _ (land_63_range n)) as (H1 & H2 & _). auto.
Qed.

(** X13.  Round trip.  Reading the text back gives the bytes that were
    encoded: no byte of the stream is lost or altered by the encoding,
    whatever the length of the stream. *)
Theorem X13_base64_round_trip (src : list Z) :
  Forall is_byte src -> decode (Atl.encode src) = src.
Proof.
  induction src as [| a | a b | a b c l IH] using list_ind3; intros Hb.
  - reflexivity.
  - inversion Hb as [|? ? Ha _]; subst.
    cbn [Atl.encode decode]. change (Ascii.eqb "=" "=") with true. cbv iota.
    destruct (sextet_spec (Z.shiftr a 2)) as [-> _].
    destruct (sextet_spec (Z.shiftl (Z.land a 3) 4)) as [-> _].
    destruct (group_head a 0 Ha) as [H _]; [unfold is_byte; lia|].
    cbn zeta in H. rewrite Z.shiftr_0_l, Z.lor_0_r in H. now rewrite H.
  - inversion Hb as [|? ? Ha Hb']; subst.
    inversion Hb' as [|? ? Hbb _]; subst.
    cbn [Atl.encode decode].
    destruct (sextet_spec (Z.shiftr a 2)) as [-> _].
    destruct (sextet_spec (Z.lor (Z.shiftl (Z.land a 3) 4) (Z.shiftr b 4)))
      as [-> _].
    destruct (sextet_spec (Z.shiftl (Z.land b 15) 2)) as [-> ->].
    change (Ascii.eqb "=" "=") with true. cbv iota.
    destruct (group_head a b Ha Hbb) as [H1 H2]. cbn zeta in H1, H2.
    destruct (group_tail b 0 Hbb) as [H3 _]; [unfold is_byte; lia|].
    cbn zeta in H3. rewrite Z.shiftr_0_l, Z.lor_0_r in H3.
    rewrite H1, H2, H3. f_equal. f_equal.
    unfold is_byte in Hbb. Z.to_euclidean_division_equations. lia.
  - inversion Hb as [|? ? Ha Hb']; subst.
    inversion Hb' as [|? ? Hbb Hb'']; subst.
    inversion Hb'' as [|? ? Hc Hl]; subst.
    cbn [Atl.encode decode].
    destruct (sextet_spec (Z.shiftr a 2)) as [-> _].
    destruct (sextet_spec (Z.lor (Z.shiftl (Z.land a 3) 4) (Z.shiftr b 4)))
      as [-> _].
    destruct (sextet_spec (Z.lor (Z.shiftl (Z.land b 15) 2) (Z.shiftr c 6)))
      as [-> ->].
    destruct (sextet_spec c) as [-> ->].
    destruct (group_head a b Ha Hbb) as [H1 H2]. cbn zeta in H1, H2.
    destruct (group_tail b c Hbb Hc) as [H3 H4]. cbn zeta in H3, H4.
    rewrite H1, H2, H3, H4, (IH Hl). f_equal. f_equal.
    unfold is_byte in Hbb. Z.to_euclidean_division_equations. lia.
Qed.

Lemma X13_base64_round_trip_witness :
  decode (Atl.encode [137; 80; 78; 71; 13; 10; 26; 10]) = [137; 80; 78; 71; 13; 10; 26; 10].
Proof.
  apply X13_base64_round_trip.
  repeat constructor; unfold is_byte; lia.
Defined.

Ltac failed_step E :=
  cbn [fst snd negb andb];
  split;
  [ split; [ intros H; rewrite H in E; discriminate
           | intros [H _]; discriminate ]
  | split; [ intros H; rewrite H in E; discriminate
           | discriminate ] ].

(** X14.  [ConvImageToPngBase64string] is all or nothing: it answers
    [S_OK] or a failure, and on a failure [data] is left as it was.
    Without an image the answer is [E_POINTER].  With one, and a PNG
    stream of at most 2^30 bytes, the answer is [S_OK] exactly when the
    stream could be created, saved to, measured and locked and is not
    empty; [data] is then the base64 text of the whole stream.  An empty
    stream gives [E_FAIL], and the encoding step itself never fails. *)
Theorem X14_conversion_outcome (enc : Encoder) (image : option CImage)
        (data0 : string) :
  let r := ConvImageToPngBase64string enc image data0 in
  (fst r = S_OK \/ FAILED (fst r) = true /\ snd r = data0) /\
  (image = None -> r = (E_POINTER, data0)) /\
  (forall img,
      image = Some img ->
      let stream := snd (image_Save enc img) in
      Z.of_nat (List.length stream) <= 1073741824 ->
      (fst r = S_OK <-> steps_ok enc img = true /\ stream <> []) /\
      (fst r = S_OK -> snd r = Atl.encode stream) /\
      (steps_ok enc img = true -> stream = [] -> r = (E_FAIL, data0))).
Proof.
  intros r. split; [|split].
  - subst r. unfold ConvImageToPngBase64string.
    destruct image as [img|]; [|right; split; reflexivity].
    destruct (FAILED (hr_CreateStreamOnHGlobal enc)) eqn:E1; [right; auto|].
    destruct (image_Save enc img) as [hr2 stream].
    destruct (FAILED hr2) eqn:E2; [right; auto|].
    destruct (FAILED (hr_Stat enc)) eqn:E3; [right; auto|].
    destruct (FAILED (hr_GetHGlobalFromStream enc)) eqn:E4; [right; auto|].
    destruct (_ <=? 0); [right; split; reflexivity|].
    destruct (negb (GlobalLock_ok enc)); [right; split; reflexivity|].
    destruct (Atl.Base64Encode _ _ _ _); [left | right; split]; reflexivity.
  - intros ->. reflexivity.
  - intros img -> stream Hlen. subst r stream.
    unfold ConvImageToPngBase64string, steps_ok.
    destruct (FAILED (hr_CreateStreamOnHGlobal enc)) eqn:E1.
    { failed_step E1. }
    destruct (image_Save enc img) as [hr2 stream]. cbn [fst snd] in *.
    destruct (FAILED hr2) eqn:E2.
    { failed_step E2. }
    destruct (FAILED (hr_Stat enc)) eqn:E3.
    { failed_step E3. }
    destruct (FAILED (hr_GetHGlobalFromStream enc)) eqn:E4.
    { failed_step E4. }
    cbn [negb andb].
    rewrite (Int32Facts.wrap_small (Z.of_nat (List.length stream)))
      by (unfold Int32.in_range, Int32.INT_MIN, Int32.INT_MAX; lia).
    rewrite required_length_nocrlf by lia.
    destruct stream as [|b stream].
    { cbn. split; [split; [discriminate | intros [_ H]; congruence]|].
      split; [discriminate | reflexivity]. }
    assert (Hpos : (4 * ((Z.of_nat (List.length (b :: stream)) + 2) / 3) <=? 0)
                   = false).
    { apply Z.leb_gt. cbn [List.length]. rewrite Nat2Z.inj_succ.
      Z.to_euclidean_division_equations. lia. }
    rewrite Hpos.
    destruct (GlobalLock_ok enc) eqn:E5; cbn [negb].
    + unfold Atl.Base64Encode. rewrite required_length_nocrlf by lia.
      rewrite Z.ltb_irrefl, Nat2Z.id, firstn_all. cbn [fst snd].
      split; [split; [intros _; split; [reflexivity | discriminate]
                     | reflexivity]|].
      split; [reflexivity | discriminate].
    + cbn [fst snd].
      split; [split; [discriminate | intros [H _]; discriminate]|].
      split; discriminate.
Qed.

Lemma X14_conversion_outcome_witness :
  ConvImageToPngBase64string sample_encoder (Some banded_image) EmptyString
  = (S_OK, "TWFu"%string) /\
  fst (ConvImageToPngBase64string locked_encoder (Some banded_image) EmptyString)
  <> S_OK.
Proof.
  split.
  - destruct (X14_conversion_outcome sample_encoder (Some banded_image) EmptyString)
      as (_ & _ & H).
    destruct (H banded_image eq_refl) as (H1 & H2 & _); [cbn; lia|].
    reflexivity.
  - destruct (X14_conversion_outcome locked_encoder (Some banded_image) EmptyString)
      as (_ & _ & H).
    destruct (H banded_image eq_refl) as (H1 & _); [cbn; lia|].
    intros Hs. apply H1 in Hs. destruct Hs as [Hs _]. discriminate.
Defined.
